(** * Personal finance tracker: goal ledger, expense listing and dashboard

    A shallow embedding of the backend of the personal finance tracker
    (Express routes over Mongoose models) and the proofs of the properties
    its specification states about it.

    Conventions of the embedding:
    - a JavaScript number holding an amount or a percentage is an exact
      rational ([Q]); numeric equality is [Qeq] ([==]). The arithmetic of
      the routes is taken exactly: the rounding of floating-point
      operations is not part of the embedding;
    - a string is the UTF-8 encoding of its text, and its length is counted
      in bytes, which is its JavaScript length when the text is ASCII;
    - what the platform does with a string that stands for a number
      ([Number(s)], [String(n)], the validator's [isFloat]) is a parameter of
      the routes that meet such strings, a [Platform];
    - a [Date] is its epoch time in milliseconds ([Z]); every operation that
      reads the clock ([new Date()], [Date.now]) takes the instant [now];
    - the goals collection is a finite map from document id to document; the
      expenses collection is the list of its documents in natural order;
    - a route handler is a function from the request and the collection to
      the HTTP response and the collection afterwards. *)

From Stdlib Require Import ZArith QArith Qround Lia List Permutation Sorted Ascii
  String DecimalString.
From stdpp Require Import gmap strings list.
Import ListNotations.

Local Open Scope Z_scope.

(** ** JavaScript numbers and strings *)

(** [a >= b] and [a > b] on numbers. *)
Definition Qgeb (a b : Q) : bool := Qle_bool b a.
Definition Qgtb (a b : Q) : bool := negb (Qle_bool a b).

(** [Math.max], [Math.min] and [Math.ceil]. *)
Definition Qmax (a b : Q) : Q := if Qle_bool a b then b else a.
Definition Qmin (a b : Q) : Q := if Qle_bool a b then a else b.
Definition Math_ceil (x : Q) : Z := Qceiling x.

(** [String.prototype.startsWith] *)
Fixpoint startsWith (p s : string) : bool :=
  match p, s with
  | EmptyString, _ => true
  | String a p', String b s' => Ascii.eqb a b && startsWith p' s'
  | String _ _, EmptyString => false
  end.

Fixpoint reverseOnto (s acc : string) : string :=
  match s with
  | EmptyString => acc
  | String c s' => reverseOnto s' (String c acc)
  end.

Definition reverse (s : string) : string := reverseOnto s EmptyString.

(** The character with the given UTF-8 bytes. *)
Definition utf8 (bytes : list nat) : string :=
  string_of_list_ascii (map ascii_of_nat bytes).

(** The characters that [String.prototype.trim] and the validator's [trim]
    remove, ECMAScript's WhiteSpace and LineTerminator: tab, line feed,
    vertical tab, form feed, carriage return, space, U+00A0, U+1680, U+2000
    to U+200A, U+2028, U+2029, U+202F, U+205F, U+3000 and U+FEFF. *)
Definition whiteSpace : list string :=
  map utf8
    [[9]; [10]; [11]; [12]; [13]; [32]; [194; 160]; [225; 154; 128];
     [226; 128; 128]; [226; 128; 129]; [226; 128; 130]; [226; 128; 131];
     [226; 128; 132]; [226; 128; 133]; [226; 128; 134]; [226; 128; 135];
     [226; 128; 136]; [226; 128; 137]; [226; 128; 138]; [226; 128; 168];
     [226; 128; 169]; [226; 128; 175]; [226; 129; 159]; [227; 128; 128];
     [239; 187; 191]]%nat.

(** [s] without the first [n] bytes. *)
Fixpoint dropBytes (n : nat) (s : string) : string :=
  match n, s with
  | S n', String _ s' => dropBytes n' s'
  | _, _ => s
  end.

(** What follows the character of [chars] that [s] starts with, if it
    starts with one. *)
Fixpoint dropOneOf (chars : list string) (s : string) : option string :=
  match chars with
  | [] => None
  | c :: chars' =>
      if startsWith c s then Some (dropBytes (String.length c) s)
      else dropOneOf chars' s
  end.

(** [s] without the characters of [chars] it starts with; [n] bounds their
    number. *)
Fixpoint dropLeading (chars : list string) (n : nat) (s : string) : string :=
  match n with
  | O => s
  | S n' =>
      match dropOneOf chars s with
      | Some rest => dropLeading chars n' rest
      | None => s
      end
  end.

Definition trimStart (s : string) : string :=
  dropLeading whiteSpace (String.length s) s.

(** The end of a string is the start of the string read backwards. *)
Definition trimEnd (s : string) : string :=
  reverse (dropLeading (map reverse whiteSpace) (String.length s) (reverse s)).

Definition trim (s : string) : string := trimEnd (trimStart s).

(** ** Numbers sent as text

    A JSON body may carry a number as a number or as a string; the
    validators of the routes read either as text and convert nothing. *)
Inductive JsonValue :=
| JNumber (q : Q)
| JString (s : string).

(** What the platform does with such text: [String(n)], the text of a
    number; [Number(s)], the number a string stands for, if it stands for
    one (not [NaN]); and the validator's [isFloat(s, { min })]. *)
Record Platform := {
  numberToString : Q -> string;
  stringToNumber : string -> option Q;
  isFloat : string -> Q -> bool
}.

(** ** Data model (models/Goal.js, models/Expense.js)

    The documents carry the fields that the routes below read or write. A
    goal's [autoContribute] block and [updatedAt] stamp are left out: no
    route here reads them, and without a request that writes the block a
    goal keeps its default, disabled, which the schema accepts. A request
    body that carries an [autoContribute] block is not part of the
    embedding. *)

Abbreviation UserId := positive (only parsing).
Abbreviation ObjectId := positive (only parsing).

Inductive Status := Active | Completed | Paused | Cancelled.
Inductive Priority := Low | Medium | High.

#[export] Instance Status_eq_dec : EqDecision Status.
Proof. solve_decision. Defined.

#[export] Instance Priority_eq_dec : EqDecision Priority.
Proof. solve_decision. Defined.

Module Contribution.
Record t := mk { amount : Q; date : Z; note : string }.
End Contribution.

Module Goal.
Record t := mk {
  user : UserId;
  title : string;
  description : option string;
  targetAmount : Q;
  currentAmount : Q;
  targetDate : Z;
  category : string;
  priority : Priority;
  status : Status;
  contributions : list Contribution.t;
  createdAt : Z
}.

Definition set_user (v : UserId) (g : t) : t :=
  mk v (title g) (description g) (targetAmount g) (currentAmount g)
     (targetDate g) (category g) (priority g) (status g) (contributions g)
     (createdAt g).
Definition set_title (v : string) (g : t) : t :=
  mk (user g) v (description g) (targetAmount g) (currentAmount g)
     (targetDate g) (category g) (priority g) (status g) (contributions g)
     (createdAt g).
Definition set_description (v : option string) (g : t) : t :=
  mk (user g) (title g) v (targetAmount g) (currentAmount g)
     (targetDate g) (category g) (priority g) (status g) (contributions g)
     (createdAt g).
Definition set_targetAmount (v : Q) (g : t) : t :=
  mk (user g) (title g) (description g) v (currentAmount g)
     (targetDate g) (category g) (priority g) (status g) (contributions g)
     (createdAt g).
Definition set_currentAmount (v : Q) (g : t) : t :=
  mk (user g) (title g) (description g) (targetAmount g) v
     (targetDate g) (category g) (priority g) (status g) (contributions g)
     (createdAt g).
Definition set_targetDate (v : Z) (g : t) : t :=
  mk (user g) (title g) (description g) (targetAmount g) (currentAmount g)
     v (category g) (priority g) (status g) (contributions g)
     (createdAt g).
Definition set_category (v : string) (g : t) : t :=
  mk (user g) (title g) (description g) (targetAmount g) (currentAmount g)
     (targetDate g) v (priority g) (status g) (contributions g)
     (createdAt g).
Definition set_priority (v : Priority) (g : t) : t :=
  mk (user g) (title g) (description g) (targetAmount g) (currentAmount g)
     (targetDate g) (category g) v (status g) (contributions g)
     (createdAt g).
Definition set_status (v : Status) (g : t) : t :=
  mk (user g) (title g) (description g) (targetAmount g) (currentAmount g)
     (targetDate g) (category g) (priority g) v (contributions g)
     (createdAt g).
Definition set_contributions (v : list Contribution.t) (g : t) : t :=
  mk (user g) (title g) (description g) (targetAmount g) (currentAmount g)
     (targetDate g) (category g) (priority g) (status g) v
     (createdAt g).
End Goal.

(** The [enum] of the goal schema's [category]. *)
Definition goalCategories : list string :=
  ["Emergency Fund"; "Vacation"; "Car"; "House"; "Education"; "Retirement";
   "Wedding"; "Medical"; "Business"; "Electronics"; "Other"]%string.

Definition orDefault {A} (d : A) (o : option A) : A :=
  match o with Some a => a | None => d end.

(** ** HTTP responses *)

(** One entry of a validation report: the field and the message. *)
Record FieldError := mkFieldError { field : string; message : string }.

Inductive Response (A : Type) : Type :=
| Ok (code : Z) (body : A)
| Fail (code : Z) (msg : string) (errors : list FieldError).
Arguments Ok {A} code body.
Arguments Fail {A} code msg errors.

Definition isOk {A} (r : Response A) : bool :=
  match r with Ok _ _ => true | Fail _ _ _ => false end.

(** The body of the answer a route gives with the collection afterwards. *)
Definition answered {A B} (r : Response A * B) : option A :=
  match fst r with Ok _ a => Some a | Fail _ _ _ => None end.

(** ** Schema validation of a goal document

    [goal.save()] runs the validators the schema declares, on the whole
    document: Mongoose validates every path of a loaded document, modified
    or not, unless [validateModifiedOnly] is set, and no call here sets it.
    The report lists the failing paths with the schema's messages. *)

Definition check (ok : bool) (f m : string) : list FieldError :=
  if ok then [] else [mkFieldError f m].

Definition contributionErrors (c : Contribution.t) : list FieldError :=
  check (Qgeb (Contribution.amount c) (1 # 100))
        "contributions.amount" "Contribution amount must be greater than 0"
  ++ check (String.length (Contribution.note c) <=? 200)%nat
        "contributions.note" "Note cannot exceed 200 characters".

Definition goalErrors (now : Z) (g : Goal.t) : list FieldError :=
  check (negb (String.eqb (Goal.title g) ""))
        "title" "Goal title is required"
  ++ check (String.length (Goal.title g) <=? 100)%nat
        "title" "Title cannot exceed 100 characters"
  ++ check (match Goal.description g with
            | Some d => (String.length d <=? 500)%nat
            | None => true
            end)
        "description" "Description cannot exceed 500 characters"
  ++ check (Qgeb (Goal.targetAmount g) (1 # 100))
        "targetAmount" "Target amount must be greater than 0"
  ++ check (Qgeb (Goal.currentAmount g) 0)
        "currentAmount" "Current amount cannot be negative"
  ++ check (now <? Goal.targetDate g)
        "targetDate" "Target date must be in the future"
  ++ check (bool_decide (Goal.category g ∈ goalCategories))
        "category"
        ("`" +:+ Goal.category g +:+ "` is not a valid enum value for path `category`.")
  ++ concat (map contributionErrors (Goal.contributions g)).

(** ** The goals collection *)

Abbreviation GoalDB := (gmap positive Goal.t) (only parsing).

(** [Goal.findOne({ _id: id, user: u })]. *)
Definition findOne (id : ObjectId) (u : UserId) (db : GoalDB) : option Goal.t :=
  match db !! id with
  | Some g => if decide (Goal.user g = u) then Some g else None
  | None => None
  end.

(** [goal.save()] of the document loaded under [id]: the validation report
    when it is not empty (a [ValidationError] is thrown and nothing is
    written), the collection with the document replaced otherwise. *)
Definition save (now : Z) (id : ObjectId) (g : Goal.t) (db : GoalDB)
  : list FieldError + GoalDB :=
  match goalErrors now g with
  | [] => inr (<[id := g]> db)
  | errs => inl errs
  end.

(** ** AddContribution *)

(** The sum the routes compute with
    [reduce((sum, contrib) => sum + contrib.amount, 0)]. *)
Definition sumAmounts (l : list Contribution.t) : Q :=
  fold_left (fun sum contrib => sum + Contribution.amount contrib)%Q l 0%Q.

(** The number that the schema stores when [v] is the [amount] of a pushed
    contribution: the number itself, or the number the string stands for.
    There is none when the string is empty, which is stored as [null] and
    refused by the path, a required one, or stands for no number, which is
    a cast error. *)
Definition castNumber (js : Platform) (v : JsonValue) : option Q :=
  match v with
  | JNumber q => Some q
  | JString s => if String.eqb s "" then None else stringToNumber js s
  end.

(** [this.currentAmount += amount], the result as the schema stores it: [+]
    adds two numbers, and concatenates the text of the number with
    [amount] when [amount] is a string; the schema then stores the number
    that the text stands for, and there is none when it stands for no
    number. The platform is given the number as a reduced fraction. *)
Definition plusAssign (js : Platform) (current : Q) (amount : JsonValue)
  : option Q :=
  match amount with
  | JNumber q => Some (current + q)%Q
  | JString s => stringToNumber js (numberToString js (Qred current) +:+ s)
  end.

(** The in-memory part of [goalSchema.methods.addContribution]: push the
    contribution (the sub-document gets its [amount] cast, its [date]
    default and its [note] trimmed), add to the running total, complete the
    goal at the target. There is no document to save when a cast fails. *)
Definition addContribution_mutate (js : Platform) (now : Z)
    (amount : JsonValue) (note : string) (g : Goal.t) : option Goal.t :=
  match castNumber js amount, plusAssign js (Goal.currentAmount g) amount with
  | Some stored, Some total =>
      let g1 := Goal.set_contributions
                  (Goal.contributions g ++ [Contribution.mk stored now (trim note)])
                  g in
      let g2 := Goal.set_currentAmount total g1 in
      Some (if Qgeb (Goal.currentAmount g2) (Goal.targetAmount g2)
            then Goal.set_status Completed g2
            else g2)
  | _, _ => None
  end.

(** [goalSchema.methods.addContribution]: the mutation, then [this.save()],
    which reports a failed cast with the validation errors. *)
Definition addContribution (js : Platform) (now : Z) (id : ObjectId)
    (amount : JsonValue) (note : string) (g : Goal.t) (db : GoalDB)
  : list FieldError + (Goal.t * GoalDB) :=
  match addContribution_mutate js now amount note g with
  | None => inl [mkFieldError "amount" "Cast to Number failed"]
  | Some g' =>
      match save now id g' db with
      | inl errs => inl errs
      | inr db' => inr (g', db')
      end
  end.

(** Body of [POST /api/goals/:id/contribute]; [amount] is sent as a number
    or as a string. *)
Module ContributeBody.
Record t := mk { amount : JsonValue; note : option string }.
End ContributeBody.

(** [isFloat({ min })] on a body value: the validator reads the value as
    text; the text of a number is a float whose value is the number. *)
Definition isFloatMin (js : Platform) (min : Q) (v : JsonValue) : bool :=
  match v with
  | JNumber q => Qgeb q min
  | JString s => isFloat js s min
  end.

(** The express-validator chain of the contribute route. *)
Definition contributeBodyErrors (js : Platform) (b : ContributeBody.t)
  : list FieldError :=
  check (isFloatMin js (1 # 100) (ContributeBody.amount b))
        "amount" "Contribution amount must be greater than 0"
  ++ check (match ContributeBody.note b with
            | Some n => (String.length n <=? 200)%nat
            | None => true
            end)
        "note" "Note cannot exceed 200 characters".

(** [note || ''] *)
Definition noteOrEmpty (n : option string) : string :=
  match n with Some s => s | None => ""%string end.

(** [POST /api/goals/:id/contribute]: [req.body.amount] is handed to
    [addContribution] as it was sent. *)
Definition contribute (js : Platform) (now : Z) (u : UserId) (id : ObjectId)
    (b : ContributeBody.t) (db : GoalDB) : Response Goal.t * GoalDB :=
  match contributeBodyErrors js b with
  | (_ :: _) as errs => (Fail 400 "Validation failed" errs, db)
  | [] =>
      match findOne id u db with
      | None => (Fail 404 "Goal not found" [], db)
      | Some goal =>
          if negb (bool_decide (Goal.status goal = Active))
          then (Fail 400 "Cannot contribute to inactive goal" [], db)
          else
            match addContribution js now id (ContributeBody.amount b)
                    (noteOrEmpty (ContributeBody.note b)) goal db with
            | inl _ => (Fail 500 "Server error while adding contribution" [], db)
            | inr (goal', db') => (Ok 200 goal', db')
            end
      end
  end.

(** ** Create and Update *)

(** A contribution as a body may spell it for the [contributions] path:
    the schema casts it to a sub-document, with the [date] default and the
    [note] trimmed. *)
Module BodyContribution.
Record t := mk { amount : Q; date : option Z; note : option string }.
End BodyContribution.

Definition castContribution (now : Z) (c : BodyContribution.t) : Contribution.t :=
  Contribution.mk (BodyContribution.amount c)
    (orDefault now (BodyContribution.date c))
    (trim (orDefault ""%string (BodyContribution.note c))).

(** The [enum] of the goal schema's [status]. *)
Definition statusOfName (s : string) : option Status :=
  if String.eqb s "Active" then Some Active
  else if String.eqb s "Completed" then Some Completed
  else if String.eqb s "Paused" then Some Paused
  else if String.eqb s "Cancelled" then Some Cancelled
  else None.

(** Body of [POST /api/goals]: the seven fields the route validates, and
    the other paths of the schema that the document is built from when the
    body carries them, [status], [contributions] and [createdAt]. Numbers
    are given as the schema casts them. A body's [user] is overwritten by
    the route; its [_id], if it has one, is the [_id] of the new document;
    its [autoContribute] block is left out with the document's. *)
Module CreateBody.
Record t := mk {
  title : string;
  targetAmount : Q;
  targetDate : Z;
  category : string;
  description : option string;
  priority : option Priority;
  currentAmount : option Q;
  status : option string;
  contributions : list BodyContribution.t;
  createdAt : option Z
}.
End CreateBody.

(** The express-validator chain of the create route; [title] is trimmed by
    the chain's sanitizer before it is checked. *)
Definition createBodyErrors (b : CreateBody.t) : list FieldError :=
  check (negb (String.eqb (trim (CreateBody.title b)) ""))
        "title" "Title is required"
  ++ check (String.length (trim (CreateBody.title b)) <=? 100)%nat
        "title" "Title cannot exceed 100 characters"
  ++ check (Qgeb (CreateBody.targetAmount b) (1 # 100))
        "targetAmount" "Target amount must be greater than 0"
  ++ check (negb (String.eqb (CreateBody.category b) ""))
        "category" "Category is required"
  ++ check (match CreateBody.description b with
            | Some d => (String.length d <=? 500)%nat
            | None => true
            end)
        "description" "Description cannot exceed 500 characters"
  ++ check (match CreateBody.currentAmount b with
            | Some c => Qgeb c 0
            | None => true
            end)
        "currentAmount" "Current amount cannot be negative".

(** [new Goal({ ...req.body, user })]: the schema defaults fill what the body
    leaves out; [timestamps] sets [createdAt] when the body has not. A
    [status] outside the enum is reported by [statusErrors]. *)
Definition newGoal (now : Z) (u : UserId) (b : CreateBody.t) : Goal.t :=
  Goal.mk u (trim (CreateBody.title b))
    (option_map trim (CreateBody.description b))
    (CreateBody.targetAmount b)
    (orDefault 0%Q (CreateBody.currentAmount b))
    (CreateBody.targetDate b)
    (CreateBody.category b)
    (orDefault Medium (CreateBody.priority b))
    (orDefault Active (CreateBody.status b ≫= statusOfName))
    (map (castContribution now) (CreateBody.contributions b))
    (orDefault now (CreateBody.createdAt b)).

(** The schema's [enum] validator for a [status] given as a string. *)
Definition statusErrors (status : option string) : list FieldError :=
  match status with
  | Some s =>
      check (bool_decide (is_Some (statusOfName s))) "status"
        ("`" +:+ s +:+ "` is not a valid enum value for path `status`.")
  | None => []
  end.

(** [POST /api/goals]; [id] is the [_id] the driver generates for the new
    document, and inserting under an [_id] already in the collection is the
    storage layer's duplicate-key error. *)
Definition createGoal (now : Z) (u : UserId) (id : ObjectId)
    (b : CreateBody.t) (db : GoalDB) : Response Goal.t * GoalDB :=
  match createBodyErrors b with
  | (_ :: _) as errs => (Fail 400 "Validation failed" errs, db)
  | [] =>
      if CreateBody.targetDate b <=? now
      then (Fail 400 "Target date must be in the future" [], db)
      else
        let goal := newGoal now u b in
        match goalErrors now goal ++ statusErrors (CreateBody.status b) with
        | (_ :: _) as errs => (Fail 400 "Validation failed" errs, db)
        | [] =>
            match db !! id with
            | Some _ => (Fail 500 "Server error while creating goal" [], db)
            | None => (Ok 201 goal, <[id := goal]> db)
            end
        end
  end.

(** Body of [PUT /api/goals/:id]: the eight fields the route validates,
    each optional, and the paths [user] and [contributions], which the route
    assigns like the others when the body carries them. A key [_id] is not
    part of the embedding: what [save()] then addresses is the driver's
    matter, not the route's. *)
Module UpdateBody.
Record t := mk {
  title : option string;
  targetAmount : option Q;
  targetDate : option Z;
  category : option string;
  description : option string;
  priority : option Priority;
  status : option Status;
  currentAmount : option Q;
  user : option UserId;
  contributions : option (list BodyContribution.t)
}.
End UpdateBody.

Definition optCheck {A} (o : option A) (p : A -> bool) (f m : string)
  : list FieldError :=
  match o with Some a => check (p a) f m | None => [] end.

(** The express-validator chain of the update route. *)
Definition updateBodyErrors (b : UpdateBody.t) : list FieldError :=
  optCheck (UpdateBody.title b) (fun s => negb (String.eqb (trim s) ""))
        "title" "Title cannot be empty"
  ++ optCheck (UpdateBody.title b) (fun s => (String.length (trim s) <=? 100)%nat)
        "title" "Title cannot exceed 100 characters"
  ++ optCheck (UpdateBody.targetAmount b) (fun a => Qgeb a (1 # 100))
        "targetAmount" "Target amount must be greater than 0"
  ++ optCheck (UpdateBody.category b) (fun s => negb (String.eqb s ""))
        "category" "Category cannot be empty"
  ++ optCheck (UpdateBody.description b) (fun s => (String.length s <=? 500)%nat)
        "description" "Description cannot exceed 500 characters"
  ++ optCheck (UpdateBody.currentAmount b) (fun c => Qgeb c 0)
        "currentAmount" "Current amount cannot be negative".

Definition assign {A} (o : option A) (set : A -> Goal.t -> Goal.t) (g : Goal.t)
  : Goal.t :=
  match o with Some a => set a g | None => g end.

(** [Object.keys(req.body).forEach(key => goal[key] = req.body[key])]: the
    fields of the body overwrite those of the document, the others stay. *)
Definition merge (now : Z) (b : UpdateBody.t) (g : Goal.t) : Goal.t :=
  assign (UpdateBody.contributions b)
         (fun l => Goal.set_contributions (map (castContribution now) l))
  (assign (UpdateBody.user b) Goal.set_user
  (assign (UpdateBody.currentAmount b) Goal.set_currentAmount
    (assign (UpdateBody.status b) Goal.set_status
      (assign (UpdateBody.priority b) Goal.set_priority
        (assign (UpdateBody.description b)
                (fun d => Goal.set_description (Some (trim d)))
          (assign (UpdateBody.category b) Goal.set_category
            (assign (UpdateBody.targetDate b) Goal.set_targetDate
              (assign (UpdateBody.targetAmount b) Goal.set_targetAmount
                (assign (UpdateBody.title b)
                        (fun s => Goal.set_title (trim s)) g))))))))).

(** The "auto-update status based on progress" step of the update route. *)
Definition autoComplete (g : Goal.t) : Goal.t :=
  if Qgeb (Goal.currentAmount g) (Goal.targetAmount g)
     && bool_decide (Goal.status g = Active)
  then Goal.set_status Completed g
  else g.

(** [PUT /api/goals/:id] *)
Definition updateGoal (now : Z) (u : UserId) (id : ObjectId)
    (b : UpdateBody.t) (db : GoalDB) : Response Goal.t * GoalDB :=
  match updateBodyErrors b with
  | (_ :: _) as errs => (Fail 400 "Validation failed" errs, db)
  | [] =>
      match findOne id u db with
      | None => (Fail 404 "Goal not found" [], db)
      | Some goal =>
          if match UpdateBody.targetDate b with
             | Some d => d <=? now
             | None => false
             end
          then (Fail 400 "Target date must be in the future" [], db)
          else
            let goal' := autoComplete (merge now b goal) in
            match save now id goal' db with
            | inl errs => (Fail 400 "Validation failed" errs, db)
            | inr db' => (Ok 200 goal', db')
            end
      end
  end.

(** ** ListContributions *)

(** A stable sort: [before y x] says that [y] must come before [x]; an
    element is inserted in front of the first one that need not precede it,
    so elements the order does not separate keep their relative order, as
    with [Array.prototype.sort]. *)
Fixpoint insertSorted {A} (before : A -> A -> bool) (x : A) (l : list A)
  : list A :=
  match l with
  | [] => [x]
  | y :: l' => if before y x then y :: insertSorted before x l' else x :: l
  end.

Definition sortBy {A} (before : A -> A -> bool) (l : list A) : list A :=
  fold_right (insertSorted before) [] l.

(** [(a, b) => b.date - a.date]: most recent first. *)
Definition newerContribution (a b : Contribution.t) : bool :=
  Contribution.date b <? Contribution.date a.

Module ContributionsReport.
Record t := mk {
  contributions : list Contribution.t;
  totalContributions : Z;
  totalAmount : Q
}.
End ContributionsReport.

(** [GET /api/goals/:id/contributions] *)
Definition listContributions (u : UserId) (id : ObjectId) (db : GoalDB)
  : Response ContributionsReport.t :=
  match findOne id u db with
  | None => Fail 404 "Goal not found" []
  | Some goal =>
      let contributions := sortBy newerContribution (Goal.contributions goal) in
      Ok 200 (ContributionsReport.mk contributions
                (Z.of_nat (length contributions))
                (sumAmounts contributions))
  end.

(** ** Expenses (models/Expense.js, routes/expenses.js) *)

Module Expense.
Record t := mk {
  user : UserId;
  title : string;
  amount : Q;
  category : string;
  description : option string;
  date : Z;
  paymentMethod : string;
  createdAt : Z
}.
End Expense.

Abbreviation ExpenseDB := (list Expense.t) (only parsing).

(** Query string of [GET /api/expenses], numbers and dates parsed. *)
Module ListQuery.
Record t := mk {
  page : option Z;
  limit : option Z;
  category : option string;
  startDate : option Z;
  endDate : option Z;
  minAmount : option Q;
  maxAmount : option Q;
  search : option string
}.
End ListQuery.

(** The Mongo filter object the list route builds. *)
Module Filter.
Record t := mk {
  user : UserId;
  category : option string;
  date_gte : option Z;
  date_lte : option Z;
  amount_gte : option Q;
  amount_lte : option Q;
  search : option string
}.
End Filter.

(** A string is truthy when it is not empty. *)
Definition truthy (o : option string) : option string :=
  match o with
  | Some s => if String.eqb s "" then None else Some s
  | None => None
  end.

Definition buildFilter (u : UserId) (q : ListQuery.t) : Filter.t :=
  Filter.mk u (truthy (ListQuery.category q))
    (ListQuery.startDate q) (ListQuery.endDate q)
    (ListQuery.minAmount q) (ListQuery.maxAmount q)
    (truthy (ListQuery.search q)).

Definition optHolds {A} (o : option A) (p : A -> bool) : bool :=
  match o with Some a => p a | None => true end.

Module Pagination.
Record t := mk {
  currentPage : Z;
  totalPages : Z;
  totalItems : Z;
  itemsPerPage : Z;
  hasNext : bool;
  hasPrev : bool
}.
End Pagination.

Module Summary.
Record t := mk { totalAmount : Q; count : Z; averageAmount : Q }.
End Summary.

Module ExpenseList.
Record t := mk {
  expenses : list Expense.t;
  pagination : Pagination.t;
  summary : Summary.t
}.
End ExpenseList.

(** [$sum: '$amount'] over a list of documents. *)
Definition sumExpenses (l : list Expense.t) : Q :=
  fold_left (fun sum e => sum + Expense.amount e)%Q l 0%Q.

(** [.sort({ date: -1, createdAt: -1 })] *)
Definition newerExpense (a b : Expense.t) : bool :=
  (Expense.date b <? Expense.date a)
  || ((Expense.date b =? Expense.date a)
      && (Expense.createdAt b <? Expense.createdAt a)).

(** The express-validator chain of the list route. *)
Definition listQueryErrors (q : ListQuery.t) : list FieldError :=
  optCheck (ListQuery.page q) (fun p => 1 <=? p)
        "page" "Page must be a positive integer"
  ++ optCheck (ListQuery.limit q) (fun l => (1 <=? l) && (l <=? 100))
        "limit" "Limit must be between 1 and 100"
  ++ optCheck (ListQuery.minAmount q) (fun a => Qgeb a 0)
        "minAmount" "Min amount must be a positive number"
  ++ optCheck (ListQuery.maxAmount q) (fun a => Qgeb a 0)
        "maxAmount" "Max amount must be a positive number".

Section ExpenseQueries.

(** [{ $regex: pattern, $options: 'i' }] applied to a string: the regular
    expression engine of the database, on the patterns it accepts. A pattern
    it rejects makes the query fail, which the route answers with 500; that
    answer is not part of the embedding. *)
Variable regexMatch : string -> string -> bool.

(** Whether a document satisfies the filter. *)
Definition matchesFilter (f : Filter.t) (e : Expense.t) : bool :=
  bool_decide (Expense.user e = Filter.user f)
  && optHolds (Filter.category f) (fun c => String.eqb (Expense.category e) c)
  && optHolds (Filter.date_gte f) (fun d => d <=? Expense.date e)
  && optHolds (Filter.date_lte f) (fun d => Expense.date e <=? d)
  && optHolds (Filter.amount_gte f) (fun a => Qgeb (Expense.amount e) a)
  && optHolds (Filter.amount_lte f) (fun a => Qle_bool (Expense.amount e) a)
  && optHolds (Filter.search f)
       (fun s => regexMatch s (Expense.title e)
                 || match Expense.description e with
                    | Some d => regexMatch s d
                    | None => false
                    end).

(** [Expense.find(filter)] and [Expense.countDocuments(filter)]. *)
Definition find (f : Filter.t) (db : ExpenseDB) : list Expense.t :=
  List.filter (matchesFilter f) db.

Definition countDocuments (f : Filter.t) (db : ExpenseDB) : Z :=
  Z.of_nat (length (find f db)).

(** The [$group] with [_id: null] of the summary: no document when nothing
    matches, and then the route answers zeros. *)
Definition summarize (l : list Expense.t) : Summary.t :=
  match l with
  | [] => Summary.mk 0 0 0
  | _ => Summary.mk (sumExpenses l) (Z.of_nat (length l))
           (sumExpenses l / inject_Z (Z.of_nat (length l)))
  end.

(** [GET /api/expenses] *)
Definition listExpenses (u : UserId) (q : ListQuery.t) (db : ExpenseDB)
  : Response ExpenseList.t :=
  match listQueryErrors q with
  | (_ :: _) as errs => Fail 400 "Validation failed" errs
  | [] =>
      let page := orDefault 1 (ListQuery.page q) in
      let limit := orDefault 10 (ListQuery.limit q) in
      let filter := buildFilter u q in
      let skip := (page - 1) * limit in
      let expenses :=
        take (Z.to_nat limit)
          (drop (Z.to_nat skip) (sortBy newerExpense (find filter db))) in
      let total := countDocuments filter db in
      let totalPages := Math_ceil (inject_Z total / inject_Z limit) in
      Ok 200
        (ExpenseList.mk expenses
           (Pagination.mk page totalPages total limit
              (page <? totalPages) (1 <? page))
           (summarize (find filter db)))
  end.

End ExpenseQueries.

(** ** Dashboard: category shares (routes/dashboard.js) *)

(** One document of a [$group] by category, with its accumulators. *)
Module CategoryGroup.
Record t := mk {
  _id : string;
  totalAmount : Q;
  count : Z;
  minAmount : Q;
  maxAmount : Q;
  transactions : list Expense.t
}.
End CategoryGroup.

Definition newGroup (e : Expense.t) : CategoryGroup.t :=
  CategoryGroup.mk (Expense.category e) (Expense.amount e) 1
    (Expense.amount e) (Expense.amount e) [e].

Definition accumulate (e : Expense.t) (g : CategoryGroup.t) : CategoryGroup.t :=
  CategoryGroup.mk (CategoryGroup._id g)
    (CategoryGroup.totalAmount g + Expense.amount e)
    (CategoryGroup.count g + 1)
    (Qmin (CategoryGroup.minAmount g) (Expense.amount e))
    (Qmax (CategoryGroup.maxAmount g) (Expense.amount e))
    (CategoryGroup.transactions g ++ [e]).

Fixpoint addToGroups (e : Expense.t) (gs : list CategoryGroup.t)
  : list CategoryGroup.t :=
  match gs with
  | [] => [newGroup e]
  | g :: gs' =>
      if String.eqb (CategoryGroup._id g) (Expense.category e)
      then accumulate e g :: gs'
      else g :: addToGroups e gs'
  end.

(** [{ $group: { _id: '$category', ... } }] *)
Definition groupByCategory (l : list Expense.t) : list CategoryGroup.t :=
  fold_left (fun gs e => addToGroups e gs) l [].

(** [{ $sort: { totalAmount: -1 } }] *)
Definition largerGroup (a b : CategoryGroup.t) : bool :=
  Qgtb (CategoryGroup.totalAmount a) (CategoryGroup.totalAmount b).

(** [{ $match: { user, date: { $gte: startDate, $lte: endDate } } }] *)
Definition inPeriod (u : UserId) (startDate endDate : Z) (e : Expense.t) : bool :=
  bool_decide (Expense.user e = u)
  && (startDate <=? Expense.date e) && (Expense.date e <=? endDate).

(** An entry of the overview's [categoryBreakdown]. *)
Module OverviewCategory.
Record t := mk { group : CategoryGroup.t; percentage : Q }.
End OverviewCategory.

(** An entry of the category analysis. *)
Module AnalysedCategory.
Record t := mk {
  group : CategoryGroup.t;
  percentage : Q;
  transactions : list Expense.t;
  previousPeriodAmount : Q;
  changePercentage : Q
}.
End AnalysedCategory.

(** The share of a category: [total > 0 ? (amount / total) * 100 : 0]. *)
Definition share (total amount : Q) : Q :=
  if Qgtb total 0 then (amount / total) * 100 else 0.

(** [categoriesWithPercentage] of [GET /api/dashboard/overview], for the
    month from [startOfMonth] to [endOfMonth]: the ten largest categories,
    each with its share of [totalMonthlyExpenses], the sum over all the
    month's expenses. *)
Definition overviewCategoryBreakdown (u : UserId) (startOfMonth endOfMonth : Z)
    (db : ExpenseDB) : list OverviewCategory.t :=
  let matched := List.filter (inPeriod u startOfMonth endOfMonth) db in
  let categoryBreakdown :=
    take 10 (sortBy largerGroup (groupByCategory matched)) in
  let totalMonthlyExpenses := sumExpenses matched in
  map (fun cat =>
         OverviewCategory.mk cat
           (share totalMonthlyExpenses (CategoryGroup.totalAmount cat)))
      categoryBreakdown.

Definition sumGroups (l : list CategoryGroup.t) : Q :=
  fold_left (fun sum cat => sum + CategoryGroup.totalAmount cat)%Q l 0%Q.

(** [previousPeriodData.find(p => p._id === category._id)?.totalAmount || 0] *)
Definition previousAmount (prev : list CategoryGroup.t) (c : string) : Q :=
  match List.find (fun p => String.eqb (CategoryGroup._id p) c) prev with
  | Some p => CategoryGroup.totalAmount p
  | None => 0
  end.

Module CategoryAnalysis.
Record t := mk {
  totalSpent : Q;
  categoryCount : Z;
  categories : list AnalysedCategory.t
}.
End CategoryAnalysis.

(** [GET /api/dashboard/category-analysis] for the period from [startDate]
    to [endDate]. *)
Definition categoryAnalysis (u : UserId) (startDate endDate : Z)
    (db : ExpenseDB) : CategoryAnalysis.t :=
  let categoryAnalysis :=
    sortBy largerGroup
      (groupByCategory (List.filter (inPeriod u startDate endDate) db)) in
  let totalSpent := sumGroups categoryAnalysis in
  let periodLength := endDate - startDate in
  let previousPeriodData :=
    groupByCategory
      (List.filter (inPeriod u (startDate - periodLength) (endDate - periodLength)) db) in
  let categories :=
    map (fun category =>
           let previous :=
             previousAmount previousPeriodData (CategoryGroup._id category) in
           AnalysedCategory.mk category
             (share totalSpent (CategoryGroup.totalAmount category))
             (take 5 (sortBy (fun a b => Expense.date b <? Expense.date a)
                        (CategoryGroup.transactions category)))
             previous
             (if Qgtb previous 0
              then ((CategoryGroup.totalAmount category - previous) / previous) * 100
              else 0))
        categoryAnalysis in
  CategoryAnalysis.mk totalSpent (Z.of_nat (length categories)) categories.

(** The sum of a list of numbers, as [reduce((sum, x) => sum + x, 0)]. *)
Definition sumQ (l : list Q) : Q := fold_left Qplus l 0%Q.

(** ** Goal progress (models/Goal.js virtuals, routes/dashboard.js) *)

(** The virtual [progressPercentage] of the goal model. *)
Definition progressPercentage (g : Goal.t) : Q :=
  if Qeq_bool (Goal.targetAmount g) 0 then 0
  else Qmin ((Goal.currentAmount g / Goal.targetAmount g) * 100) 100.

(** The virtual [remainingAmount] of the goal model. *)
Definition remainingAmount (g : Goal.t) : Q :=
  Qmax (Goal.targetAmount g - Goal.currentAmount g) 0.

(** Milliseconds in a day: [1000 * 60 * 60 * 24]. *)
Definition msPerDay : Z := 1000 * 60 * 60 * 24.

(** [Math.ceil((to - from) / (1000 * 60 * 60 * 24))] *)
Definition daysBetween (from to : Z) : Z :=
  Math_ceil (inject_Z (to - from) / inject_Z msPerDay).

(** The virtual [daysRemaining] of the goal model. *)
Definition daysRemaining (now : Z) (g : Goal.t) : Z :=
  daysBetween now (Goal.targetDate g).

Module GoalProgress.
Record t := mk {
  goal : Goal.t;
  progress : Q;
  remainingAmount : Q;
  daysRemaining : Z;
  daysPassed : Z;
  timeProgress : Q;
  isOnTrack : bool;
  requiredMonthlyContribution : Q;
  contributionHistory : list Contribution.t
}.
End GoalProgress.

(** One entry of [goalsByProgress] in [GET /api/dashboard/goals-progress];
    the quotients and their comparison are exact. *)
Definition goalProgress (now : Z) (goal : Goal.t) : GoalProgress.t :=
  let progress :=
    (if Qgtb (Goal.targetAmount goal) 0
     then (Goal.currentAmount goal / Goal.targetAmount goal) * 100
     else 0)%Q in
  let remainingAmount :=
    Qmax (Goal.targetAmount goal - Goal.currentAmount goal) 0 in
  let daysTotal := daysBetween (Goal.createdAt goal) (Goal.targetDate goal) in
  let daysRemaining := daysBetween now (Goal.targetDate goal) in
  let daysPassed := daysTotal - daysRemaining in
  let timeProgress :=
    if 0 <? daysTotal
    then (inject_Z daysPassed / inject_Z daysTotal * 100)%Q
    else 0%Q in
  let isOnTrack := Qgeb progress timeProgress in
  let monthsRemaining := Qmax (inject_Z daysRemaining / 30)%Q (1 # 10) in
  let requiredMonthlyContribution := (remainingAmount / monthsRemaining)%Q in
  GoalProgress.mk goal progress remainingAmount daysRemaining daysPassed
    timeProgress isOnTrack requiredMonthlyContribution
    (sortBy newerContribution (Goal.contributions goal)).

(** [Goal.find({ user: userId })] *)
Definition goalsOf (u : UserId) (db : GoalDB) : list Goal.t :=
  List.filter (fun g => bool_decide (Goal.user g = u)) (snd <$> map_to_list db).

Module GoalsProgress.
Record t := mk {
  goals : list GoalProgress.t;
  onTrackGoals : Z;
  behindGoals : Z
}.
End GoalsProgress.

(** [GET /api/dashboard/goals-progress]: the per-goal entries and the counts
    of Active goals on track and behind. *)
Definition goalsProgress (now : Z) (u : UserId) (db : GoalDB) : GoalsProgress.t :=
  let goalsByProgress := map (goalProgress now) (goalsOf u db) in
  let active g := bool_decide (Goal.status (GoalProgress.goal g) = Active) in
  GoalsProgress.mk goalsByProgress
    (Z.of_nat (length (List.filter
       (fun g => GoalProgress.isOnTrack g && active g) goalsByProgress)))
    (Z.of_nat (length (List.filter
       (fun g => negb (GoalProgress.isOnTrack g) && active g) goalsByProgress))).

(** ** Sequences of contribution requests *)

(** One [POST /api/goals/:id/contribute] request: when it arrives, who sends
    it, the goal it names and its body. *)
Module Call.
Record t := mk {
  time : Z;
  caller : UserId;
  goalId : ObjectId;
  body : ContributeBody.t
}.
End Call.

Definition serve (js : Platform) (db : GoalDB) (c : Call.t) : GoalDB :=
  snd (contribute js (Call.time c) (Call.caller c) (Call.goalId c) (Call.body c) db).

(** The collection after the requests have been served one after the other. *)
Definition serveAll (js : Platform) (calls : list Call.t) (db : GoalDB) : GoalDB :=
  fold_left (serve js) calls db.

(** A request whose amount is sent as a JSON number. *)
Definition numeric (c : Call.t) : Prop :=
  exists a, ContributeBody.amount (Call.body c) = JNumber a.

(** The ledger invariant: the running total is the sum of the recorded
    contributions. *)
Definition balanced (g : Goal.t) : Prop :=
  (Goal.currentAmount g == sumAmounts (Goal.contributions g))%Q.

(** ** The specification's wording *)

(** The sum of the amounts of a list of contributions, as a sum is defined:
    nothing for the empty list, and otherwise the amount of the first
    contribution and the sum of the others. *)
Fixpoint spec_sumOfAmounts (l : list Contribution.t) : Q :=
  match l with
  | [] => 0
  | c :: l' => Contribution.amount c + spec_sumOfAmounts l'
  end.

(** On-track as the specification words it: the fraction of the amount saved
    is at least the fraction of the time elapsed,
    [currentAmount / targetAmount >= (now - createdAt) / (targetDate - createdAt)]. *)
Definition spec_isOnTrack (now : Z) (g : Goal.t) : Prop :=
  (inject_Z (now - Goal.createdAt g)
     / inject_Z (Goal.targetDate g - Goal.createdAt g)
   <= Goal.currentAmount g / Goal.targetAmount g)%Q.

(** What it means for an expense to satisfy the filter a list request asks
    for: it belongs to the user; it has the category, when one is given; its
    date and amount lie within the bounds given; its title or description
    matches the search pattern, when one is given. *)
Definition satisfiesQuery (regexMatch : string -> string -> bool)
    (u : UserId) (q : ListQuery.t) (e : Expense.t) : Prop :=
  Expense.user e = u
  /\ (forall c, ListQuery.category q = Some c -> c <> ""%string ->
        Expense.category e = c)
  /\ (forall d, ListQuery.startDate q = Some d -> d <= Expense.date e)
  /\ (forall d, ListQuery.endDate q = Some d -> Expense.date e <= d)
  /\ (forall a, ListQuery.minAmount q = Some a -> (a <= Expense.amount e)%Q)
  /\ (forall a, ListQuery.maxAmount q = Some a -> (Expense.amount e <= a)%Q)
  /\ (forall s, ListQuery.search q = Some s -> s <> ""%string ->
        regexMatch s (Expense.title e) = true
        \/ exists d, Expense.description e = Some d /\ regexMatch s d = true).

(** ** Example data

    A user saving 1000 for a trip: the goal is created at time 100 with its
    deadline at 5000, and receives 300 and then 700. *)

(** Whole numbers in decimal notation stand in for the platform in the
    examples: the text of a whole number that is not negative, and the
    number that a string of digits stands for. *)
Definition decimalText (q : Q) : string :=
  match Qred q with
  | Qmake (Zpos p) 1 => NilEmpty.string_of_uint (Pos.to_uint p)
  | Qmake Z0 _ => "0"
  | _ => "NaN"
  end.

Definition decimalValue (s : string) : option Q :=
  match s, NilEmpty.uint_of_string s with
  | String _ _, Some d => Some (inject_Z (Z.of_uint d))
  | _, _ => None
  end.

Definition decimal : Platform :=
  {| numberToString := decimalText;
     stringToNumber := decimalValue;
     isFloat := fun s min =>
       match decimalValue s with Some q => Qgeb q min | None => false end |}.

Definition alice : UserId := 7%positive.
Definition tripId : ObjectId := 1%positive.

Definition tripBody : CreateBody.t :=
  CreateBody.mk "Trip" 1000 5000 "Vacation" None None None None [] None.

Definition tripCreated : GoalDB := {[ tripId := newGoal 100 alice tripBody ]}.

Definition tripCalls : list Call.t :=
  [Call.mk 200 alice tripId (ContributeBody.mk (JNumber 300) (Some " first "));
   Call.mk 300 alice tripId (ContributeBody.mk (JNumber 700) None)].

(** The same requests with the second amount sent as the string "700", and
    the goal that the collection then holds. *)
Definition stringCalls : list Call.t :=
  [Call.mk 200 alice tripId (ContributeBody.mk (JNumber 300) (Some " first "));
   Call.mk 300 alice tripId (ContributeBody.mk (JString "700") None)].

Definition tripConcatenated : Goal.t :=
  Goal.mk alice "Trip" None 1000 300700 5000 "Vacation" Medium Completed
    [Contribution.mk 300 200 "first"; Contribution.mk 700 300 ""] 100.

Definition tripAfterFirst : Goal.t :=
  Goal.mk alice "Trip" None 1000 (0 + 300) 5000 "Vacation" Medium Active
    [Contribution.mk 300 200 "first"] 100.

Definition tripFunded : Goal.t :=
  Goal.mk alice "Trip" None 1000 (0 + 300 + 700) 5000 "Vacation" Medium Completed
    [Contribution.mk 300 200 "first"; Contribution.mk 700 300 ""] 100.

(** Requests on the trip goal through the generic update: the running total
    raised to the target, the target lowered to the running total, and the
    title alone changed. *)
Definition raiseCurrent : UpdateBody.t :=
  UpdateBody.mk None None None None None None None (Some 1000%Q) None None.

Definition lowerTarget : UpdateBody.t :=
  UpdateBody.mk None (Some 250%Q) None None None None None None None None.

Definition renameOnly : UpdateBody.t :=
  UpdateBody.mk (Some "Holiday") None None None None None None None None None.

Definition tripRaised : Goal.t :=
  Goal.mk alice "Trip" None 1000 1000 5000 "Vacation" Medium Completed
    [Contribution.mk 300 200 "first"] 100.

(** The same goal created with 500 already saved. *)
Definition seededBody : CreateBody.t :=
  CreateBody.mk "Trip" 1000 5000 "Vacation" None None (Some 500%Q) None [] None.

(** The trip goal after a single contribution of 1500, more than its
    target of 1000. *)
Definition overfundedDB : GoalDB :=
  serveAll decimal
    [Call.mk 200 alice tripId (ContributeBody.mk (JNumber 1500) None)] tripCreated.

(** A goal of 1900 created at time 0 with nine days and a half to run, 100
    saved, looked at after half a day: one nineteenth of the amount, one
    nineteenth of the time. *)
Definition halfDay : Z := msPerDay / 2.

Definition nineteenth : Goal.t :=
  Goal.mk alice "Bike" None 1900 100 (19 * halfDay) "Other" Medium Active
    [Contribution.mk 100 1000 ""] 0.

(** A goal of 1000 created at time 0 with ten days to run, 300 saved. *)
Definition tenDays : Goal.t :=
  Goal.mk alice "Bike" None 1000 300 (10 * msPerDay) "Other" Medium Active
    [Contribution.mk 300 1000 ""] 0.

(** A month, from time 0 to time 1000, with one expense of 10 in each of
    eleven categories, and the same month with three expenses in two
    categories. *)
Definition spend (c : string) (a : Q) (d : Z) : Expense.t :=
  Expense.mk alice "Receipt" a c None d "Cash" d.

Definition elevenCategories : ExpenseDB :=
  [spend "Food & Dining" 10 1; spend "Transportation" 10 2;
   spend "Shopping" 10 3; spend "Entertainment" 10 4;
   spend "Bills & Utilities" 10 5; spend "Healthcare" 10 6;
   spend "Education" 10 7; spend "Travel" 10 8; spend "Groceries" 10 9;
   spend "Housing" 10 10; spend "Insurance" 10 11].

Definition twoCategories : ExpenseDB :=
  [spend "Groceries" 30 1; spend "Travel" 50 2; spend "Groceries" 20 3].

(** A case-sensitive substring test, standing in for the regular expression
    engine in the examples. *)
Fixpoint contains (pattern subject : string) : bool :=
  String.prefix pattern subject
  || match subject with
     | String _ rest => contains pattern rest
     | EmptyString => false
     end.

(** Page 2, three per page, of the expenses of at least 10. *)
Definition secondPage : ListQuery.t :=
  ListQuery.mk (Some 2) (Some 3) None None None (Some 10%Q) None None.

(** * The other routes

    The rest of the goal routes, the expense routes over a collection with
    document ids, and the remaining dashboard reports. *)

(** ** Goals: read, status, delete, list (routes/goals.js) *)

(** [GET /api/goals/:id] *)
Definition getGoal (u : UserId) (id : ObjectId) (db : GoalDB) : Response Goal.t :=
  match findOne id u db with
  | None => Fail 404 "Goal not found" []
  | Some goal => Ok 200 goal
  end.

(** [PUT /api/goals/:id/status]: the status is written over the stored one
    and the document saved; a [ValidationError] of the save is not told apart
    by this route and is answered 500. *)
Definition setStatus (now : Z) (u : UserId) (id : ObjectId) (st : Status)
    (db : GoalDB) : Response Goal.t * GoalDB :=
  match findOne id u db with
  | None => (Fail 404 "Goal not found" [], db)
  | Some goal =>
      let goal' := Goal.set_status st goal in
      match save now id goal' db with
      | inl _ => (Fail 500 "Server error while updating goal status" [], db)
      | inr db' => (Ok 200 goal', db')
      end
  end.

(** [DELETE /api/goals/:id]: the answer carries a message only. *)
Definition deleteGoal (u : UserId) (id : ObjectId) (db : GoalDB)
  : Response unit * GoalDB :=
  match findOne id u db with
  | None => (Fail 404 "Goal not found" [], db)
  | Some _ => (Ok 200 tt, delete id db)
  end.

(** A request that may write to the goals collection, with the instant it is
    served at and the user it is authenticated as. *)
Inductive GoalWrite :=
| CreateGoal (id : ObjectId) (b : CreateBody.t)
| UpdateGoal (id : ObjectId) (b : UpdateBody.t)
| Contribute (id : ObjectId) (b : ContributeBody.t)
| SetStatus (id : ObjectId) (st : Status)
| DeleteGoal (id : ObjectId).

Definition write (js : Platform) (now : Z) (u : UserId) (r : GoalWrite)
    (db : GoalDB) : GoalDB :=
  match r with
  | CreateGoal id b => snd (createGoal now u id b db)
  | UpdateGoal id b => snd (updateGoal now u id b db)
  | Contribute id b => snd (contribute js now u id b db)
  | SetStatus id st => snd (setStatus now u id st db)
  | DeleteGoal id => snd (deleteGoal u id db)
  end.

Definition writeAll (js : Platform) (rs : list (Z * UserId * GoalWrite))
    (db : GoalDB) : GoalDB :=
  fold_left (fun db r => write js (fst (fst r)) (snd (fst r)) (snd r) db) rs db.

(** The user a request is authenticated as. *)
Definition caller (r : Z * UserId * GoalWrite) : UserId := snd (fst r).

(** The part of the goal schema that does not depend on the clock. *)
Definition wellFormedGoal (g : Goal.t) : Prop :=
  Goal.title g <> ""%string
  /\ (String.length (Goal.title g) <= 100)%nat
  /\ (forall d, Goal.description g = Some d -> (String.length d <= 500)%nat)
  /\ (1 # 100 <= Goal.targetAmount g)%Q
  /\ (0 <= Goal.currentAmount g)%Q
  /\ In (Goal.category g) goalCategories
  /\ Forall (fun c => (1 # 100 <= Contribution.amount c)%Q
                      /\ (String.length (Contribution.note c) <= 200)%nat)
       (Goal.contributions g).

(** Query string of [GET /api/goals]. *)
Module GoalsQuery.
Record t := mk { status : option Status; category : option string }.
End GoalsQuery.

Module GoalStatistics.
Record t := mk {
  totalGoals : Z;
  activeGoals : Z;
  completedGoals : Z;
  totalTargetAmount : Q;
  totalCurrentAmount : Q;
  overallProgress : Q
}.
End GoalStatistics.

(** The stored string of a priority. *)
Definition priorityName (p : Priority) : string :=
  match p with Low => "Low" | Medium => "Medium" | High => "High" end.

(** [.sort({ priority: -1, targetDate: 1, createdAt: -1 })]: [priority] is a
    string field, so the database orders it as a string. *)
Definition listedBefore (a b : Goal.t) : bool :=
  String.ltb (priorityName (Goal.priority b)) (priorityName (Goal.priority a))
  || (String.eqb (priorityName (Goal.priority b)) (priorityName (Goal.priority a))
      && ((Goal.targetDate a <? Goal.targetDate b)
          || ((Goal.targetDate a =? Goal.targetDate b)
              && (Goal.createdAt b <? Goal.createdAt a)))).

(** The place of a priority in a listing: the names are compared as strings
    and the greatest comes first. *)
Definition listingRank (p : Priority) : Z :=
  match p with Medium => 0 | Low => 1 | High => 2 end.

Definition listingOrder (a b : Goal.t) : Prop :=
  listingRank (Goal.priority a) < listingRank (Goal.priority b)
  \/ (Goal.priority a = Goal.priority b
      /\ Goal.targetDate a <= Goal.targetDate b).

Definition matchesGoalsQuery (u : UserId) (q : GoalsQuery.t) (g : Goal.t) : bool :=
  bool_decide (Goal.user g = u)
  && optHolds (GoalsQuery.status q) (fun s => bool_decide (Goal.status g = s))
  && optHolds (truthy (GoalsQuery.category q))
       (fun c => String.eqb (Goal.category g) c).

Definition countStatus (s : Status) (l : list Goal.t) : Z :=
  Z.of_nat (length (List.filter (fun g => bool_decide (Goal.status g = s)) l)).

Definition sumTargets (l : list Goal.t) : Q :=
  fold_left (fun sum g => sum + Goal.targetAmount g)%Q l 0%Q.

Definition sumCurrents (l : list Goal.t) : Q :=
  fold_left (fun sum g => sum + Goal.currentAmount g)%Q l 0%Q.

(** The statistics block that [GET /api/goals] and the goals-progress report
    compute over the goals they loaded. *)
Definition goalStatistics (goals : list Goal.t) : GoalStatistics.t :=
  let totalTargetAmount := sumTargets goals in
  let totalCurrentAmount := sumCurrents goals in
  GoalStatistics.mk (Z.of_nat (length goals))
    (countStatus Active goals) (countStatus Completed goals)
    totalTargetAmount totalCurrentAmount
    (if Qgtb totalTargetAmount 0
     then (totalCurrentAmount / totalTargetAmount) * 100 else 0).

(** [GET /api/goals] *)
Definition listGoals (u : UserId) (q : GoalsQuery.t) (db : GoalDB)
  : list Goal.t * GoalStatistics.t :=
  let goals :=
    sortBy listedBefore
      (List.filter (matchesGoalsQuery u q) (snd <$> map_to_list db)) in
  (goals, goalStatistics goals).

(** [goalSchema.statics.getActiveGoals]: sorted by [{ priority: -1,
    targetDate: 1 }]. *)
Definition getActiveGoals (u : UserId) (db : GoalDB) : list Goal.t :=
  sortBy (fun a b =>
            String.ltb (priorityName (Goal.priority b)) (priorityName (Goal.priority a))
            || (String.eqb (priorityName (Goal.priority b))
                           (priorityName (Goal.priority a))
                && (Goal.targetDate a <? Goal.targetDate b)))
    (List.filter (fun g => bool_decide (Goal.user g = u)
                           && bool_decide (Goal.status g = Active))
       (snd <$> map_to_list db)).

(** The [overview] block of the goals-progress report. *)
Definition goalsProgressOverview (u : UserId) (db : GoalDB) : GoalStatistics.t :=
  goalStatistics (goalsOf u db).

(** ** Expenses: create, read, update, delete (routes/expenses.js)

    These routes address an expense by its document id, so the collection is
    a finite map here; its documents, as the queries above scan them, are
    [expenseDocuments]. The [tags], [recurring] and [receipt] fields are left
    out: no route reads them, and [recurring] keeps its default, not
    recurring, for which the schema asks nothing. *)

Abbreviation ExpenseStore := (gmap positive Expense.t) (only parsing).

Definition expenseDocuments (s : ExpenseStore) : ExpenseDB :=
  snd <$> map_to_list s.

(** The [enum] of the expense schema's [category] and [paymentMethod]. *)
Definition expenseCategories : list string :=
  ["Food & Dining"; "Transportation"; "Shopping"; "Entertainment";
   "Bills & Utilities"; "Healthcare"; "Education"; "Travel"; "Groceries";
   "Housing"; "Insurance"; "Gifts & Donations"; "Personal Care"; "Business";
   "Other"]%string.

Definition paymentMethods : list string :=
  ["Cash"; "Credit Card"; "Debit Card"; "Bank Transfer"; "Digital Wallet";
   "Check"]%string.

(** The validators of the expense schema, run by [expense.save()]. *)
Definition expenseErrors (e : Expense.t) : list FieldError :=
  check (negb (String.eqb (Expense.title e) ""))
        "title" "Expense title is required"
  ++ check (String.length (Expense.title e) <=? 100)%nat
        "title" "Title cannot exceed 100 characters"
  ++ check (Qgeb (Expense.amount e) (1 # 100))
        "amount" "Amount must be greater than 0"
  ++ check (bool_decide (Expense.category e ∈ expenseCategories))
        "category"
        ("`" +:+ Expense.category e +:+ "` is not a valid enum value for path `category`.")
  ++ check (match Expense.description e with
            | Some d => (String.length d <=? 500)%nat
            | None => true
            end)
        "description" "Description cannot exceed 500 characters"
  ++ check (bool_decide (Expense.paymentMethod e ∈ paymentMethods))
        "paymentMethod"
        ("`" +:+ Expense.paymentMethod e
             +:+ "` is not a valid enum value for path `paymentMethod`.").

(** [Expense.findOne({ _id: id, user: u })] *)
Definition findExpense (id : ObjectId) (u : UserId) (s : ExpenseStore)
  : option Expense.t :=
  match s !! id with
  | Some e => if decide (Expense.user e = u) then Some e else None
  | None => None
  end.

(** Body of [POST /api/expenses]: the fields the route validates, [tags]
    apart. *)
Module ExpenseBody.
Record t := mk {
  title : string;
  amount : Q;
  category : string;
  date : option Z;
  description : option string;
  paymentMethod : option string
}.
End ExpenseBody.

(** The express-validator chain of the create route. *)
Definition expenseBodyErrors (b : ExpenseBody.t) : list FieldError :=
  check (negb (String.eqb (trim (ExpenseBody.title b)) ""))
        "title" "Title is required"
  ++ check (String.length (trim (ExpenseBody.title b)) <=? 100)%nat
        "title" "Title cannot exceed 100 characters"
  ++ check (Qgeb (ExpenseBody.amount b) (1 # 100))
        "amount" "Amount must be greater than 0"
  ++ check (negb (String.eqb (ExpenseBody.category b) ""))
        "category" "Category is required"
  ++ optCheck (ExpenseBody.description b) (fun d => (String.length d <=? 500)%nat)
        "description" "Description cannot exceed 500 characters"
  ++ optCheck (ExpenseBody.paymentMethod b)
        (fun m => bool_decide (m ∈ paymentMethods))
        "paymentMethod" "Invalid payment method".

(** [new Expense({ ...req.body, user })] after the route has set the date to
    the current one when the body has none. *)
Definition newExpense (now : Z) (u : UserId) (b : ExpenseBody.t) : Expense.t :=
  Expense.mk u (trim (ExpenseBody.title b)) (ExpenseBody.amount b)
    (ExpenseBody.category b)
    (option_map trim (ExpenseBody.description b))
    (orDefault now (ExpenseBody.date b))
    (orDefault "Cash"%string (ExpenseBody.paymentMethod b))
    now.

(** [POST /api/expenses]; [id] is the [_id] generated for the document. *)
Definition createExpense (now : Z) (u : UserId) (id : ObjectId)
    (b : ExpenseBody.t) (s : ExpenseStore) : Response Expense.t * ExpenseStore :=
  match expenseBodyErrors b with
  | (_ :: _) as errs => (Fail 400 "Validation failed" errs, s)
  | [] =>
      let expense := newExpense now u b in
      match expenseErrors expense with
      | (_ :: _) as errs => (Fail 400 "Validation failed" errs, s)
      | [] =>
          match s !! id with
          | Some _ => (Fail 500 "Server error while creating expense" [], s)
          | None => (Ok 201 expense, <[id := expense]> s)
          end
      end
  end.

(** [GET /api/expenses/:id] *)
Definition getExpense (u : UserId) (id : ObjectId) (s : ExpenseStore)
  : Response Expense.t :=
  match findExpense id u s with
  | None => Fail 404 "Expense not found" []
  | Some expense => Ok 200 expense
  end.

(** Body of [PUT /api/expenses/:id]: the fields the route validates, [tags]
    apart, each optional, and the path [user], which the route assigns like
    the others when the body carries it. A key [_id] is not part of the
    embedding. *)
Module ExpenseUpdate.
Record t := mk {
  title : option string;
  amount : option Q;
  category : option string;
  date : option Z;
  description : option string;
  paymentMethod : option string;
  user : option UserId
}.
End ExpenseUpdate.

Definition expenseUpdateErrors (b : ExpenseUpdate.t) : list FieldError :=
  optCheck (ExpenseUpdate.title b) (fun s => negb (String.eqb (trim s) ""))
        "title" "Title cannot be empty"
  ++ optCheck (ExpenseUpdate.title b) (fun s => (String.length (trim s) <=? 100)%nat)
        "title" "Title cannot exceed 100 characters"
  ++ optCheck (ExpenseUpdate.amount b) (fun a => Qgeb a (1 # 100))
        "amount" "Amount must be greater than 0"
  ++ optCheck (ExpenseUpdate.category b) (fun s => negb (String.eqb s ""))
        "category" "Category cannot be empty"
  ++ optCheck (ExpenseUpdate.description b) (fun s => (String.length s <=? 500)%nat)
        "description" "Description cannot exceed 500 characters"
  ++ optCheck (ExpenseUpdate.paymentMethod b)
        (fun m => bool_decide (m ∈ paymentMethods))
        "paymentMethod" "Invalid payment method".

(** [Object.keys(req.body).forEach(key => expense[key] = req.body[key])] *)
Definition mergeExpense (b : ExpenseUpdate.t) (e : Expense.t) : Expense.t :=
  Expense.mk (orDefault (Expense.user e) (ExpenseUpdate.user b))
    (match ExpenseUpdate.title b with Some s => trim s | None => Expense.title e end)
    (orDefault (Expense.amount e) (ExpenseUpdate.amount b))
    (orDefault (Expense.category e) (ExpenseUpdate.category b))
    (match ExpenseUpdate.description b with
     | Some d => Some (trim d)
     | None => Expense.description e
     end)
    (orDefault (Expense.date e) (ExpenseUpdate.date b))
    (orDefault (Expense.paymentMethod e) (ExpenseUpdate.paymentMethod b))
    (Expense.createdAt e).

(** [PUT /api/expenses/:id] *)
Definition updateExpense (u : UserId) (id : ObjectId) (b : ExpenseUpdate.t)
    (s : ExpenseStore) : Response Expense.t * ExpenseStore :=
  match expenseUpdateErrors b with
  | (_ :: _) as errs => (Fail 400 "Validation failed" errs, s)
  | [] =>
      match findExpense id u s with
      | None => (Fail 404 "Expense not found" [], s)
      | Some expense =>
          let expense' := mergeExpense b expense in
          match expenseErrors expense' with
          | (_ :: _) as errs => (Fail 400 "Validation failed" errs, s)
          | [] => (Ok 200 expense', <[id := expense']> s)
          end
      end
  end.

(** [DELETE /api/expenses/:id] *)
Definition deleteExpense (u : UserId) (id : ObjectId) (s : ExpenseStore)
  : Response unit * ExpenseStore :=
  match findExpense id u s with
  | None => (Fail 404 "Expense not found" [], s)
  | Some _ => (Ok 200 tt, delete id s)
  end.

Inductive ExpenseWrite :=
| CreateExpense (id : ObjectId) (b : ExpenseBody.t)
| UpdateExpense (id : ObjectId) (b : ExpenseUpdate.t)
| DeleteExpense (id : ObjectId).

Definition writeExpense (now : Z) (u : UserId) (r : ExpenseWrite)
    (s : ExpenseStore) : ExpenseStore :=
  match r with
  | CreateExpense id b => snd (createExpense now u id b s)
  | UpdateExpense id b => snd (updateExpense u id b s)
  | DeleteExpense id => snd (deleteExpense u id s)
  end.

Definition writeAllExpenses (rs : list (Z * UserId * ExpenseWrite))
    (s : ExpenseStore) : ExpenseStore :=
  fold_left (fun s r => writeExpense (fst (fst r)) (snd (fst r)) (snd r) s) rs s.

(** What the expense schema guarantees of a stored document. *)
Definition wellFormedExpense (e : Expense.t) : Prop :=
  Expense.title e <> ""%string
  /\ (String.length (Expense.title e) <= 100)%nat
  /\ (forall d, Expense.description e = Some d -> (String.length d <= 500)%nat)
  /\ (1 # 100 <= Expense.amount e)%Q
  /\ In (Expense.category e) expenseCategories
  /\ In (Expense.paymentMethod e) paymentMethods.

(** [GET /api/expenses/categories/summary]: the [$match] by user and the
    optional date bounds, the [$group] by category and the [$sort] by total,
    largest first. [averageAmount] is [$avg: '$amount'], the group's total
    over its count. *)
Definition inSummaryRange (u : UserId) (startDate endDate : option Z)
    (e : Expense.t) : bool :=
  bool_decide (Expense.user e = u)
  && optHolds startDate (fun d => d <=? Expense.date e)
  && optHolds endDate (fun d => Expense.date e <=? d).

Definition categorySummary (u : UserId) (startDate endDate : option Z)
    (db : ExpenseDB) : list CategoryGroup.t :=
  sortBy largerGroup
    (groupByCategory (List.filter (inSummaryRange u startDate endDate) db)).

(** The expenses of one category among a list, in the list's order. *)
Definition ofCategory (c : string) (l : list Expense.t) : list Expense.t :=
  List.filter (fun e => String.eqb (Expense.category e) c) l.

(** A group document is right for a list of expenses: it holds the list's
    expenses of its category, at least one, with their sum and number. *)
Definition groupCorrect (l : list Expense.t) (g : CategoryGroup.t) : Prop :=
  CategoryGroup.transactions g = ofCategory (CategoryGroup._id g) l
  /\ CategoryGroup.transactions g <> []
  /\ (CategoryGroup.totalAmount g == sumExpenses (CategoryGroup.transactions g))%Q
  /\ CategoryGroup.count g = Z.of_nat (length (CategoryGroup.transactions g)).

(** The groups built from a list of expenses: one per category present,
    each right for the list. *)
Definition groupsCorrect (l : list Expense.t) (gs : list CategoryGroup.t) : Prop :=
  NoDup (map CategoryGroup._id gs)
  /\ Forall (groupCorrect l) gs
  /\ (forall x, In x l -> In (Expense.category x) (map CategoryGroup._id gs)).

Definition averageAmount (g : CategoryGroup.t) : Q :=
  CategoryGroup.totalAmount g / inject_Z (CategoryGroup.count g).

(** The order of an expense listing: by date, the latest first, and for
    one date by creation time, the latest first. *)
Definition newestFirst (a b : Expense.t) : Prop :=
  Expense.date b < Expense.date a
  \/ (Expense.date b = Expense.date a /\ Expense.createdAt b <= Expense.createdAt a).

(** ** Dashboard: figures shared by the reports (routes/dashboard.js) *)

(** [previous > 0 ? ((current - previous) / previous) * 100 : 0]: the
    month-over-month change of the overview and the change of a category in
    the category analysis. *)
Definition percentChange (current previous : Q) : Q :=
  if Qgtb previous 0 then ((current - previous) / previous) * 100 else 0.

Module Budget.
Record t := mk {
  monthlyBudget : Q;
  budgetUsed : Q;
  budgetRemaining : Q;
  isOverBudget : bool
}.
End Budget.

(** The budget block of the overview; [userBudget] is [req.user.monthlyBudget],
    which a user may not have set. *)
Definition overviewBudget (userBudget : option Q) (currentTotal : Q) : Budget.t :=
  let monthlyBudget := orDefault 0%Q userBudget in
  let budgetUsed :=
    (if Qgtb monthlyBudget 0 then (currentTotal / monthlyBudget) * 100 else 0)%Q in
  let budgetRemaining := Qmax (monthlyBudget - currentTotal) 0 in
  Budget.mk monthlyBudget budgetUsed budgetRemaining (Qgtb budgetUsed 100).

(** The budget fields of the monthly report's summary. *)
Definition monthlyReportBudget (userBudget : option Q) (monthlyTotal : Q) : Budget.t :=
  let monthlyBudget := orDefault 0%Q userBudget in
  Budget.mk monthlyBudget
    (if Qgtb monthlyBudget 0 then (monthlyTotal / monthlyBudget) * 100 else 0)
    (Qmax (monthlyBudget - monthlyTotal) 0)
    (Qgtb monthlyBudget 0 && Qgtb monthlyTotal monthlyBudget).

(** One document of a [$group] of expenses by a key, with the accumulators
    the stages below use: [$sum: '$amount'], [$sum: 1] and
    [$addToSet: '$category']. *)
Module Bucket.
Record t (K : Type) := mk {
  _id : K;
  totalAmount : Q;
  count : Z;
  categories : list string
}.
Arguments mk {K} _ _ _ _.
Arguments _id {K} _.
Arguments totalAmount {K} _.
Arguments count {K} _.
Arguments categories {K} _.
End Bucket.

(** [$addToSet] *)
Definition addToSet (c : string) (l : list string) : list string :=
  if existsb (String.eqb c) l then l else l ++ [c].

Fixpoint addToBuckets {K} (eqb : K -> K -> bool) (key : Expense.t -> K)
    (e : Expense.t) (bs : list (Bucket.t K)) : list (Bucket.t K) :=
  match bs with
  | [] => [Bucket.mk (key e) (Expense.amount e) 1 [Expense.category e]]
  | b :: bs' =>
      if eqb (Bucket._id b) (key e)
      then Bucket.mk (Bucket._id b) (Bucket.totalAmount b + Expense.amount e)
             (Bucket.count b + 1) (addToSet (Expense.category e) (Bucket.categories b))
           :: bs'
      else b :: addToBuckets eqb key e bs'
  end.

Definition bucketBy {K} (eqb : K -> K -> bool) (key : Expense.t -> K)
    (l : list Expense.t) : list (Bucket.t K) :=
  fold_left (fun bs e => addToBuckets eqb key e bs) l [].

Definition sumBuckets {K} (l : list (Bucket.t K)) : Q :=
  fold_left (fun sum t => sum + Bucket.totalAmount t)%Q l 0%Q.

Definition sumCounts {K} (l : list (Bucket.t K)) : Z :=
  fold_left (fun n t => n + Bucket.count t) l 0.

(** One document of the overview's [$group] of goals by status. *)
Module StatusGroup.
Record t := mk { _id : Status; count : Z; totalTarget : Q; totalCurrent : Q }.
End StatusGroup.

Fixpoint addToStatusGroups (g : Goal.t) (gs : list StatusGroup.t)
  : list StatusGroup.t :=
  match gs with
  | [] => [StatusGroup.mk (Goal.status g) 1 (Goal.targetAmount g) (Goal.currentAmount g)]
  | s :: gs' =>
      if bool_decide (StatusGroup._id s = Goal.status g)
      then StatusGroup.mk (StatusGroup._id s) (StatusGroup.count s + 1)
             (StatusGroup.totalTarget s + Goal.targetAmount g)
             (StatusGroup.totalCurrent s + Goal.currentAmount g)
           :: gs'
      else s :: addToStatusGroups g gs'
  end.

Definition groupByStatus (l : list Goal.t) : list StatusGroup.t :=
  fold_left (fun gs g => addToStatusGroups g gs) l [].

(** [goalsOverview.find(g => g._id === s)?.count || 0] *)
Definition statusCount (s : Status) (gs : list StatusGroup.t) : Z :=
  match List.find (fun g => bool_decide (StatusGroup._id g = s)) gs with
  | Some g => StatusGroup.count g
  | None => 0
  end.

Module GoalsBlock.
Record t := mk { active : Z; completed : Z; totalTarget : Q; totalSaved : Q }.
End GoalsBlock.

(** The [goals] block of the overview. *)
Definition overviewGoals (u : UserId) (db : GoalDB) : GoalsBlock.t :=
  let goalsOverview := groupByStatus (goalsOf u db) in
  GoalsBlock.mk (statusCount Active goalsOverview)
    (statusCount Completed goalsOverview)
    (fold_left (fun sum g => sum + StatusGroup.totalTarget g)%Q goalsOverview 0%Q)
    (fold_left (fun sum g => sum + StatusGroup.totalCurrent g)%Q goalsOverview 0%Q).

Module MonthTotals.
Record t := mk {
  totalExpenses : Q;
  transactionCount : Z;
  averageTransaction : Q;
  monthOverMonthChange : Q
}.
End MonthTotals.

Module Overview.
Record t := mk {
  currentMonth : MonthTotals.t;
  budget : Budget.t;
  categoryBreakdown : list OverviewCategory.t;
  goals : GoalsBlock.t;
  recentTransactions : list Expense.t
}.
End Overview.

(** Query string of [GET /api/dashboard/spending-trends]. *)
Inductive Period := Days7 | Days30 | Days90 | Year1.
Inductive GroupBy := ByDay | ByWeek | ByMonth.

Module TrendKey.
Record t := mk { year : Z; month : option Z; day : option Z; week : option Z }.
End TrendKey.

#[export] Instance TrendKey_eq_dec : EqDecision TrendKey.t.
Proof. solve_decision. Defined.

Definition optBefore (a b : option Z) : bool :=
  match a, b with
  | None, Some _ => true
  | Some x, Some y => x <? y
  | _, _ => false
  end.

Definition optSame (a b : option Z) : bool := bool_decide (a = b).

(** [{ $sort: { '_id.year': 1, '_id.month': 1, '_id.day': 1, '_id.week': 1 } }] *)
Definition earlierKey (a b : TrendKey.t) : bool :=
  (TrendKey.year a <? TrendKey.year b)
  || ((TrendKey.year a =? TrendKey.year b)
      && (optBefore (TrendKey.month a) (TrendKey.month b)
          || (optSame (TrendKey.month a) (TrendKey.month b)
              && (optBefore (TrendKey.day a) (TrendKey.day b)
                  || (optSame (TrendKey.day a) (TrendKey.day b)
                      && optBefore (TrendKey.week a) (TrendKey.week b)))))).

Module Trends.
Record t := mk {
  trends : list (Bucket.t TrendKey.t);
  totalPeriods : Z;
  totalAmount : Q;
  averagePerPeriod : Q
}.
End Trends.

Module MonthlyQuery.
Record t := mk { year : option Z; month : option Z }.
End MonthlyQuery.

Module MonthlyReport.
Record t := mk {
  year : Z;
  month : Z;
  startDate : Z;
  endDate : Z;
  summary : Summary.t;
  budget : Budget.t;
  dailyBreakdown : list (Bucket.t Z);
  categoryBreakdown : list (Bucket.t string);
  paymentMethodBreakdown : list (Bucket.t string);
  topExpenses : list Expense.t
}.
End MonthlyReport.

Definition monthlyQueryErrors (q : MonthlyQuery.t) : list FieldError :=
  optCheck (MonthlyQuery.year q) (fun y => (2020 <=? y) && (y <=? 2030))
        "year" "Invalid year"
  ++ optCheck (MonthlyQuery.month q) (fun m => (1 <=? m) && (m <=? 12))
        "month" "Invalid month".

Section Calendar.

(** The calendar is the platform's: the local-time parts of a [Date] and the
    [Date] of a local year, month index and day, and the database's date
    operators [$year], [$month], [$dayOfMonth] and [$week]. *)
Variables getFullYear getMonth getDate : Z -> Z.
Variable mkDate : Z -> Z -> Z -> Z.
Variables dbYear dbMonth dbDayOfMonth dbWeek : Z -> Z.

(** [GET /api/dashboard/overview] *)
Definition overview (now : Z) (u : UserId) (userBudget : option Q)
    (db : ExpenseDB) (goals : GoalDB) : Overview.t :=
  let startOfMonth := mkDate (getFullYear now) (getMonth now) 1 in
  let endOfMonth := mkDate (getFullYear now) (getMonth now + 1) 0 in
  let startOfPreviousMonth := mkDate (getFullYear now) (getMonth now - 1) 1 in
  let endOfPreviousMonth := mkDate (getFullYear now) (getMonth now) 0 in
  let currentMonthExpenses :=
    summarize (List.filter (inPeriod u startOfMonth endOfMonth) db) in
  let previousMonthExpenses :=
    summarize (List.filter (inPeriod u startOfPreviousMonth endOfPreviousMonth) db) in
  let currentTotal := Summary.totalAmount currentMonthExpenses in
  let previousTotal := Summary.totalAmount previousMonthExpenses in
  Overview.mk
    (MonthTotals.mk currentTotal
       (Summary.count currentMonthExpenses)
       (Summary.averageAmount currentMonthExpenses)
       (percentChange currentTotal previousTotal))
    (overviewBudget userBudget currentTotal)
    (overviewCategoryBreakdown u startOfMonth endOfMonth db)
    (overviewGoals u goals)
    (take 5 (sortBy (fun a b => Expense.createdAt b <? Expense.createdAt a)
               (List.filter (fun e => bool_decide (Expense.user e = u)) db))).

(** The start of the window of a trends request. *)
Definition trendsStart (now : Z) (period : Period) : Z :=
  match period with
  | Days7 => now - 7 * 24 * 60 * 60 * 1000
  | Days30 => now - 30 * 24 * 60 * 60 * 1000
  | Days90 => now - 90 * 24 * 60 * 60 * 1000
  | Year1 => mkDate (getFullYear now - 1) (getMonth now) (getDate now)
  end.

(** The [dateGrouping] of a trends request. *)
Definition trendKey (groupBy : GroupBy) (e : Expense.t) : TrendKey.t :=
  let d := Expense.date e in
  match groupBy with
  | ByDay => TrendKey.mk (dbYear d) (Some (dbMonth d)) (Some (dbDayOfMonth d)) None
  | ByWeek => TrendKey.mk (dbYear d) None None (Some (dbWeek d))
  | ByMonth => TrendKey.mk (dbYear d) (Some (dbMonth d)) None None
  end.

(** [GET /api/dashboard/spending-trends], defaults [30days] and [day]. *)
Definition spendingTrends (now : Z) (u : UserId) (period : option Period)
    (groupBy : option GroupBy) (db : ExpenseDB) : Trends.t :=
  let startDate := trendsStart now (orDefault Days30 period) in
  let trends :=
    sortBy (fun a b => earlierKey (Bucket._id a) (Bucket._id b))
      (bucketBy (fun a b => bool_decide (a = b))
         (trendKey (orDefault ByDay groupBy))
         (List.filter (inPeriod u startDate now) db)) in
  Trends.mk trends (Z.of_nat (length trends)) (sumBuckets trends)
    (if (0 <? Z.of_nat (length trends))
     then sumBuckets trends / inject_Z (Z.of_nat (length trends))
     else 0).

(** [GET /api/dashboard/monthly-report] *)
Definition monthlyReport (now : Z) (u : UserId) (userBudget : option Q)
    (q : MonthlyQuery.t) (db : ExpenseDB) : Response MonthlyReport.t :=
  match monthlyQueryErrors q with
  | (_ :: _) as errs => Fail 400 "Validation failed" errs
  | [] =>
      let year := orDefault (getFullYear now) (MonthlyQuery.year q) in
      let month := orDefault (getMonth now + 1) (MonthlyQuery.month q) in
      let startDate := mkDate year (month - 1) 1 in
      let endDate := mkDate year month 0 in
      let matched := List.filter (inPeriod u startDate endDate) db in
      let monthlyExpenses := summarize matched in
      Ok 200
        (MonthlyReport.mk year month startDate endDate
           monthlyExpenses
           (monthlyReportBudget userBudget (Summary.totalAmount monthlyExpenses))
           (sortBy (fun a b => Bucket._id a <? Bucket._id b)
              (bucketBy Z.eqb (fun e => dbDayOfMonth (Expense.date e)) matched))
           (sortBy (fun a b => Qgtb (Bucket.totalAmount a) (Bucket.totalAmount b))
              (bucketBy String.eqb Expense.category matched))
           (sortBy (fun a b => Qgtb (Bucket.totalAmount a) (Bucket.totalAmount b))
              (bucketBy String.eqb Expense.paymentMethod matched))
           (take 10 (sortBy (fun a b => Qgtb (Expense.amount a) (Expense.amount b))
                       matched)))
  end.

End Calendar.

(** ** Authentication (middleware/auth.js, frontend services/api.js) *)

(** What [jwt.verify] does with a token: the decoded user id, or the error
    it throws. *)
Inductive Verified :=
| Decoded (userId : UserId)
| JsonWebTokenError
| TokenExpiredError
| OtherError.

(** The middleware either calls [next()] with the user on the request or
    answers itself. *)
Inductive AuthResult (User : Type) :=
| Next (user : User)
| Denied (code : Z) (msg : string).
Arguments Next {User} user.
Arguments Denied {User} code msg.

Section Auth.

Variable User : Type.
Variable verify : string -> Verified.
Variable findById : UserId -> option User.

(** [token.startsWith('Bearer ') ? token.slice(7) : token] *)
Definition bearerToken (token : string) : string :=
  if startsWith "Bearer " token
  then String.substring 7 (String.length token - 7) token
  else token.

(** The [auth] middleware, given the [Authorization] header. *)
Definition auth (header : option string) : AuthResult User :=
  match truthy header with
  | None => Denied 401 "No token, authorization denied"
  | Some token =>
      match verify (bearerToken token) with
      | Decoded userId =>
          match findById userId with
          | None => Denied 401 "User not found, authorization denied"
          | Some user => Next user
          end
      | JsonWebTokenError => Denied 401 "Invalid token"
      | TokenExpiredError => Denied 401 "Token expired"
      | OtherError => Denied 500 "Server error in authentication"
      end
  end.

(** What the middleware does once it holds the token proper. *)
Definition verdict (t : string) : AuthResult User :=
  match verify t with
  | Decoded userId =>
      match findById userId with
      | None => Denied 401 "User not found, authorization denied"
      | Some user => Next user
      end
  | JsonWebTokenError => Denied 401 "Invalid token"
  | TokenExpiredError => Denied 401 "Token expired"
  | OtherError => Denied 500 "Server error in authentication"
  end.

End Auth.

(** The request interceptor of the client: the [Authorization] header it
    adds for the token in local storage, if there is one. *)
Definition authorizationHeader (token : option string) : option string :=
  match truthy token with
  | Some t => Some ("Bearer " +:+ t)
  | None => None
  end.

(** ** More example data *)

(** A second user. *)
Definition bob : UserId := 8%positive.

(** The trip goal made through the routes, from the empty collection. *)
Definition aliceWrites : list (Z * UserId * GoalWrite) :=
  [(100, alice, CreateGoal tripId tripBody);
   (200, alice, Contribute tripId (ContributeBody.mk (JNumber 300) (Some " first ")))].

(** A lunch of 12, recorded at time 500 without a date or a payment method. *)
Definition lunchBody : ExpenseBody.t :=
  ExpenseBody.mk " Lunch " 12 "Food & Dining" None None None.

Definition lunch : Expense.t :=
  Expense.mk alice "Lunch" 12 "Food & Dining" None 500 "Cash" 500.

Definition lunchId : ObjectId := 3%positive.

(** Page 1, five per page, of all the expenses. *)
Definition firstPage : ListQuery.t :=
  ListQuery.mk (Some 1) (Some 5) None None None None None None.

(** A calendar of twelve months of 31 days, standing in for the platform's
    in the examples. *)
Definition toyMonth : Z := 31 * msPerDay.
Definition toyFullYear (t : Z) : Z := 1970 + t / (12 * toyMonth).
Definition toyGetMonth (t : Z) : Z := (t / toyMonth) mod 12.
Definition toyGetDate (t : Z) : Z := (t / msPerDay) mod 31 + 1.
Definition toyDate (y m d : Z) : Z :=
  ((y - 1970) * 12 + m) * toyMonth + (d - 1) * msPerDay.

(** May 2024 in that calendar, with three expenses in it. *)
Definition may2024 : MonthlyQuery.t := MonthlyQuery.mk (Some 2024) (Some 5).

Definition mayExpenses : ExpenseDB :=
  [spend "Groceries" 30 (toyDate 2024 4 2); spend "Travel" 50 (toyDate 2024 4 9);
   spend "Groceries" 20 (toyDate 2024 4 9)].

(** A token service that knows one token, and a user store that knows one
    user. *)
Definition toyVerify (t : string) : Verified :=
  if String.eqb t "good-token" then Decoded alice else JsonWebTokenError.

Definition toyFindById (id : UserId) : option string :=
  if decide (id = alice) then Some "Alice"%string else None.

(** * Properties *)

(** ** Numbers *)

Lemma Qgeb_true (a b : Q) : Qgeb a b = true <-> (b <= a)%Q.
Proof. unfold Qgeb. apply Qle_bool_iff. Qed.

Lemma Qgtb_true (a b : Q) : Qgtb a b = true <-> (b < a)%Q.
Proof.
  unfold Qgtb. rewrite negb_true_iff. split.
  - intros H. apply Qnot_le_lt. intros Hle.
    apply Qle_bool_iff in Hle. congruence.
  - intros H. destruct (Qle_bool a b) eqn:E; [|reflexivity].
    apply Qle_bool_iff in E. exfalso. exact (Qlt_not_le _ _ H E).
Qed.

Lemma Qgtb_false (a b : Q) : Qgtb a b = false <-> (a <= b)%Q.
Proof.
  unfold Qgtb. rewrite negb_false_iff. apply Qle_bool_iff.
Qed.

(** ** Strings *)

Example trim_both_ends : trim "  rent, May  " = "rent, May"%string.
Proof. reflexivity. Qed.

Example trim_blank : trim "   " = ""%string.
Proof. reflexivity. Qed.

(** ** Sums *)

Lemma fold_left_Qplus_shift {A} (f : A -> Q) (l : list A) (a : Q) :
  (fold_left (fun s x => s + f x) l a == a + fold_left (fun s x => s + f x) l 0)%Q.
Proof.
  revert a. induction l as [|x l IH]; intros a; simpl.
  - ring.
  - rewrite (IH (a + f x)%Q), (IH (0 + f x)%Q). ring.
Qed.

Lemma sumAmounts_snoc (l : list Contribution.t) (c : Contribution.t) :
  sumAmounts (l ++ [c]) = (sumAmounts l + Contribution.amount c)%Q.
Proof. unfold sumAmounts. rewrite fold_left_app. reflexivity. Qed.

Lemma sumBy_cons {A} (f : A -> Q) (x : A) (l : list A) :
  (fold_left (fun s y => s + f y) (x :: l) 0
   == f x + fold_left (fun s y => s + f y) l 0)%Q.
Proof. simpl. rewrite fold_left_Qplus_shift. ring. Qed.

(** A sum does not depend on the order of its terms. *)
Lemma sumBy_Permutation {A} (f : A -> Q) (l l' : list A) :
  Permutation l l' ->
  (fold_left (fun s y => s + f y) l 0 == fold_left (fun s y => s + f y) l' 0)%Q.
Proof.
  induction 1 as [|x l l' _ IH|x y l|l l' l'' _ IH1 _ IH2].
  - reflexivity.
  - rewrite !sumBy_cons, IH. reflexivity.
  - rewrite !sumBy_cons. ring.
  - rewrite IH1. exact IH2.
Qed.

Lemma sumQ_map {A} (f : A -> Q) (l : list A) :
  sumQ (map f l) = fold_left (fun s y => s + f y)%Q l 0%Q.
Proof.
  unfold sumQ. generalize 0%Q. induction l as [|x l IH]; intros a; simpl.
  - reflexivity.
  - apply IH.
Qed.

Lemma sumAmounts_Permutation (l l' : list Contribution.t) :
  Permutation l l' -> (sumAmounts l == sumAmounts l')%Q.
Proof. apply (sumBy_Permutation Contribution.amount). Qed.

(** ** Sorting *)

Lemma insertSorted_Permutation {A} (before : A -> A -> bool) (x : A) (l : list A) :
  Permutation (x :: l) (insertSorted before x l).
Proof.
  induction l as [|y l IH]; simpl.
  - reflexivity.
  - destruct (before y x).
    + rewrite perm_swap. apply perm_skip. exact IH.
    + reflexivity.
Qed.

Lemma sortBy_Permutation {A} (before : A -> A -> bool) (l : list A) :
  Permutation l (sortBy before l).
Proof.
  induction l as [|x l IH]; simpl.
  - reflexivity.
  - etransitivity; [|apply insertSorted_Permutation].
    apply perm_skip. exact IH.
Qed.

Lemma sortBy_length {A} (before : A -> A -> bool) (l : list A) :
  length (sortBy before l) = length l.
Proof. symmetry. apply Permutation_length, sortBy_Permutation. Qed.

(** ** The goal ledger *)

Lemma findOne_Some (id : ObjectId) (u : UserId) (db : GoalDB) (g : Goal.t) :
  findOne id u db = Some g <-> db !! id = Some g /\ Goal.user g = u.
Proof.
  unfold findOne. destruct (db !! id) as [g0|]; [|split; [discriminate|intros [? _]; discriminate]].
  destruct (decide (Goal.user g0 = u)) as [Hu|Hu]; split.
  - intros [= <-]. auto.
  - intros [[= <-] _]. reflexivity.
  - discriminate.
  - intros [[= <-] H]. contradiction.
Qed.

(** A contribution request either is served, and then the goal was found
    under the caller, was Active, the body was valid, the amount could be
    cast and the mutated document passed the schema, or it fails and leaves
    the collection as it was. *)
Lemma contribute_cases (js : Platform) (now : Z) (u : UserId) (id : ObjectId)
    (b : ContributeBody.t) (db : GoalDB) :
  (exists goal goal',
      findOne id u db = Some goal
      /\ Goal.status goal = Active
      /\ contributeBodyErrors js b = []
      /\ addContribution_mutate js now (ContributeBody.amount b)
           (noteOrEmpty (ContributeBody.note b)) goal = Some goal'
      /\ goalErrors now goal' = []
      /\ contribute js now u id b db = (Ok 200 goal', <[id := goal']> db))
  \/ (exists code msg errs, contribute js now u id b db = (Fail code msg errs, db)).
Proof.
  unfold contribute.
  destruct (contributeBodyErrors js b) as [|e errs] eqn:Hb; [|right; eauto].
  destruct (findOne id u db) as [goal|] eqn:Hf; [|right; eauto].
  destruct (bool_decide (Goal.status goal = Active)) eqn:Hs; simpl; [|right; eauto].
  apply bool_decide_eq_true in Hs.
  unfold addContribution.
  destruct (addContribution_mutate js now _ _ goal) as [goal'|] eqn:Hm;
    [|right; eauto].
  unfold save.
  destruct (goalErrors now goal') as [|e errs] eqn:Hg; [|right; eauto].
  left. exists goal, goal'. repeat split; auto.
Qed.

(** What [addContribution] does to the document when the casts succeed:
    one contribution more, the new total, the status that follows from it,
    and nothing else. *)
Lemma addContribution_mutate_Some js now amount note g g' :
  addContribution_mutate js now amount note g = Some g' ->
  exists stored total,
    castNumber js amount = Some stored
    /\ plusAssign js (Goal.currentAmount g) amount = Some total
    /\ g' = Goal.mk (Goal.user g) (Goal.title g) (Goal.description g)
              (Goal.targetAmount g) total (Goal.targetDate g) (Goal.category g)
              (Goal.priority g)
              (if Qgeb total (Goal.targetAmount g) then Completed else Goal.status g)
              (Goal.contributions g ++ [Contribution.mk stored now (trim note)])
              (Goal.createdAt g).
Proof.
  unfold addContribution_mutate.
  destruct (castNumber js amount) as [stored|]; [|discriminate].
  destruct (plusAssign js (Goal.currentAmount g) amount) as [total|]; [|discriminate].
  intros [= <-]. exists stored, total. split; [reflexivity|]. split; [reflexivity|].
  simpl. destruct (Qgeb total (Goal.targetAmount g)); reflexivity.
Qed.

(** An amount sent as a number is stored as it is and added to the total. *)
Lemma addContribution_mutate_number js now a note g g' :
  addContribution_mutate js now (JNumber a) note g = Some g' ->
  Goal.contributions g'
  = Goal.contributions g ++ [Contribution.mk a now (trim note)]
  /\ Goal.currentAmount g' = (Goal.currentAmount g + a)%Q
  /\ Goal.targetAmount g' = Goal.targetAmount g
  /\ Goal.status g'
     = (if Qgeb (Goal.currentAmount g + a) (Goal.targetAmount g)
        then Completed else Goal.status g).
Proof.
  intros H. apply addContribution_mutate_Some in H
    as (stored & total & [= <-] & [= <-] & ->).
  simpl. auto.
Qed.

Lemma addContribution_mutate_balanced js now a note g g' :
  addContribution_mutate js now (JNumber a) note g = Some g' ->
  balanced g -> balanced g'.
Proof.
  unfold balanced. intros Hm H.
  apply addContribution_mutate_number in Hm as (Hc & Ha & _).
  rewrite Ha, Hc, sumAmounts_snoc, H. reflexivity.
Qed.

Lemma serve_balanced (js : Platform) (id : ObjectId) (c : Call.t) (db : GoalDB) :
  numeric c ->
  (forall g, db !! id = Some g -> balanced g) ->
  forall g, serve js db c !! id = Some g -> balanced g.
Proof.
  intros [a Hn] Hdb g. unfold serve.
  destruct (contribute_cases js (Call.time c) (Call.caller c) (Call.goalId c)
              (Call.body c) db)
    as [(goal & goal' & Hf & _ & _ & Hm & _ & ->)|(code & msg & errs & ->)]; simpl.
  - apply findOne_Some in Hf as [Hl _]. rewrite Hn in Hm.
    destruct (decide (Call.goalId c = id)) as [Heq|Hne].
    + subst id. rewrite lookup_insert_eq. intros [= <-].
      apply (addContribution_mutate_balanced _ _ _ _ _ _ Hm). auto.
    + rewrite lookup_insert_ne by assumption. auto.
  - auto.
Qed.

(** While every amount is sent as a number, the running total of a goal
    stays the sum of its contributions. *)
Lemma serveAll_balanced (js : Platform) (id : ObjectId) (calls : list Call.t)
    (db : GoalDB) :
  Forall numeric calls ->
  (forall g, db !! id = Some g -> balanced g) ->
  forall g, serveAll js calls db !! id = Some g -> balanced g.
Proof.
  intros Hn. revert db. induction Hn as [|c calls Hc _ IH]; intros db Hdb; simpl.
  - exact Hdb.
  - apply IH. apply serve_balanced; assumption.
Qed.

Lemma createGoal_Ok now u id b db code goal db' :
  createGoal now u id b db = (Ok code goal, db') ->
  goal = newGoal now u b /\ db' = <[id := goal]> db /\ db !! id = None
  /\ now < CreateBody.targetDate b
  /\ goalErrors now goal = []
  /\ statusErrors (CreateBody.status b) = [].
Proof.
  unfold createGoal.
  destruct (createBodyErrors b); [|discriminate].
  destruct (CreateBody.targetDate b <=? now) eqn:Hd; [discriminate|].
  destruct (goalErrors now _ ++ statusErrors _) eqn:He; [|discriminate].
  destruct (db !! id) eqn:Hl; [discriminate|].
  intros [= _ <- <-]. apply Z.leb_gt in Hd. apply app_eq_nil in He as [? ?].
  repeat split; auto.
Qed.

(** C1. On the trip goal, created with [currentAmount] 0, a contribution
    of 300 sent as a number and one of 700 sent as the string "700" are
    both accepted. The ledger records 300 and 700, which add up to 1000,
    but [currentAmount += amount] concatenates the text of 300 with the
    string, and the total stored is 300700: [currentAmount] is not the sum
    of the contributions. The platform is any one on which 300 reads "300",
    "700" and "300700" stand for 700 and 300700, and "700" is a float. *)
Theorem currentAmount_concatenates_string_amount :
  forall js : Platform,
    numberToString js 300 = "300"%string ->
    stringToNumber js "700" = Some 700%Q ->
    stringToNumber js "300700" = Some 300700%Q ->
    isFloat js "700" (1 # 100) = true ->
    createGoal 100 alice tripId tripBody ∅
    = (Ok 201 (newGoal 100 alice tripBody), tripCreated)
    /\ Goal.currentAmount (newGoal 100 alice tripBody) = 0%Q
    /\ contribute js 200 alice tripId
         (ContributeBody.mk (JNumber 300) (Some " first ")) tripCreated
       = (Ok 200 tripAfterFirst, {[ tripId := tripAfterFirst ]})
    /\ contribute js 300 alice tripId
         (ContributeBody.mk (JString "700") None) {[ tripId := tripAfterFirst ]}
       = (Ok 200 tripConcatenated, {[ tripId := tripConcatenated ]})
    /\ serveAll js stringCalls tripCreated !! tripId = Some tripConcatenated
    /\ (sumAmounts (Goal.contributions tripConcatenated) == 1000)%Q
    /\ (Goal.currentAmount tripConcatenated == 300700)%Q
    /\ ~ (Goal.currentAmount tripConcatenated
          == sumAmounts (Goal.contributions tripConcatenated))%Q.
Proof.
  intros [toText toNumber float]. cbn [numberToString stringToNumber isFloat].
  intros Htext H700 H300700 Hfloat.
  assert (H1 : contribute (Build_Platform toText toNumber float) 200 alice tripId
                 (ContributeBody.mk (JNumber 300) (Some " first ")) tripCreated
               = (Ok 200 tripAfterFirst, {[ tripId := tripAfterFirst ]}))
    by (vm_compute; reflexivity).
  assert (H2 : contribute (Build_Platform toText toNumber float) 300 alice tripId
                 (ContributeBody.mk (JString "700") None)
                 {[ tripId := tripAfterFirst ]}
               = (Ok 200 tripConcatenated, {[ tripId := tripConcatenated ]})).
  { vm_compute. rewrite Hfloat, H700, Htext.
    vm_compute. rewrite H300700. vm_compute. reflexivity. }
  split; [vm_compute; reflexivity|]. split; [reflexivity|].
  split; [exact H1|]. split; [exact H2|]. split.
  - unfold serveAll, stringCalls. cbn [fold_left]. unfold serve at 2.
    cbn [Call.time Call.caller Call.goalId Call.body]. rewrite H1.
    unfold serve. cbn [Call.time Call.caller Call.goalId Call.body snd].
    rewrite H2. apply lookup_insert_eq.
  - split; [reflexivity|]. split; [reflexivity|]. discriminate.
Qed.

Lemma currentAmount_concatenates_string_amount_witness :
  numberToString decimal 300 = "300"%string
  /\ stringToNumber decimal "700" = Some 700%Q
  /\ stringToNumber decimal "300700" = Some 300700%Q
  /\ isFloat decimal "700" (1 # 100) = true
  /\ serveAll decimal stringCalls tripCreated !! tripId = Some tripConcatenated
  /\ ~ (Goal.currentAmount tripConcatenated
        == sumAmounts (Goal.contributions tripConcatenated))%Q.
Proof.
  assert (H1 : numberToString decimal 300 = "300"%string) by reflexivity.
  assert (H2 : stringToNumber decimal "700" = Some 700%Q) by reflexivity.
  assert (H3 : stringToNumber decimal "300700" = Some 300700%Q) by reflexivity.
  assert (H4 : isFloat decimal "700" (1 # 100) = true) by reflexivity.
  destruct (currentAmount_concatenates_string_amount decimal H1 H2 H3 H4)
    as (_ & _ & _ & _ & Hs & _ & _ & Hne).
  repeat (split; [assumption|]). exact Hne.
Defined.

(** C2, as the claim words it, fails: the note " first " is not stored as
    it was given but trimmed, as the schema declares for the path. *)
Lemma contribute_stores_trimmed_note_counterexample :
  contribute decimal 200 alice tripId
    (ContributeBody.mk (JNumber 300) (Some " first ")) tripCreated
  = (Ok 200 tripAfterFirst, {[ tripId := tripAfterFirst ]})
  /\ Goal.contributions tripAfterFirst <> [Contribution.mk 300 200 " first "].
Proof. split; [vm_compute; reflexivity|discriminate]. Qed.

(** C2, as the code has it. A successful contribution request (the route
    answers with the goal) whose amount is sent as a number was made on an
    Active goal; the saved goal has one more contribution, at the end of the
    list, with that amount, the note trimmed and the time of the request;
    its [currentAmount] is the previous one plus the amount; its status is
    Completed if and only if that sum has reached [targetAmount], and it is
    still Active otherwise. The saved goal is the one stored under the id. *)
Theorem contribute_appends_increments_completes :
  forall (js : Platform) (now : Z) (u : UserId) (id : ObjectId)
         (b : ContributeBody.t) (db db' : GoalDB) (goal goal' : Goal.t)
         (code : Z) (a : Q),
    db !! id = Some goal ->
    ContributeBody.amount b = JNumber a ->
    contribute js now u id b db = (Ok code goal', db') ->
    Goal.status goal = Active
    /\ Goal.contributions goal'
       = Goal.contributions goal
         ++ [Contribution.mk a now (trim (noteOrEmpty (ContributeBody.note b)))]
    /\ Goal.currentAmount goal' = (Goal.currentAmount goal + a)%Q
    /\ (Goal.status goal' = Completed
        <-> (Goal.targetAmount goal <= Goal.currentAmount goal + a)%Q)
    /\ (Goal.status goal' = Completed
        <-> (Goal.targetAmount goal' <= Goal.currentAmount goal')%Q)
    /\ (Goal.status goal' <> Completed -> Goal.status goal' = Active)
    /\ Goal.targetAmount goal' = Goal.targetAmount goal
    /\ db' = <[id := goal']> db.
Proof.
  intros js now u id b db db' goal goal' code a Hl Ha Hc.
  destruct (contribute_cases js now u id b db)
    as [(goal0 & goal1 & Hf & Hs & _ & Hm & _ & Heq)|(c & m & e & Heq)];
    rewrite Heq in Hc; [|discriminate].
  apply findOne_Some in Hf as [Hl0 _].
  rewrite Hl in Hl0. injection Hl0 as <-.
  injection Hc as _ <- <-.
  rewrite Ha in Hm.
  apply addContribution_mutate_number in Hm as (Hcs & Hcur & Htar & Hst).
  rewrite Hcs, Hcur, Hst, Htar.
  assert (Hiff : (if Qgeb (Goal.currentAmount goal + a) (Goal.targetAmount goal)
                  then Completed else Goal.status goal) = Completed
                 <-> (Goal.targetAmount goal <= Goal.currentAmount goal + a)%Q).
  { destruct (Qgeb _ _) eqn:E.
    - split; [intros _; apply Qgeb_true; exact E|reflexivity].
    - split; [rewrite Hs; discriminate|].
      intros H. apply Qgeb_true in H. congruence. }
  split; [exact Hs|]. split; [reflexivity|]. split; [reflexivity|].
  split; [exact Hiff|]. split; [exact Hiff|].
  split; [|split; reflexivity].
  destruct (Qgeb _ _); [intros H; contradiction|intros _; exact Hs].
Qed.

Lemma contribute_appends_increments_completes_witness :
  tripCreated !! tripId = Some (newGoal 100 alice tripBody)
  /\ contribute decimal 200 alice tripId
       (ContributeBody.mk (JNumber 300) (Some " first ")) tripCreated
     = (Ok 200 tripAfterFirst, {[ tripId := tripAfterFirst ]})
  /\ Goal.contributions tripAfterFirst = [Contribution.mk 300 200 "first"]
  /\ Goal.currentAmount tripAfterFirst = (0 + 300)%Q
  /\ Goal.status tripAfterFirst = Active.
Proof.
  assert (Hl : tripCreated !! tripId = Some (newGoal 100 alice tripBody))
    by (vm_compute; reflexivity).
  assert (Hc : contribute decimal 200 alice tripId
                 (ContributeBody.mk (JNumber 300) (Some " first ")) tripCreated
               = (Ok 200 tripAfterFirst, {[ tripId := tripAfterFirst ]}))
    by (vm_compute; reflexivity).
  destruct (contribute_appends_increments_completes decimal 200 alice tripId
              (ContributeBody.mk (JNumber 300) (Some " first ")) tripCreated
              {[ tripId := tripAfterFirst ]} (newGoal 100 alice tripBody)
              tripAfterFirst 200 300 Hl eq_refl Hc)
    as (_ & Hcs & Hcur & _ & _ & Hst & _ & _).
  split; [exact Hl|]. split; [exact Hc|]. split; [exact Hcs|].
  split; [exact Hcur|]. apply Hst. discriminate.
Defined.

(** C3. A contribution request on a goal whose status is not Active never
    succeeds and leaves the collection, and so the goal with its
    contributions, [currentAmount] and status, exactly as it was; when the
    goal's owner sends it with a valid body, the answer is the business-rule
    rejection (status 400, "Cannot contribute to inactive goal"). *)
Theorem contribute_inactive_rejected :
  forall (js : Platform) (now : Z) (u : UserId) (id : ObjectId)
         (b : ContributeBody.t) (db : GoalDB) (goal : Goal.t),
    db !! id = Some goal ->
    Goal.status goal <> Active ->
    isOk (fst (contribute js now u id b db)) = false
    /\ snd (contribute js now u id b db) = db
    /\ snd (contribute js now u id b db) !! id = Some goal
    /\ (Goal.user goal = u -> contributeBodyErrors js b = [] ->
        fst (contribute js now u id b db)
        = Fail 400 "Cannot contribute to inactive goal" []).
Proof.
  intros js now u id b db goal Hl Hs.
  destruct (contribute_cases js now u id b db)
    as [(goal0 & goal1 & Hf & Hs0 & _)|(c & m & e & Heq)].
  - apply findOne_Some in Hf as [Hl0 _]. congruence.
  - rewrite Heq. simpl. repeat split; try assumption.
    intros Hu Hb. unfold contribute in Heq. rewrite Hb in Heq.
    assert (Hf : findOne id u db = Some goal) by (apply findOne_Some; auto).
    rewrite Hf in Heq.
    rewrite bool_decide_eq_false_2 in Heq by assumption.
    simpl in Heq. injection Heq as <- <- <-. reflexivity.
Qed.

Lemma contribute_inactive_rejected_witness :
  ({[ tripId := tripFunded ]} : GoalDB) !! tripId = Some tripFunded
  /\ Goal.status tripFunded <> Active
  /\ contribute decimal 400 alice tripId (ContributeBody.mk (JNumber 50) None)
       {[ tripId := tripFunded ]}
     = (Fail 400 "Cannot contribute to inactive goal" [], {[ tripId := tripFunded ]}).
Proof.
  assert (Hl : ({[ tripId := tripFunded ]} : GoalDB) !! tripId = Some tripFunded)
    by (vm_compute; reflexivity).
  assert (Hs : Goal.status tripFunded <> Active) by discriminate.
  destruct (contribute_inactive_rejected decimal 400 alice tripId
              (ContributeBody.mk (JNumber 50) None) {[ tripId := tripFunded ]}
              tripFunded Hl Hs) as (_ & Hdb & _ & Hr).
  split; [exact Hl|]. split; [exact Hs|].
  rewrite (surjective_pairing (contribute _ _ _ _ _ _)).
  rewrite Hdb, Hr; reflexivity.
Defined.

(** ** The generic update *)

(** A fact about [merge] that holds by computation once it is known which
    fields the body carries. *)
Ltac by_fields_of b :=
  destruct b as [[?|] [?|] [?|] [?|] [?|] [?|] [?|] [?|] [?|] [?|]]; reflexivity.

Lemma merge_currentAmount (now : Z) (b : UpdateBody.t) (g : Goal.t) :
  Goal.currentAmount (merge now b g)
  = orDefault (Goal.currentAmount g) (UpdateBody.currentAmount b).
Proof. by_fields_of b. Qed.

Lemma merge_targetAmount (now : Z) (b : UpdateBody.t) (g : Goal.t) :
  Goal.targetAmount (merge now b g)
  = orDefault (Goal.targetAmount g) (UpdateBody.targetAmount b).
Proof. by_fields_of b. Qed.

Lemma merge_status (now : Z) (b : UpdateBody.t) (g : Goal.t) :
  Goal.status (merge now b g) = orDefault (Goal.status g) (UpdateBody.status b).
Proof. by_fields_of b. Qed.

Lemma merge_targetDate (now : Z) (b : UpdateBody.t) (g : Goal.t) :
  Goal.targetDate (merge now b g)
  = orDefault (Goal.targetDate g) (UpdateBody.targetDate b).
Proof. by_fields_of b. Qed.

Lemma merge_contributions (now : Z) (b : UpdateBody.t) (g : Goal.t) :
  Goal.contributions (merge now b g)
  = match UpdateBody.contributions b with
    | Some l => map (castContribution now) l
    | None => Goal.contributions g
    end.
Proof. by_fields_of b. Qed.

Lemma merge_user (now : Z) (b : UpdateBody.t) (g : Goal.t) :
  Goal.user (merge now b g) = orDefault (Goal.user g) (UpdateBody.user b).
Proof. by_fields_of b. Qed.

Lemma autoComplete_user (g : Goal.t) :
  Goal.user (autoComplete g) = Goal.user g.
Proof. unfold autoComplete. destruct (_ && _); reflexivity. Qed.

Lemma autoComplete_currentAmount (g : Goal.t) :
  Goal.currentAmount (autoComplete g) = Goal.currentAmount g.
Proof. unfold autoComplete. destruct (_ && _); reflexivity. Qed.

Lemma autoComplete_targetDate (g : Goal.t) :
  Goal.targetDate (autoComplete g) = Goal.targetDate g.
Proof. unfold autoComplete. destruct (_ && _); reflexivity. Qed.

Lemma autoComplete_contributions (g : Goal.t) :
  Goal.contributions (autoComplete g) = Goal.contributions g.
Proof. unfold autoComplete. destruct (_ && _); reflexivity. Qed.

(** An update that is answered with the goal found it under the caller and
    saved the merged, auto-completed document, which passed the schema. *)
Lemma updateGoal_Ok now u id b db code goal' db' :
  updateGoal now u id b db = (Ok code goal', db') ->
  exists goal,
    findOne id u db = Some goal
    /\ goal' = autoComplete (merge now b goal)
    /\ goalErrors now goal' = []
    /\ db' = <[id := goal']> db.
Proof.
  unfold updateGoal.
  destruct (updateBodyErrors b); [|discriminate].
  destruct (findOne id u db) as [goal|]; [|discriminate].
  destruct (match UpdateBody.targetDate b with Some d => d <=? now | None => false end);
    [discriminate|].
  unfold save. destruct (goalErrors now _) eqn:Hg; [|discriminate].
  intros [= _ <- <-]. exists goal. auto.
Qed.

(** C9. The generic update completes a goal too: when the document with the
    body's fields written over it has [currentAmount >= targetAmount] and
    status Active, the goal an accepted update saves has status Completed. *)
Theorem update_auto_completes :
  forall (now : Z) (u : UserId) (id : ObjectId) (b : UpdateBody.t)
         (db db' : GoalDB) (goal goal' : Goal.t) (code : Z),
    db !! id = Some goal ->
    updateGoal now u id b db = (Ok code goal', db') ->
    orDefault (Goal.status goal) (UpdateBody.status b) = Active ->
    (orDefault (Goal.targetAmount goal) (UpdateBody.targetAmount b)
     <= orDefault (Goal.currentAmount goal) (UpdateBody.currentAmount b))%Q ->
    Goal.status goal' = Completed /\ db' !! id = Some goal'.
Proof.
  intros now u id b db db' goal goal' code Hl Hu Hs Hle.
  apply updateGoal_Ok in Hu as (goal0 & Hf & -> & _ & ->).
  apply findOne_Some in Hf as [Hl0 _].
  rewrite Hl in Hl0. injection Hl0 as <-.
  split; [|apply lookup_insert_eq].
  unfold autoComplete.
  rewrite merge_currentAmount, merge_targetAmount, merge_status.
  apply Qgeb_true in Hle. rewrite Hle, Hs. reflexivity.
Qed.

Lemma update_auto_completes_witness :
  ({[ tripId := tripAfterFirst ]} : GoalDB) !! tripId = Some tripAfterFirst
  /\ updateGoal 400 alice tripId raiseCurrent {[ tripId := tripAfterFirst ]}
     = (Ok 200 tripRaised, {[ tripId := tripRaised ]})
  /\ Goal.status tripRaised = Completed.
Proof.
  assert (Hl : ({[ tripId := tripAfterFirst ]} : GoalDB) !! tripId
               = Some tripAfterFirst) by (vm_compute; reflexivity).
  assert (Hu : updateGoal 400 alice tripId raiseCurrent {[ tripId := tripAfterFirst ]}
               = (Ok 200 tripRaised, {[ tripId := tripRaised ]}))
    by (vm_compute; reflexivity).
  split; [exact Hl|]. split; [exact Hu|].
  apply (update_auto_completes 400 alice tripId raiseCurrent
           {[ tripId := tripAfterFirst ]} {[ tripId := tripRaised ]}
           tripAfterFirst tripRaised 200 Hl Hu).
  - reflexivity.
  - vm_compute. discriminate.
Defined.

(** Lowering the target below the running total completes the goal as well. *)
Example update_lowerTarget_completes :
  Goal.status <$> answered (updateGoal 400 alice tripId lowerTarget
                              {[ tripId := tripAfterFirst ]}) = Some Completed.
Proof. vm_compute. reflexivity. Qed.

(** Saving a goal whose target date is not in the future is refused by the
    schema, whichever fields were written. *)
Lemma goalErrors_targetDate (now : Z) (g : Goal.t) :
  Goal.targetDate g <= now ->
  In (mkFieldError "targetDate" "Target date must be in the future")
     (goalErrors now g).
Proof.
  intros H. unfold goalErrors.
  do 5 (apply in_or_app; right). apply in_or_app; left.
  apply Z.ltb_ge in H. rewrite H. simpl. auto.
Qed.

Lemma updateGoal_stale_targetDate now u id b db goal :
  findOne id u db = Some goal ->
  UpdateBody.targetDate b = None ->
  Goal.targetDate goal <= now ->
  isOk (fst (updateGoal now u id b db)) = false
  /\ snd (updateGoal now u id b db) = db.
Proof.
  intros Hf Hb Hd. unfold updateGoal.
  destruct (updateBodyErrors b); [|auto].
  rewrite Hf, Hb. unfold save.
  pose proof (goalErrors_targetDate now (autoComplete (merge now b goal))) as Hin.
  rewrite autoComplete_targetDate, merge_targetDate, Hb in Hin.
  specialize (Hin Hd).
  destruct (goalErrors now _); [destruct Hin|auto].
Qed.

(** C4. The trip goal, created at time 100 with its deadline at 5000, is
    renamed at time 6000 by a request that carries the title alone. The route
    skips its own date check, the body having no [targetDate], but
    [goal.save()] validates the stored [targetDate] again: the update is
    answered 400 with the schema's message for [targetDate] and nothing is
    written. *)
Theorem update_overdue_goal_rejected :
  updateGoal 6000 alice tripId renameOnly {[ tripId := tripAfterFirst ]}
  = (Fail 400 "Validation failed"
       [mkFieldError "targetDate" "Target date must be in the future"],
     {[ tripId := tripAfterFirst ]}).
Proof. vm_compute. reflexivity. Qed.

(** The same request before the deadline is accepted. *)
Example update_before_deadline_accepted :
  Goal.title <$> answered (updateGoal 400 alice tripId renameOnly
                             {[ tripId := tripAfterFirst ]}) = Some "Holiday"%string.
Proof. vm_compute. reflexivity. Qed.

(** ** ListContributions *)

Lemma listContributions_found u id db goal :
  findOne id u db = Some goal ->
  listContributions u id db
  = Ok 200 (ContributionsReport.mk
              (sortBy newerContribution (Goal.contributions goal))
              (Z.of_nat (length (sortBy newerContribution (Goal.contributions goal))))
              (sumAmounts (sortBy newerContribution (Goal.contributions goal)))).
Proof. intros H. unfold listContributions. rewrite H. reflexivity. Qed.

(** The route's [reduce] computes the sum of the amounts. *)
Lemma sumAmounts_spec (l : list Contribution.t) :
  (sumAmounts l == spec_sumOfAmounts l)%Q.
Proof.
  induction l as [|c l IH]; [reflexivity|].
  unfold sumAmounts. rewrite (sumBy_cons Contribution.amount).
  fold (sumAmounts l). rewrite IH. reflexivity.
Qed.

Lemma spec_sumOfAmounts_Permutation (l l' : list Contribution.t) :
  Permutation l l' -> (spec_sumOfAmounts l == spec_sumOfAmounts l')%Q.
Proof.
  intros H. rewrite <- !sumAmounts_spec. apply sumAmounts_Permutation, H.
Qed.

(** C10. The total that ListContributions returns is the sum of the amounts
    in the goal's [contributions] list, whatever the stored [currentAmount]
    is: writing any other [currentAmount] into the document leaves the
    answer as it was. So for a goal just created the total is the sum of the
    contributions the body carried, 0 when it carried none, while
    [currentAmount] is the amount the body seeded; and after an accepted
    update that writes [currentAmount] and no contributions, the total is
    still the sum of the goal's contributions while [currentAmount] is the
    value written. Where the two numbers are different, the total differs
    from [currentAmount]. *)
Theorem listContributions_total_ignores_currentAmount :
  (forall (u : UserId) (id : ObjectId) (db : GoalDB) (goal : Goal.t) (c : Q),
      findOne id u db = Some goal ->
      exists r,
        listContributions u id db = Ok 200 r
        /\ (ContributionsReport.totalAmount r
            == spec_sumOfAmounts (Goal.contributions goal))%Q
        /\ ContributionsReport.totalContributions r
           = Z.of_nat (length (Goal.contributions goal))
        /\ listContributions u id (<[id := Goal.set_currentAmount c goal]> db)
           = Ok 200 r)
  /\ (forall (now : Z) (u : UserId) (id : ObjectId) (b : CreateBody.t)
             (db db' : GoalDB) (goal : Goal.t) (code : Z),
         createGoal now u id b db = (Ok code goal, db') ->
         Goal.currentAmount goal = orDefault 0%Q (CreateBody.currentAmount b)
         /\ exists r,
              listContributions u id db' = Ok 200 r
              /\ (ContributionsReport.totalAmount r
                  == spec_sumOfAmounts
                       (map (castContribution now) (CreateBody.contributions b)))%Q
              /\ (CreateBody.contributions b = [] ->
                  (ContributionsReport.totalAmount r == 0)%Q
                  /\ (~ (orDefault 0 (CreateBody.currentAmount b) == 0)%Q ->
                      ~ (ContributionsReport.totalAmount r
                         == Goal.currentAmount goal)%Q)))
  /\ (forall (now : Z) (u : UserId) (id : ObjectId) (b : UpdateBody.t)
             (db db' : GoalDB) (goal goal' : Goal.t) (code : Z) (c : Q),
         db !! id = Some goal ->
         UpdateBody.currentAmount b = Some c ->
         UpdateBody.contributions b = None ->
         updateGoal now u id b db = (Ok code goal', db') ->
         Goal.currentAmount goal' = c
         /\ exists r,
              listContributions (orDefault u (UpdateBody.user b)) id db' = Ok 200 r
              /\ (ContributionsReport.totalAmount r
                  == spec_sumOfAmounts (Goal.contributions goal))%Q
              /\ (~ (c == spec_sumOfAmounts (Goal.contributions goal))%Q ->
                  ~ (ContributionsReport.totalAmount r
                     == Goal.currentAmount goal')%Q)).
Proof.
  split; [|split].
  - intros u id db goal c Hf.
    eexists. split; [apply listContributions_found; exact Hf|]. simpl.
    split; [|split].
    + rewrite sumAmounts_spec. symmetry.
      apply spec_sumOfAmounts_Permutation, sortBy_Permutation.
    + rewrite sortBy_length. reflexivity.
    + apply findOne_Some in Hf as [_ Hu].
      apply (listContributions_found u id _ (Goal.set_currentAmount c goal)).
      apply findOne_Some. rewrite lookup_insert_eq. split; [reflexivity|exact Hu].
  - intros now u id b db db' goal code Hc.
    apply createGoal_Ok in Hc as (-> & -> & _ & _ & _ & _).
    split; [reflexivity|].
    eexists. split.
    { apply listContributions_found. apply findOne_Some.
      rewrite lookup_insert_eq. split; reflexivity. }
    simpl.
    assert (E : (sumAmounts (sortBy newerContribution
                               (map (castContribution now) (CreateBody.contributions b)))
                 == spec_sumOfAmounts
                      (map (castContribution now) (CreateBody.contributions b)))%Q).
    { rewrite sumAmounts_spec. symmetry.
      apply spec_sumOfAmounts_Permutation, sortBy_Permutation. }
    split; [exact E|].
    intros Hnil. rewrite Hnil in *. simpl in *. split; [reflexivity|].
    intros Hz Heq. apply Hz. rewrite <- Heq. reflexivity.
  - intros now u id b db db' goal goal' code c Hl Hb Hnc Hu.
    apply updateGoal_Ok in Hu as (goal0 & Hf & -> & _ & ->).
    apply findOne_Some in Hf as [Hl0 Hu0].
    rewrite Hl in Hl0. injection Hl0 as <-.
    assert (Hcur : Goal.currentAmount (autoComplete (merge now b goal)) = c).
    { rewrite autoComplete_currentAmount, merge_currentAmount, Hb. reflexivity. }
    split; [exact Hcur|].
    eexists. split.
    { apply listContributions_found. apply findOne_Some.
      rewrite lookup_insert_eq. split; [reflexivity|].
      rewrite autoComplete_user, merge_user, Hu0. reflexivity. }
    simpl. rewrite autoComplete_contributions, merge_contributions, Hnc.
    assert (E : (sumAmounts (sortBy newerContribution (Goal.contributions goal))
                 == spec_sumOfAmounts (Goal.contributions goal))%Q).
    { rewrite sumAmounts_spec. symmetry.
      apply spec_sumOfAmounts_Permutation, sortBy_Permutation. }
    split; [exact E|].
    intros Hne Heq. apply Hne. rewrite <- Hcur, <- Heq, E. reflexivity.
Qed.

Lemma listContributions_total_ignores_currentAmount_witness :
  ({[ tripId := tripAfterFirst ]} : GoalDB) !! tripId = Some tripAfterFirst
  /\ UpdateBody.currentAmount raiseCurrent = Some 1000%Q
  /\ UpdateBody.contributions raiseCurrent = None
  /\ updateGoal 400 alice tripId raiseCurrent {[ tripId := tripAfterFirst ]}
     = (Ok 200 tripRaised, {[ tripId := tripRaised ]})
  /\ Goal.currentAmount tripRaised = 1000%Q
  /\ exists r,
       listContributions alice tripId {[ tripId := tripRaised ]} = Ok 200 r
       /\ (ContributionsReport.totalAmount r == 300)%Q
       /\ ~ (ContributionsReport.totalAmount r == Goal.currentAmount tripRaised)%Q.
Proof.
  assert (Hl : ({[ tripId := tripAfterFirst ]} : GoalDB) !! tripId
               = Some tripAfterFirst) by (vm_compute; reflexivity).
  assert (Hu : updateGoal 400 alice tripId raiseCurrent {[ tripId := tripAfterFirst ]}
               = (Ok 200 tripRaised, {[ tripId := tripRaised ]}))
    by (vm_compute; reflexivity).
  destruct (proj2 (proj2 listContributions_total_ignores_currentAmount)
              400 alice tripId raiseCurrent {[ tripId := tripAfterFirst ]}
              {[ tripId := tripRaised ]} tripAfterFirst tripRaised 200 1000%Q
              Hl eq_refl eq_refl Hu) as (Hcur & r & Hr & Ht & Hne).
  split; [exact Hl|]. split; [reflexivity|]. split; [reflexivity|].
  split; [exact Hu|]. split; [exact Hcur|].
  exists r. split; [exact Hr|]. split.
  - rewrite Ht. reflexivity.
  - apply Hne. discriminate.
Defined.

(** ** Goal progress *)

(** C5. The trip goal has a target of 1000 and, after one contribution of
    1500, a [currentAmount] of 1500. The goals-progress report gives it a
    [progress] of 150: the route computes the percentage without the cap at
    100 that the model's [progressPercentage] applies, which is 100 here. *)
Theorem goalsProgress_progress_exceeds_100 :
  exists r,
    GoalsProgress.goals (goalsProgress 300 alice overfundedDB) = [r]
    /\ (Goal.targetAmount (GoalProgress.goal r) == 1000)%Q
    /\ (Goal.currentAmount (GoalProgress.goal r) == 1500)%Q
    /\ (GoalProgress.progress r == 150)%Q
    /\ (100 < GoalProgress.progress r)%Q
    /\ (progressPercentage (GoalProgress.goal r) == 100)%Q.
Proof.
  eexists. split; [vm_compute; reflexivity|].
  repeat split; vm_compute; reflexivity.
Qed.

(** The model's virtual is the capped percentage of the specification. *)
Lemma progressPercentage_capped (g : Goal.t) :
  (0 < Goal.targetAmount g)%Q ->
  (progressPercentage g
   == Qmin (Goal.currentAmount g / Goal.targetAmount g * 100) 100)%Q
  /\ (progressPercentage g <= 100)%Q.
Proof.
  intros Ht. unfold progressPercentage.
  destruct (Qeq_bool (Goal.targetAmount g) 0) eqn:E.
  - apply Qeq_bool_eq in E. rewrite E in Ht. discriminate.
  - split; [reflexivity|]. unfold Qmin.
    destruct (Qle_bool _ 100) eqn:L.
    + apply Qle_bool_iff. exact L.
    + apply Qle_refl.
Qed.

Lemma inject_Z_nonzero (k : Z) : k <> 0 -> ~ (inject_Z k == 0)%Q.
Proof.
  intros Hk E. apply Hk. apply (proj1 (inject_Z_injective k 0)). exact E.
Qed.

Lemma inject_Z_msPerDay_nonzero : ~ (inject_Z msPerDay == 0)%Q.
Proof. discriminate. Qed.

(** A whole number of days is counted exactly. *)
Lemma daysBetween_exact (a b k : Z) :
  b - a = k * msPerDay -> daysBetween a b = k.
Proof.
  intros H. unfold daysBetween, Math_ceil. rewrite H.
  assert (E : (inject_Z (k * msPerDay) / inject_Z msPerDay == inject_Z k)%Q).
  { rewrite inject_Z_mult. field. exact inject_Z_msPerDay_nonzero. }
  rewrite E. apply Qceiling_Z.
Qed.

Lemma isOnTrack_unfold (now : Z) (g : Goal.t) :
  (0 < Goal.targetAmount g)%Q ->
  0 < daysBetween (Goal.createdAt g) (Goal.targetDate g) ->
  GoalProgress.isOnTrack (goalProgress now g)
  = Qgeb (Goal.currentAmount g / Goal.targetAmount g * 100)
         (inject_Z (daysBetween (Goal.createdAt g) (Goal.targetDate g)
                    - daysBetween now (Goal.targetDate g))
          / inject_Z (daysBetween (Goal.createdAt g) (Goal.targetDate g)) * 100).
Proof.
  intros Ht Hd. unfold goalProgress. simpl.
  apply Qgtb_true in Ht. rewrite Ht.
  apply Z.ltb_lt in Hd. rewrite Hd. reflexivity.
Qed.

(** C6, as the code has it, the quotients being taken exactly. For a goal
    with a positive target and a positive number of days between its
    creation and its target date, [isOnTrack] is true if and only if
    [currentAmount / targetAmount] is at least [daysPassed / daysTotal],
    where [daysTotal] and [daysRemaining] are the
    times from creation and from now to the target date, each rounded up to
    whole days, and [daysPassed] is their difference; equality of the two
    fractions gives true. When both times are whole numbers of days the
    fraction of days is [(now - createdAt) / (targetDate - createdAt)]. *)
Theorem isOnTrack_compares_whole_days :
  forall (now : Z) (g : Goal.t),
    (0 < Goal.targetAmount g)%Q ->
    0 < daysBetween (Goal.createdAt g) (Goal.targetDate g) ->
    let daysTotal := daysBetween (Goal.createdAt g) (Goal.targetDate g) in
    let daysPassed := daysTotal - daysBetween now (Goal.targetDate g) in
    (GoalProgress.isOnTrack (goalProgress now g) = true
     <-> (inject_Z daysPassed / inject_Z daysTotal
          <= Goal.currentAmount g / Goal.targetAmount g)%Q)
    /\ ((Goal.currentAmount g / Goal.targetAmount g
         == inject_Z daysPassed / inject_Z daysTotal)%Q ->
        GoalProgress.isOnTrack (goalProgress now g) = true)
    /\ ((msPerDay | Goal.targetDate g - Goal.createdAt g) ->
        (msPerDay | Goal.targetDate g - now) ->
        (GoalProgress.isOnTrack (goalProgress now g) = true
         <-> spec_isOnTrack now g)).
Proof.
  intros now g Ht Hd daysTotal daysPassed.
  assert (Hiff : GoalProgress.isOnTrack (goalProgress now g) = true
     <-> (inject_Z daysPassed / inject_Z daysTotal
          <= Goal.currentAmount g / Goal.targetAmount g)%Q).
  { rewrite (isOnTrack_unfold now g Ht Hd), Qgeb_true.
    apply Qmult_le_r. reflexivity. }
  split; [exact Hiff|]. split.
  - intros E. apply Hiff. rewrite E. apply Qle_refl.
  - intros [k1 H1] [k2 H2]. rewrite Hiff. unfold spec_isOnTrack.
    assert (D1 : daysTotal = k1) by (apply daysBetween_exact; exact H1).
    assert (D2 : daysBetween now (Goal.targetDate g) = k2)
      by (apply daysBetween_exact; exact H2).
    unfold daysPassed. rewrite D2, D1.
    assert (Hk : 0 < k1) by (rewrite <- D1; exact Hd).
    replace (now - Goal.createdAt g) with ((k1 - k2) * msPerDay) by lia.
    rewrite H1.
    assert (E : (inject_Z ((k1 - k2) * msPerDay) / inject_Z (k1 * msPerDay)
                 == inject_Z (k1 - k2) / inject_Z k1)%Q).
    { rewrite !inject_Z_mult. field. split.
      - apply inject_Z_nonzero. lia.
      - exact inject_Z_msPerDay_nonzero. }
    rewrite E. reflexivity.
Qed.

Lemma isOnTrack_compares_whole_days_witness :
  (0 < Goal.targetAmount tenDays)%Q
  /\ 0 < daysBetween (Goal.createdAt tenDays) (Goal.targetDate tenDays)
  /\ (msPerDay | Goal.targetDate tenDays - Goal.createdAt tenDays)
  /\ (msPerDay | Goal.targetDate tenDays - 3 * msPerDay)
  /\ spec_isOnTrack (3 * msPerDay) tenDays
  /\ GoalProgress.isOnTrack (goalProgress (3 * msPerDay) tenDays) = true.
Proof.
  assert (Ht : (0 < Goal.targetAmount tenDays)%Q) by reflexivity.
  assert (Hd : 0 < daysBetween (Goal.createdAt tenDays) (Goal.targetDate tenDays))
    by reflexivity.
  assert (H1 : (msPerDay | Goal.targetDate tenDays - Goal.createdAt tenDays))
    by (exists 10; reflexivity).
  assert (H2 : (msPerDay | Goal.targetDate tenDays - 3 * msPerDay))
    by (exists 7; reflexivity).
  assert (Hs : spec_isOnTrack (3 * msPerDay) tenDays)
    by (vm_compute; discriminate).
  repeat (split; [assumption|]).
  apply (proj2 (proj2 (isOnTrack_compares_whole_days (3 * msPerDay) tenDays Ht Hd))
           H1 H2).
  exact Hs.
Defined.

(** C6, as the specification words it, fails: for the goal [nineteenth]
    after half a day the two fractions are equal, one nineteenth each, so
    the goal is on track in the specification's sense, yet the route counts
    one day passed out of ten and reports it behind. *)
Lemma isOnTrack_exact_fractions_counterexample :
  ~ (GoalProgress.isOnTrack (goalProgress halfDay nineteenth) = true
     <-> spec_isOnTrack halfDay nineteenth).
Proof.
  intros [_ H].
  assert (Hs : spec_isOnTrack halfDay nineteenth) by (vm_compute; discriminate).
  specialize (H Hs). vm_compute in H. discriminate.
Qed.

(** ** Category shares *)

(** The shares of a list of amounts add up to the share of their sum. *)
Lemma sum_of_shares {A} (f : A -> Q) (total : Q) (l : list A) :
  (0 < total)%Q ->
  (sumQ (map (fun x => share total (f x)) l)
   == fold_left (fun s y => s + f y) l 0 / total * 100)%Q.
Proof.
  intros Ht. rewrite sumQ_map. unfold share.
  apply Qgtb_true in Ht. rewrite Ht.
  induction l as [|x l IH].
  - simpl. unfold Qdiv. ring.
  - rewrite (sumBy_cons f), (sumBy_cons (fun y => f y / total * 100)%Q), IH.
    unfold Qdiv. ring.
Qed.

Lemma sum_of_shares_groups (total : Q) (l : list CategoryGroup.t) :
  (0 < total)%Q ->
  (sumQ (map (fun cat => share total (CategoryGroup.totalAmount cat)) l)
   == sumGroups l / total * 100)%Q.
Proof. apply (sum_of_shares CategoryGroup.totalAmount). Qed.

Lemma shares_zero {A} (f : A -> Q) (total : Q) (l : list A) :
  ~ (0 < total)%Q ->
  Forall (fun p => p = 0%Q) (map (fun x => share total (f x)) l).
Proof.
  intros Ht. apply List.Forall_forall. intros p Hp.
  apply in_map_iff in Hp as (x & <- & _). unfold share.
  destruct (Qgtb total 0) eqn:E; [|reflexivity].
  apply Qgtb_true in E. contradiction.
Qed.

Lemma sumGroups_cons (g : CategoryGroup.t) (l : list CategoryGroup.t) :
  (sumGroups (g :: l) == CategoryGroup.totalAmount g + sumGroups l)%Q.
Proof. apply (sumBy_cons CategoryGroup.totalAmount). Qed.

Lemma sumExpenses_cons (e : Expense.t) (l : list Expense.t) :
  (sumExpenses (e :: l) == Expense.amount e + sumExpenses l)%Q.
Proof. apply (sumBy_cons Expense.amount). Qed.

(** Grouping moves every amount into exactly one group. *)
Lemma sumGroups_addToGroups (e : Expense.t) (gs : list CategoryGroup.t) :
  (sumGroups (addToGroups e gs) == sumGroups gs + Expense.amount e)%Q.
Proof.
  induction gs as [|g gs IH]; simpl.
  - rewrite sumGroups_cons. simpl. ring.
  - destruct (String.eqb _ _).
    + rewrite !sumGroups_cons. simpl. ring.
    + rewrite !sumGroups_cons, IH. ring.
Qed.

Lemma sumGroups_fold (l : list Expense.t) (acc : list CategoryGroup.t) :
  (sumGroups (fold_left (fun gs e => addToGroups e gs) l acc)
   == sumGroups acc + sumExpenses l)%Q.
Proof.
  revert acc. induction l as [|e l IH]; intros acc.
  - simpl. unfold sumExpenses. simpl. ring.
  - simpl fold_left at 1. rewrite IH, sumGroups_addToGroups, sumExpenses_cons.
    ring.
Qed.

Lemma sumGroups_groupByCategory (l : list Expense.t) :
  (sumGroups (groupByCategory l) == sumExpenses l)%Q.
Proof.
  unfold groupByCategory. rewrite sumGroups_fold. unfold sumGroups. simpl. ring.
Qed.

Lemma sumGroups_sortBy before (l : list CategoryGroup.t) :
  (sumGroups (sortBy before l) == sumGroups l)%Q.
Proof.
  symmetry. apply (sumBy_Permutation CategoryGroup.totalAmount), sortBy_Permutation.
Qed.

Lemma categoryAnalysis_percentages u startDate endDate db :
  map AnalysedCategory.percentage
      (CategoryAnalysis.categories (categoryAnalysis u startDate endDate db))
  = map (fun cat => share (CategoryAnalysis.totalSpent
                             (categoryAnalysis u startDate endDate db))
                          (CategoryGroup.totalAmount cat))
        (sortBy largerGroup
           (groupByCategory (List.filter (inPeriod u startDate endDate) db))).
Proof. unfold categoryAnalysis. simpl. rewrite map_map. reflexivity. Qed.

Lemma overview_percentages u startDate endDate db :
  map OverviewCategory.percentage (overviewCategoryBreakdown u startDate endDate db)
  = map (fun cat => share (sumExpenses (List.filter (inPeriod u startDate endDate) db))
                          (CategoryGroup.totalAmount cat))
        (take 10 (sortBy largerGroup
           (groupByCategory (List.filter (inPeriod u startDate endDate) db)))).
Proof. unfold overviewCategoryBreakdown. rewrite map_map. reflexivity. Qed.

Lemma overview_groups u startDate endDate db :
  map OverviewCategory.group (overviewCategoryBreakdown u startDate endDate db)
  = take 10 (sortBy largerGroup
       (groupByCategory (List.filter (inPeriod u startDate endDate) db))).
Proof. unfold overviewCategoryBreakdown. rewrite map_map. apply map_id. Qed.

(** C7, as the code has it. For every user and period, with [total] the sum
    of the period's expenses:
    - the category analysis computes its [totalSpent] equal to [total]; its
      shares add up to 100 when [total > 0] and are all 0 otherwise;
    - the overview lists the ten largest categories only; when [total > 0]
      its shares add up to the listed categories' part of the total, in
      percent, which is 100 when the period has at most ten categories; its
      shares are all 0 when [total] is not positive. *)
Theorem category_shares_sum :
  forall (u : UserId) (startDate endDate : Z) (db : ExpenseDB),
    let period := List.filter (inPeriod u startDate endDate) db in
    let total := sumExpenses period in
    let analysis := categoryAnalysis u startDate endDate db in
    let overview := overviewCategoryBreakdown u startDate endDate db in
    (CategoryAnalysis.totalSpent analysis == total)%Q
    /\ ((0 < total)%Q ->
        (sumQ (map AnalysedCategory.percentage
                 (CategoryAnalysis.categories analysis)) == 100)%Q)
    /\ (~ (0 < total)%Q ->
        Forall (fun p => p = 0%Q)
          (map AnalysedCategory.percentage (CategoryAnalysis.categories analysis)))
    /\ ((0 < total)%Q ->
        (sumQ (map OverviewCategory.percentage overview)
         == sumGroups (map OverviewCategory.group overview) / total * 100)%Q)
    /\ ((0 < total)%Q ->
        (length (groupByCategory period) <= 10)%nat ->
        (sumQ (map OverviewCategory.percentage overview) == 100)%Q)
    /\ (~ (0 < total)%Q ->
        Forall (fun p => p = 0%Q) (map OverviewCategory.percentage overview)).
Proof.
  intros u startDate endDate db period total analysis overview.
  assert (Hspent : (CategoryAnalysis.totalSpent analysis == total)%Q).
  { unfold analysis, categoryAnalysis. simpl.
    rewrite sumGroups_sortBy. apply sumGroups_groupByCategory. }
  assert (Hnz : (0 < total)%Q -> ~ (total == 0)%Q).
  { intros H E. rewrite E in H. discriminate. }
  assert (Hall : (sumGroups (sortBy largerGroup (groupByCategory period))
                  == total)%Q).
  { rewrite sumGroups_sortBy. apply sumGroups_groupByCategory. }
  assert (Hpa := categoryAnalysis_percentages u startDate endDate db).
  assert (Hpo := overview_percentages u startDate endDate db).
  assert (Hgo := overview_groups u startDate endDate db).
  fold period in Hpa, Hpo, Hgo. fold analysis in Hpa.
  fold total in Hpo. fold overview in Hpo, Hgo.
  split; [exact Hspent|]. split; [|split; [|split; [|split]]].
  - intros Ht. rewrite Hpa.
    rewrite sum_of_shares_groups by (rewrite Hspent; exact Ht).
    rewrite Hall, Hspent. field. exact (Hnz Ht).
  - intros Ht. rewrite Hpa. apply shares_zero. rewrite Hspent. exact Ht.
  - intros Ht. rewrite Hpo, Hgo. apply sum_of_shares_groups. exact Ht.
  - intros Ht Hlen. rewrite Hpo.
    rewrite take_ge by (rewrite sortBy_length; exact Hlen).
    rewrite sum_of_shares_groups by exact Ht.
    rewrite Hall. field. exact (Hnz Ht).
  - intros Ht. rewrite Hpo. apply shares_zero. exact Ht.
Qed.

Lemma category_shares_sum_witness :
  (0 < sumExpenses (List.filter (inPeriod alice 0 1000) twoCategories))%Q
  /\ (length (groupByCategory (List.filter (inPeriod alice 0 1000) twoCategories))
      <= 10)%nat
  /\ (sumQ (map AnalysedCategory.percentage
              (CategoryAnalysis.categories
                 (categoryAnalysis alice 0 1000 twoCategories))) == 100)%Q
  /\ (sumQ (map OverviewCategory.percentage
              (overviewCategoryBreakdown alice 0 1000 twoCategories)) == 100)%Q.
Proof.
  assert (Ht : (0 < sumExpenses (List.filter (inPeriod alice 0 1000) twoCategories))%Q)
    by reflexivity.
  assert (Hl : (length (groupByCategory
                          (List.filter (inPeriod alice 0 1000) twoCategories))
                <= 10)%nat) by (vm_compute; lia).
  destruct (category_shares_sum alice 0 1000 twoCategories)
    as (_ & Ha & _ & _ & Ho & _).
  split; [exact Ht|]. split; [exact Hl|]. split; [exact (Ha Ht)|exact (Ho Ht Hl)].
Defined.

(** C7, as the specification words it, fails for the overview: in a month
    with one expense of 10 in each of eleven categories the total is 110 and
    the ten shares listed are 100/11 each, 1000/11 together, below 91. *)
Lemma overview_shares_counterexample :
  (0 < sumExpenses (List.filter (inPeriod alice 0 1000) elevenCategories))%Q
  /\ (sumQ (map OverviewCategory.percentage
              (overviewCategoryBreakdown alice 0 1000 elevenCategories))
      == 1000 # 11)%Q
  /\ (sumQ (map OverviewCategory.percentage
              (overviewCategoryBreakdown alice 0 1000 elevenCategories)) < 91)%Q.
Proof. repeat split; vm_compute; reflexivity. Qed.

(** ** Listing expenses *)

(** [Math.ceil(n / d)] for integers [n] and [d > 0] is the number of blocks
    of [d] needed to cover [n]. *)
Lemma Math_ceil_div_spec (n d : Z) :
  0 < d ->
  (Math_ceil (inject_Z n / inject_Z d) - 1) * d < n
  /\ n <= Math_ceil (inject_Z n / inject_Z d) * d.
Proof.
  intros Hd. unfold Math_ceil.
  set (x := (inject_Z n / inject_Z d)%Q).
  assert (Hq : (inject_Z 0 < inject_Z d)%Q) by (rewrite <- Zlt_Qlt; exact Hd).
  assert (E : (x * inject_Z d == inject_Z n)%Q).
  { unfold x. field. apply inject_Z_nonzero. lia. }
  split.
  - rewrite Zlt_Qlt, inject_Z_mult, <- E.
    apply Qmult_lt_r; [exact Hq|]. apply Qceiling_lt.
  - rewrite Zle_Qle, inject_Z_mult, <- E.
    apply Qmult_le_r; [exact Hq|]. apply Qle_ceiling.
Qed.

Lemma In_take {A} (n : nat) (l : list A) (x : A) : In x (take n l) -> In x l.
Proof.
  revert n. induction l as [|y l IH]; intros [|n]; simpl; try tauto.
  intros [H|H]; [auto|right; eapply IH; exact H].
Qed.

Lemma In_drop {A} (n : nat) (l : list A) (x : A) : In x (drop n l) -> In x l.
Proof.
  revert n. induction l as [|y l IH]; intros [|n]; simpl; try tauto.
  intros H. right. eapply IH. exact H.
Qed.

Lemma In_sortBy {A} (before : A -> A -> bool) (l : list A) (x : A) :
  In x (sortBy before l) -> In x l.
Proof.
  apply Permutation_in. symmetry. apply sortBy_Permutation.
Qed.

Lemma optCheck_nil {A} (o : option A) (p : A -> bool) (f m : string) :
  optCheck o p f m = [] -> forall a, o = Some a -> p a = true.
Proof.
  intros H a ->. unfold optCheck, check in H.
  destruct (p a); [reflexivity|discriminate].
Qed.

Lemma listQueryErrors_nil (q : ListQuery.t) :
  listQueryErrors q = [] ->
  1 <= orDefault 1 (ListQuery.page q)
  /\ 1 <= orDefault 10 (ListQuery.limit q) <= 100.
Proof.
  unfold listQueryErrors. intros H.
  apply app_eq_nil in H as [Hp H]. apply app_eq_nil in H as [Hl _].
  split.
  - destruct (ListQuery.page q) as [p|]; simpl; [|lia].
    pose proof (optCheck_nil _ _ _ _ Hp p eq_refl) as E. simpl in E. lia.
  - destruct (ListQuery.limit q) as [l|]; simpl; [|lia].
    pose proof (optCheck_nil _ _ _ _ Hl l eq_refl) as E. simpl in E. lia.
Qed.

Lemma truthy_Some (o : option string) (s : string) :
  o = Some s -> s <> ""%string -> truthy o = Some s.
Proof.
  intros -> Hs. unfold truthy.
  destruct (String.eqb s "") eqn:E; [|reflexivity].
  apply String.eqb_eq in E. contradiction.
Qed.

Section ExpenseListFacts.

Variable regexMatch : string -> string -> bool.

(** A document that matches the filter built from a query satisfies the
    query. *)
Lemma matchesFilter_satisfiesQuery (u : UserId) (q : ListQuery.t) (e : Expense.t) :
  matchesFilter regexMatch (buildFilter u q) e = true ->
  satisfiesQuery regexMatch u q e.
Proof.
  unfold matchesFilter, buildFilter, satisfiesQuery. simpl.
  rewrite !andb_true_iff.
  intros ((((((Hu & Hc) & Hs) & He) & Hmin) & Hmax) & Hr).
  apply bool_decide_eq_true in Hu.
  repeat split.
  - exact Hu.
  - intros c Hq Hne. rewrite (truthy_Some _ c Hq Hne) in Hc. simpl in Hc.
    apply String.eqb_eq. exact Hc.
  - intros d Hq. rewrite Hq in Hs. simpl in Hs. lia.
  - intros d Hq. rewrite Hq in He. simpl in He. lia.
  - intros a Hq. rewrite Hq in Hmin. simpl in Hmin.
    apply Qgeb_true. exact Hmin.
  - intros a Hq. rewrite Hq in Hmax. simpl in Hmax.
    apply Qle_bool_iff. exact Hmax.
  - intros s Hq Hne. rewrite (truthy_Some _ s Hq Hne) in Hr. simpl in Hr.
    apply orb_true_iff in Hr as [Hr|Hr]; [left; exact Hr|right].
    destruct (Expense.description e) as [d|]; [|discriminate].
    exists d. auto.
Qed.

(** C8. A list request that passes the route's validation (page at least
    1, limit from 1 to 100, defaults 1 and 10) is answered with a page and
    pagination data such that: [totalItems] is the number of the user's
    expenses satisfying the filter; [totalPages] is
    [ceil(totalItems / itemsPerPage)], the least number of pages that holds
    them; [hasNext] is true exactly when [currentPage < totalPages];
    [hasPrev] is true exactly when [currentPage > 1]; and every expense on
    the page is in the collection and satisfies the filter asked for, the
    page holding at most [itemsPerPage] of them. *)
Theorem listExpenses_pagination :
  forall (u : UserId) (q : ListQuery.t) (db : ExpenseDB),
    listQueryErrors q = [] ->
    exists r,
      listExpenses regexMatch u q db = Ok 200 r
      /\ let p := ExpenseList.pagination r in
         Pagination.currentPage p = orDefault 1 (ListQuery.page q)
         /\ Pagination.itemsPerPage p = orDefault 10 (ListQuery.limit q)
         /\ 1 <= Pagination.currentPage p
         /\ 1 <= Pagination.itemsPerPage p <= 100
         /\ Pagination.totalItems p
            = Z.of_nat (length (List.filter
                                  (matchesFilter regexMatch (buildFilter u q)) db))
         /\ Pagination.totalPages p
            = Math_ceil (inject_Z (Pagination.totalItems p)
                         / inject_Z (Pagination.itemsPerPage p))
         /\ (Pagination.totalPages p - 1) * Pagination.itemsPerPage p
            < Pagination.totalItems p
            <= Pagination.totalPages p * Pagination.itemsPerPage p
         /\ (Pagination.hasNext p = true
             <-> Pagination.currentPage p < Pagination.totalPages p)
         /\ (Pagination.hasPrev p = true <-> Pagination.currentPage p > 1)
         /\ Forall (fun e => In e db /\ satisfiesQuery regexMatch u q e)
              (ExpenseList.expenses r)
         /\ Z.of_nat (length (ExpenseList.expenses r))
            <= Pagination.itemsPerPage p.
Proof.
  intros u q db Hv.
  destruct (listQueryErrors_nil q Hv) as [Hp Hl].
  unfold listExpenses. rewrite Hv.
  eexists. split; [reflexivity|]. simpl.
  set (page := orDefault 1 (ListQuery.page q)) in *.
  set (limit := orDefault 10 (ListQuery.limit q)) in *.
  destruct (Math_ceil_div_spec (countDocuments regexMatch (buildFilter u q) db)
              limit) as [Hlo Hhi]; [lia|].
  split; [reflexivity|]. split; [reflexivity|].
  split; [exact Hp|]. split; [exact Hl|].
  split; [reflexivity|]. split; [reflexivity|].
  split; [split; [exact Hlo|exact Hhi]|].
  split; [apply Z.ltb_lt|].
  split; [rewrite Z.ltb_lt; lia|].
  split.
  - apply List.Forall_forall. intros e He.
    apply In_take, In_drop, In_sortBy in He.
    unfold find in He. apply filter_In in He as [Hin Hm].
    split; [exact Hin|]. apply matchesFilter_satisfiesQuery. exact Hm.
  - rewrite length_take. lia.
Qed.

End ExpenseListFacts.

Lemma listExpenses_pagination_witness :
  listQueryErrors secondPage = []
  /\ exists r,
       listExpenses contains alice secondPage elevenCategories = Ok 200 r
       /\ ExpenseList.pagination r = Pagination.mk 2 4 11 3 true true
       /\ map Expense.category (ExpenseList.expenses r)
          = ["Travel"; "Education"; "Healthcare"]%string.
Proof.
  assert (Hv : listQueryErrors secondPage = []) by reflexivity.
  split; [exact Hv|].
  destruct (listExpenses_pagination contains alice secondPage elevenCategories Hv)
    as (r & Hr & _).
  exists r. split; [exact Hr|].
  assert (E : Ok 200 r
              = listExpenses contains alice secondPage elevenCategories)
    by (symmetry; exact Hr).
  vm_compute in E. injection E as ->. split; reflexivity.
Defined.

(** * Properties of the other routes *)

(** ** Validation reports *)

Lemma check_nil (ok : bool) (f m : string) : check ok f m = [] <-> ok = true.
Proof. unfold check. destruct ok; split; intros H; try reflexivity; discriminate. Qed.

Lemma concat_nil {A} (ls : list (list A)) :
  concat ls = [] <-> Forall (fun l => l = []) ls.
Proof.
  induction ls as [|l ls IH]; simpl.
  - split; auto.
  - rewrite app_nil, IH. split.
    + intros [-> H]. constructor; auto.
    + intros H. inversion H. auto.
Qed.

Lemma contributionErrors_nil (c : Contribution.t) :
  contributionErrors c = []
  <-> (1 # 100 <= Contribution.amount c)%Q
      /\ (String.length (Contribution.note c) <= 200)%nat.
Proof.
  unfold contributionErrors.
  rewrite app_nil, !check_nil, Qgeb_true, Nat.leb_le. reflexivity.
Qed.

(** The schema accepts a goal exactly when the goal is well formed and its
    target date is in the future. *)
Lemma goalErrors_nil (now : Z) (g : Goal.t) :
  goalErrors now g = [] <-> wellFormedGoal g /\ now < Goal.targetDate g.
Proof.
  unfold goalErrors, wellFormedGoal.
  rewrite !app_nil, !check_nil, concat_nil, !Qgeb_true, Nat.leb_le, Z.ltb_lt,
    negb_true_iff, bool_decide_eq_true, String.eqb_neq, Forall_map,
    <- list_elem_of_In.
  assert (Hc : Forall (fun c => contributionErrors c = []) (Goal.contributions g)
               <-> Forall (fun c => (1 # 100 <= Contribution.amount c)%Q
                                    /\ (String.length (Contribution.note c) <= 200)%nat)
                     (Goal.contributions g)).
  { apply Forall_iff. intros c. apply contributionErrors_nil. }
  assert (Hd : match Goal.description g with
               | Some d => (String.length d <=? 500)%nat
               | None => true
               end = true
               <-> forall d, Goal.description g = Some d -> (String.length d <= 500)%nat).
  { destruct (Goal.description g) as [d|].
    - rewrite Nat.leb_le. split; [intros H d' [= <-]; exact H|auto].
    - split; [discriminate|reflexivity]. }
  rewrite Hc, Hd. tauto.
Qed.

(** ** Strings *)

Lemma length_dropBytes (n : nat) (s : string) :
  (String.length (dropBytes n s) <= String.length s)%nat.
Proof.
  revert s. induction n as [|n IH]; intros [|c s]; simpl; try lia.
  specialize (IH s). lia.
Qed.

Lemma length_dropOneOf (chars : list string) (s rest : string) :
  dropOneOf chars s = Some rest -> (String.length rest <= String.length s)%nat.
Proof.
  induction chars as [|c chars IH]; simpl; [discriminate|].
  destruct (startsWith c s); [|exact IH].
  intros [= <-]. apply length_dropBytes.
Qed.

Lemma length_dropLeading (chars : list string) (n : nat) (s : string) :
  (String.length (dropLeading chars n s) <= String.length s)%nat.
Proof.
  revert s. induction n as [|n IH]; intros s; simpl; [lia|].
  destruct (dropOneOf chars s) as [rest|] eqn:E; [|lia].
  apply length_dropOneOf in E. specialize (IH rest). lia.
Qed.

Lemma length_reverseOnto (s acc : string) :
  String.length (reverseOnto s acc) = (String.length s + String.length acc)%nat.
Proof.
  revert acc. induction s as [|c s IH]; intros acc; simpl; [reflexivity|].
  rewrite IH. simpl. lia.
Qed.

Lemma length_reverse (s : string) : String.length (reverse s) = String.length s.
Proof. unfold reverse. rewrite length_reverseOnto. simpl. lia. Qed.

(** Trimming never makes a string longer. *)
Lemma length_trim (s : string) : (String.length (trim s) <= String.length s)%nat.
Proof.
  unfold trim, trimEnd, trimStart. rewrite length_reverse.
  etransitivity; [apply length_dropLeading|]. rewrite length_reverse.
  apply length_dropLeading.
Qed.

(** ** The goal ledger: when a contribution is accepted *)

Lemma contributeBodyErrors_number (js : Platform) (b : ContributeBody.t) (a : Q) :
  ContributeBody.amount b = JNumber a ->
  contributeBodyErrors js b = []
  <-> (1 # 100 <= a)%Q
      /\ (String.length (noteOrEmpty (ContributeBody.note b)) <= 200)%nat.
Proof.
  intros Ha. unfold contributeBodyErrors. rewrite Ha, app_nil, !check_nil. simpl.
  rewrite Qgeb_true.
  destruct (ContributeBody.note b) as [n|]; simpl.
  - rewrite Nat.leb_le. reflexivity.
  - split; [intros [H _]; split; [exact H|lia]|intros [H _]; auto].
Qed.

(** X1. The owner's contribution to an Active goal, with the amount sent as
    a number, is accepted whenever the body is valid (amount at least 0.01,
    note of at most 200 bytes) and the stored goal passes its schema at that
    instant (in particular its target date is still ahead): the answer is
    200 with the goal after the contribution, which is what is stored and
    passes the schema again. That goal has the contribution appended with
    the note trimmed, the amount added to [currentAmount], and is Completed
    when the sum has reached the target. *)
Theorem contribute_accepted :
  forall (js : Platform) (now : Z) (u : UserId) (id : ObjectId)
         (b : ContributeBody.t) (db : GoalDB) (goal : Goal.t) (a : Q),
    findOne id u db = Some goal ->
    Goal.status goal = Active ->
    ContributeBody.amount b = JNumber a ->
    contributeBodyErrors js b = [] ->
    goalErrors now goal = [] ->
    exists goal',
      contribute js now u id b db = (Ok 200 goal', <[id := goal']> db)
      /\ goalErrors now goal' = []
      /\ Goal.contributions goal'
         = Goal.contributions goal
           ++ [Contribution.mk a now (trim (noteOrEmpty (ContributeBody.note b)))]
      /\ Goal.currentAmount goal' = (Goal.currentAmount goal + a)%Q
      /\ Goal.status goal'
         = (if Qgeb (Goal.currentAmount goal + a) (Goal.targetAmount goal)
            then Completed else Active).
Proof.
  intros js now u id b db goal a Hf Hs Hn Hb Hg.
  destruct (addContribution_mutate js now (JNumber a)
              (noteOrEmpty (ContributeBody.note b)) goal) as [goal'|] eqn:Hm;
    [|discriminate].
  pose proof Hm as Hm'.
  apply addContribution_mutate_Some in Hm' as (stored & total & [= <-] & [= <-] & E).
  assert (Hg' : goalErrors now goal' = []).
  { apply goalErrors_nil. apply goalErrors_nil in Hg as [Hw Hd].
    apply (contributeBodyErrors_number js b a Hn) in Hb as [Ha Hl].
    destruct Hw as (Ht & Hlt & Hde & Hta & Hc & Hcat & Hcs).
    subst goal'. split; [|exact Hd]. unfold wellFormedGoal. simpl.
    repeat split; auto.
    - apply (Qle_trans _ (0 + (1 # 100))); [discriminate|].
      apply Qplus_le_compat; assumption.
    - apply Forall_app. split; [exact Hcs|]. constructor; [|constructor].
      simpl. split; [exact Ha|].
      pose proof (length_trim (noteOrEmpty (ContributeBody.note b))). lia. }
  exists goal'. split.
  { unfold contribute. rewrite Hb, Hf, Hs. simpl.
    unfold addContribution, save. rewrite Hn, Hm, Hg'. reflexivity. }
  split; [exact Hg'|]. subst goal'. simpl. rewrite Hs. auto.
Qed.

Lemma contribute_accepted_witness :
  findOne tripId alice tripCreated = Some (newGoal 100 alice tripBody)
  /\ contributeBodyErrors decimal (ContributeBody.mk (JNumber 300) (Some " first ")) = []
  /\ goalErrors 200 (newGoal 100 alice tripBody) = []
  /\ contribute decimal 200 alice tripId
       (ContributeBody.mk (JNumber 300) (Some " first ")) tripCreated
     = (Ok 200 tripAfterFirst, {[ tripId := tripAfterFirst ]}).
Proof.
  assert (Hf : findOne tripId alice tripCreated = Some (newGoal 100 alice tripBody))
    by (vm_compute; reflexivity).
  assert (Hb : contributeBodyErrors decimal
                 (ContributeBody.mk (JNumber 300) (Some " first ")) = [])
    by reflexivity.
  assert (Hg : goalErrors 200 (newGoal 100 alice tripBody) = []) by reflexivity.
  split; [exact Hf|]. split; [exact Hb|]. split; [exact Hg|].
  destruct (contribute_accepted decimal 200 alice tripId
              (ContributeBody.mk (JNumber 300) (Some " first ")) tripCreated
              (newGoal 100 alice tripBody) 300 Hf eq_refl eq_refl Hb Hg)
    as (goal' & Hc & _).
  vm_compute. reflexivity.
Defined.

(** X2. Once a goal's target date has passed, no contribution to it is
    accepted: the save of the goal with the contribution is refused by the
    schema's date validator. The owner of an Active goal, sending a valid
    body, is answered 500 "Server error while adding contribution", and the
    collection is left as it was. *)
Theorem contribute_overdue_refused :
  forall (js : Platform) (now : Z) (u : UserId) (id : ObjectId)
         (b : ContributeBody.t) (db : GoalDB) (goal : Goal.t),
    db !! id = Some goal ->
    Goal.targetDate goal <= now ->
    isOk (fst (contribute js now u id b db)) = false
    /\ snd (contribute js now u id b db) = db
    /\ (Goal.user goal = u -> Goal.status goal = Active ->
        contributeBodyErrors js b = [] ->
        fst (contribute js now u id b db)
        = Fail 500 "Server error while adding contribution" []).
Proof.
  intros js now u id b db goal Hl Hd.
  assert (Hbad : forall amount note goal',
             addContribution_mutate js now amount note goal = Some goal' ->
             goalErrors now goal' <> []).
  { intros amount note goal' Hm E. apply goalErrors_nil in E as [_ E].
    apply addContribution_mutate_Some in Hm as (? & ? & _ & _ & ->).
    simpl in E. lia. }
  destruct (contribute_cases js now u id b db)
    as [(goal0 & goal' & Hf & _ & _ & Hm & Hg & _)|(c & m & e & Heq)].
  - apply findOne_Some in Hf as [Hl0 _]. rewrite Hl in Hl0.
    injection Hl0 as <-. exfalso. exact (Hbad _ _ _ Hm Hg).
  - rewrite Heq. simpl. split; [reflexivity|]. split; [reflexivity|].
    intros Hu Hs Hb. unfold contribute in *.
    assert (Hf : findOne id u db = Some goal) by (apply findOne_Some; auto).
    rewrite Hb, Hf, Hs in *. simpl in *.
    unfold addContribution, save in *.
    destruct (addContribution_mutate js now _ _ goal) as [goal'|] eqn:Hm.
    + destruct (goalErrors now goal') eqn:Hg; [exfalso; exact (Hbad _ _ _ Hm Hg)|].
      injection Heq as <- <- <-. reflexivity.
    + injection Heq as <- <- <-. reflexivity.
Qed.

Lemma contribute_overdue_refused_witness :
  tripCreated !! tripId = Some (newGoal 100 alice tripBody)
  /\ Goal.targetDate (newGoal 100 alice tripBody) <= 6000
  /\ contribute decimal 6000 alice tripId (ContributeBody.mk (JNumber 300) None)
       tripCreated
     = (Fail 500 "Server error while adding contribution" [], tripCreated).
Proof.
  assert (Hl : tripCreated !! tripId = Some (newGoal 100 alice tripBody))
    by (vm_compute; reflexivity).
  assert (Hd : Goal.targetDate (newGoal 100 alice tripBody) <= 6000)
    by (vm_compute; discriminate).
  destruct (contribute_overdue_refused decimal 6000 alice tripId
              (ContributeBody.mk (JNumber 300) None) tripCreated
              (newGoal 100 alice tripBody) Hl Hd) as (_ & Hdb & Hr).
  split; [exact Hl|]. split; [exact Hd|].
  rewrite (surjective_pairing (contribute _ _ _ _ _ _)).
  rewrite Hdb, (Hr eq_refl eq_refl eq_refl). reflexivity.
Defined.

(** ** The goal ledger: what contributions keep *)

Lemma sumAmounts_app (l l' : list Contribution.t) :
  (sumAmounts (l ++ l') == sumAmounts l + sumAmounts l')%Q.
Proof.
  unfold sumAmounts. rewrite fold_left_app.
  rewrite fold_left_Qplus_shift. reflexivity.
Qed.

Lemma sumAmounts_cons (c : Contribution.t) (l : list Contribution.t) :
  (sumAmounts (c :: l) == Contribution.amount c + sumAmounts l)%Q.
Proof. apply (sumBy_cons Contribution.amount). Qed.

(** What one served request does to the goal stored under an id: nothing,
    or the goal was Active and is replaced by the goal with the
    contribution, which passed the schema. *)
Lemma serve_goal (js : Platform) (id : ObjectId) (c : Call.t) (db : GoalDB)
    (g : Goal.t) :
  db !! id = Some g ->
  serve js db c !! id = Some g
  \/ (exists g',
        Goal.status g = Active
        /\ addContribution_mutate js (Call.time c)
             (ContributeBody.amount (Call.body c))
             (noteOrEmpty (ContributeBody.note (Call.body c))) g = Some g'
        /\ goalErrors (Call.time c) g' = []
        /\ serve js db c !! id = Some g').
Proof.
  intros Hl. unfold serve.
  destruct (contribute_cases js (Call.time c) (Call.caller c) (Call.goalId c)
              (Call.body c) db)
    as [(goal & goal' & Hf & Hs & _ & Hm & Hg & ->)|(code & msg & errs & ->)]; simpl.
  - apply findOne_Some in Hf as [Hl0 _].
    destruct (decide (Call.goalId c = id)) as [Heq|Hne].
    + subst id. rewrite Hl in Hl0. injection Hl0 as <-.
      right. exists goal'. rewrite lookup_insert_eq. auto.
    + left. rewrite lookup_insert_ne by assumption. exact Hl.
  - left. exact Hl.
Qed.

(** The contribution that a save accepted is of at least 0.01. *)
Lemma saved_contribution_amount (now : Z) (g : Goal.t) (l : list Contribution.t)
    (c : Contribution.t) :
  goalErrors now g = [] -> Goal.contributions g = l ++ [c] ->
  (1 # 100 <= Contribution.amount c)%Q.
Proof.
  intros Hg Hc. apply goalErrors_nil in Hg as [(_ & _ & _ & _ & _ & _ & Hcs) _].
  rewrite Hc in Hcs. apply Forall_app in Hcs as [_ Hcs].
  inversion Hcs as [|? ? [H _] _]. exact H.
Qed.

(** X3. Contribution requests only ever append to a goal's ledger: after any
    sequence of them the goal is still stored, its contributions are the
    old ones followed by the new ones, each of at least 0.01, and its target
    and owner are unchanged. When every amount is sent as a number, its
    [currentAmount] has grown by exactly the sum of the new contributions,
    so it has not decreased. *)
Theorem contributions_append_only :
  forall (js : Platform) (calls : list Call.t) (db : GoalDB) (id : ObjectId)
         (g : Goal.t),
    db !! id = Some g ->
    exists g' added,
      serveAll js calls db !! id = Some g'
      /\ Goal.contributions g' = Goal.contributions g ++ added
      /\ Forall (fun c => (1 # 100 <= Contribution.amount c)%Q) added
      /\ Goal.targetAmount g' = Goal.targetAmount g
      /\ Goal.user g' = Goal.user g
      /\ (Forall numeric calls ->
          (Goal.currentAmount g' == Goal.currentAmount g + sumAmounts added)%Q
          /\ (Goal.currentAmount g <= Goal.currentAmount g')%Q).
Proof.
  intros js. induction calls as [|c calls IH]; intros db id g Hl.
  - exists g, []. simpl. rewrite app_nil_r.
    repeat split; auto; try (unfold sumAmounts; simpl; ring).
    apply Qle_refl.
  - simpl. destruct (serve_goal js id c db g Hl) as [H|(g1 & _ & Hm & Hg & H)].
    + destruct (IH _ _ _ H) as (g' & added & Hg' & Hcs & Hall & Ht & Hu & Hnum).
      exists g', added. split; [exact Hg'|]. split; [exact Hcs|].
      split; [exact Hall|]. split; [exact Ht|]. split; [exact Hu|].
      intros Hn. inversion Hn; subst. apply Hnum. assumption.
    + destruct (IH _ _ _ H) as (g' & added & Hg' & Hcs & Hall & Ht & Hu & Hnum).
      pose proof Hm as Hm'.
      apply addContribution_mutate_Some in Hm' as (stored & total & Hst & Hto & E).
      assert (Hc1 : Goal.contributions g1
                    = Goal.contributions g
                      ++ [Contribution.mk stored (Call.time c)
                            (trim (noteOrEmpty (ContributeBody.note (Call.body c))))])
        by (rewrite E; reflexivity).
      pose proof (saved_contribution_amount _ _ _ _ Hg Hc1) as Ha. simpl in Ha.
      eexists g', (_ :: added). split; [exact Hg'|].
      split; [rewrite Hcs, Hc1, <- app_assoc; reflexivity|].
      split; [constructor; [exact Ha|exact Hall]|].
      split; [rewrite Ht, E; reflexivity|].
      split; [rewrite Hu, E; reflexivity|].
      intros Hn. inversion Hn as [|? ? [a Hna] Hrest]; subst.
      destruct (Hnum Hrest) as [Hcur Hle].
      rewrite Hna in Hst, Hto. injection Hst as <-. injection Hto as <-.
      simpl in Hcur, Hle.
      split; [rewrite Hcur, sumAmounts_cons; simpl; ring|].
      eapply Qle_trans; [|exact Hle].
      rewrite <- (Qplus_0_r (Goal.currentAmount g)) at 1.
      apply Qplus_le_compat; [apply Qle_refl|].
      eapply Qle_trans; [|exact Ha]. discriminate.
Qed.

Lemma contributions_append_only_witness :
  tripCreated !! tripId = Some (newGoal 100 alice tripBody)
  /\ Forall numeric tripCalls
  /\ exists g' added,
       serveAll decimal tripCalls tripCreated !! tripId = Some g'
       /\ Goal.contributions g'
          = Goal.contributions (newGoal 100 alice tripBody) ++ added
       /\ (Goal.currentAmount g'
           == Goal.currentAmount (newGoal 100 alice tripBody) + sumAmounts added)%Q.
Proof.
  assert (Hl : tripCreated !! tripId = Some (newGoal 100 alice tripBody))
    by (vm_compute; reflexivity).
  assert (Hn : Forall numeric tripCalls)
    by (repeat constructor; eexists; reflexivity).
  split; [exact Hl|]. split; [exact Hn|].
  destruct (contributions_append_only decimal tripCalls tripCreated tripId
              (newGoal 100 alice tripBody) Hl)
    as (g' & added & H1 & H2 & _ & _ & _ & H3).
  exists g', added. split; [exact H1|]. split; [exact H2|]. exact (proj1 (H3 Hn)).
Defined.

(** A property of the stored goal that every accepted contribution to an
    Active goal keeps is kept by any sequence of requests. *)
Lemma serveAll_keeps (js : Platform) (P : Goal.t -> Prop) :
  (forall now amount note g g',
      P g -> Goal.status g = Active ->
      addContribution_mutate js now amount note g = Some g' ->
      P g') ->
  forall (calls : list Call.t) (db : GoalDB) (id : ObjectId) (g : Goal.t),
    db !! id = Some g -> P g ->
    exists g', serveAll js calls db !! id = Some g' /\ P g'.
Proof.
  intros Hstep. induction calls as [|c calls IH]; intros db id g Hl HP.
  - exists g. auto.
  - simpl. destruct (serve_goal js id c db g Hl) as [H|(g1 & Hs & Hm & _ & H)].
    + exact (IH _ _ _ H HP).
    + apply (IH _ _ _ H). exact (Hstep _ _ _ _ _ HP Hs Hm).
Qed.

(** X4. A goal created Active and below its target (with nothing saved, or
    seeded with less than the target), as a body of the fields the create
    route validates makes it, and then only contributed to, is at every
    moment either Active with [currentAmount < targetAmount] or Completed
    with [currentAmount >= targetAmount]: it is never Paused or Cancelled,
    never Active at or above the target, never Completed below it. *)
Theorem status_follows_threshold :
  forall (js : Platform) (now : Z) (u : UserId) (id : ObjectId)
         (b : CreateBody.t) (db db0 : GoalDB) (goal : Goal.t)
         (calls : list Call.t),
    createGoal now u id b db = (Ok 201 goal, db0) ->
    Goal.status goal = Active ->
    (orDefault 0 (CreateBody.currentAmount b) < CreateBody.targetAmount b)%Q ->
    exists g,
      serveAll js calls db0 !! id = Some g
      /\ ((Goal.status g = Active
           /\ (Goal.currentAmount g < Goal.targetAmount g)%Q)
          \/ (Goal.status g = Completed
              /\ (Goal.targetAmount g <= Goal.currentAmount g)%Q)).
Proof.
  intros js now u id b db db0 goal calls Hc Hact Hlt.
  apply createGoal_Ok in Hc as (-> & -> & _ & _).
  apply (serveAll_keeps js
           (fun g => (Goal.status g = Active
                      /\ (Goal.currentAmount g < Goal.targetAmount g)%Q)
                     \/ (Goal.status g = Completed
                         /\ (Goal.targetAmount g <= Goal.currentAmount g)%Q)))
    with (g := newGoal now u b).
  - intros t amount note g g' _ Hs Hm.
    apply addContribution_mutate_Some in Hm as (stored & total & _ & _ & ->).
    simpl. destruct (Qgeb _ _) eqn:E.
    + right. apply Qgeb_true in E. auto.
    + left. split; [exact Hs|]. apply Qnot_le_lt. intros H.
      apply Qgeb_true in H. congruence.
  - apply lookup_insert_eq.
  - left. split; [exact Hact|exact Hlt].
Qed.

Lemma status_follows_threshold_witness :
  createGoal 100 alice tripId tripBody ∅
    = (Ok 201 (newGoal 100 alice tripBody), tripCreated)
  /\ Goal.status (newGoal 100 alice tripBody) = Active
  /\ (orDefault 0 (CreateBody.currentAmount tripBody)
      < CreateBody.targetAmount tripBody)%Q
  /\ serveAll decimal tripCalls tripCreated !! tripId = Some tripFunded
  /\ Goal.status tripFunded = Completed.
Proof.
  assert (Hc : createGoal 100 alice tripId tripBody ∅
               = (Ok 201 (newGoal 100 alice tripBody), tripCreated))
    by (vm_compute; reflexivity).
  assert (Ha : Goal.status (newGoal 100 alice tripBody) = Active) by reflexivity.
  assert (Hlt : (orDefault 0 (CreateBody.currentAmount tripBody)
                 < CreateBody.targetAmount tripBody)%Q) by reflexivity.
  destruct (status_follows_threshold decimal 100 alice tripId tripBody ∅ tripCreated
              (newGoal 100 alice tripBody) tripCalls Hc Ha Hlt) as (g & Hg & _).
  split; [exact Hc|]. split; [exact Ha|]. split; [exact Hlt|].
  assert (E : serveAll decimal tripCalls tripCreated !! tripId = Some tripFunded)
    by (vm_compute; reflexivity).
  split; [exact E|reflexivity].
Defined.

(** ** The other goal routes *)

Lemma goalErrors_set_status (now : Z) (st : Status) (g : Goal.t) :
  goalErrors now (Goal.set_status st g) = goalErrors now g.
Proof. reflexivity. Qed.

(** X5. The status route has no transition table and no auto-completion:
    for a goal that passes its schema, the owner's request stores exactly
    the status asked for, whatever the status and the amounts were, and
    changes nothing else. So a goal at or above its target can be reopened
    as Active through this route, whereas the generic update asked for the
    same status stores Completed. *)
Theorem setStatus_overwrites :
  forall (now : Z) (u : UserId) (id : ObjectId) (db : GoalDB) (goal : Goal.t),
    findOne id u db = Some goal ->
    goalErrors now goal = [] ->
    (forall st,
        setStatus now u id st db
        = (Ok 200 (Goal.set_status st goal), <[id := Goal.set_status st goal]> db))
    /\ ((Goal.targetAmount goal <= Goal.currentAmount goal)%Q ->
        updateGoal now u id
          (UpdateBody.mk None None None None None None (Some Active) None None None)
          db
        = (Ok 200 (Goal.set_status Completed goal),
           <[id := Goal.set_status Completed goal]> db)).
Proof.
  intros now u id db goal Hf Hg. split.
  - intros st. unfold setStatus, save.
    rewrite Hf, goalErrors_set_status, Hg. reflexivity.
  - intros Hle. unfold updateGoal. simpl. rewrite Hf.
    unfold merge, autoComplete, save. simpl.
    apply Qgeb_true in Hle. rewrite Hle. simpl.
    change (goalErrors now (Goal.set_status Completed (Goal.set_status Active goal)))
      with (goalErrors now goal).
    rewrite Hg. reflexivity.
Qed.

Lemma setStatus_overwrites_witness :
  findOne tripId alice {[ tripId := tripFunded ]} = Some tripFunded
  /\ goalErrors 400 tripFunded = []
  /\ setStatus 400 alice tripId Active {[ tripId := tripFunded ]}
     = (Ok 200 (Goal.set_status Active tripFunded),
        {[ tripId := Goal.set_status Active tripFunded ]}).
Proof.
  assert (Hf : findOne tripId alice {[ tripId := tripFunded ]} = Some tripFunded)
    by (vm_compute; reflexivity).
  assert (Hg : goalErrors 400 tripFunded = []) by reflexivity.
  split; [exact Hf|]. split; [exact Hg|].
  rewrite (proj1 (setStatus_overwrites 400 alice tripId {[ tripId := tripFunded ]}
                    tripFunded Hf Hg) Active).
  vm_compute. reflexivity.
Defined.

(** X6. Deleting a goal needs only that the caller owns it: no schema check
    is made, so an overdue goal can be deleted. The goal is then gone, every
    other goal is as before, and reading or deleting it again is answered
    404 without touching the collection. A caller who does not own a goal
    under the id is answered 404 and nothing is removed. *)
Theorem deleteGoal_removes :
  forall (u : UserId) (id : ObjectId) (db : GoalDB),
    (forall goal,
        findOne id u db = Some goal ->
        deleteGoal u id db = (Ok 200 tt, delete id db)
        /\ delete id db !! id = None
        /\ (forall id', id' <> id -> delete id db !! id' = db !! id')
        /\ getGoal u id (delete id db) = Fail 404 "Goal not found" []
        /\ deleteGoal u id (delete id db)
           = (Fail 404 "Goal not found" [], delete id db))
    /\ (findOne id u db = None ->
        deleteGoal u id db = (Fail 404 "Goal not found" [], db)).
Proof.
  intros u id db. split.
  - intros goal Hf.
    assert (Hn : findOne id u (delete id db) = None).
    { unfold findOne. rewrite lookup_delete_eq. reflexivity. }
    split; [unfold deleteGoal; rewrite Hf; reflexivity|].
    split; [apply lookup_delete_eq|].
    split; [intros id' Hne; apply lookup_delete_ne; auto|].
    split; [unfold getGoal; rewrite Hn; reflexivity|].
    unfold deleteGoal. rewrite Hn. reflexivity.
  - intros Hf. unfold deleteGoal. rewrite Hf. reflexivity.
Qed.

Lemma deleteGoal_removes_witness :
  findOne tripId alice {[ tripId := tripFunded ]} = Some tripFunded
  /\ deleteGoal alice tripId {[ tripId := tripFunded ]} = (Ok 200 tt, ∅).
Proof.
  assert (Hf : findOne tripId alice {[ tripId := tripFunded ]} = Some tripFunded)
    by (vm_compute; reflexivity).
  split; [exact Hf|].
  rewrite (proj1 (proj1 (deleteGoal_removes alice tripId {[ tripId := tripFunded ]})
                    tripFunded Hf)).
  vm_compute. reflexivity.
Defined.

(** What a write request does to the collection: nothing; or it stores,
    under an id that is free or holds a goal of the caller, a goal that
    passes the schema at that instant; or it deletes a goal of the caller. *)
Lemma write_cases (js : Platform) (now : Z) (u : UserId) (r : GoalWrite)
    (db : GoalDB) :
  write js now u r db = db
  \/ (exists id g,
         write js now u r db = <[id := g]> db
         /\ goalErrors now g = []
         /\ forall g0, db !! id = Some g0 -> Goal.user g0 = u)
  \/ (exists id g0,
         write js now u r db = delete id db
         /\ db !! id = Some g0 /\ Goal.user g0 = u).
Proof.
  destruct r as [id b|id b|id b|id st|id]; simpl.
  - destruct (createGoal now u id b db) as [[code goal|code msg errs] db'] eqn:Hc.
    + apply createGoal_Ok in Hc as (-> & -> & Hl & _ & Hg & _).
      right; left. exists id, (newGoal now u b). simpl.
      repeat split; auto. intros g0 E. rewrite Hl in E. discriminate.
    + left. unfold createGoal in Hc.
      destruct (createBodyErrors b); [|injection Hc as _ _ _ <-; reflexivity].
      destruct (CreateBody.targetDate b <=? now);
        [injection Hc as _ _ _ <-; reflexivity|].
      destruct (goalErrors now _ ++ statusErrors _);
        [|injection Hc as _ _ _ <-; reflexivity].
      destruct (db !! id); [injection Hc as _ _ _ <-; reflexivity|discriminate].
  - destruct (updateGoal now u id b db) as [[code goal'|code msg errs] db'] eqn:Hu.
    + apply updateGoal_Ok in Hu as (goal & Hf & -> & Hg & ->).
      apply findOne_Some in Hf as [Hl Hu0].
      right; left. eexists id, _. simpl. split; [reflexivity|].
      split; [exact Hg|].
      intros g0 E. rewrite Hl in E. injection E as <-. exact Hu0.
    + left. unfold updateGoal in Hu.
      destruct (updateBodyErrors b); [|injection Hu as _ _ _ <-; reflexivity].
      destruct (findOne id u db); [|injection Hu as _ _ _ <-; reflexivity].
      destruct (match UpdateBody.targetDate b with
                | Some d => d <=? now | None => false end);
        [injection Hu as _ _ _ <-; reflexivity|].
      unfold save in Hu. destruct (goalErrors now _); [discriminate|].
      injection Hu as _ _ _ <-. reflexivity.
  - destruct (contribute_cases js now u id b db)
      as [(goal & goal' & Hf & _ & _ & _ & Hg & ->)|(c & m & e & ->)]; simpl; [|auto].
    apply findOne_Some in Hf as [Hl Hu0].
    right; left. eexists id, _. split; [reflexivity|].
    split; [exact Hg|].
    intros g0 E. rewrite Hl in E. injection E as <-. exact Hu0.
  - unfold setStatus.
    destruct (findOne id u db) as [goal|] eqn:Hf; [|auto].
    apply findOne_Some in Hf as [Hl Hu0].
    unfold save. destruct (goalErrors now _) eqn:Hg; simpl; [|auto].
    right; left. eexists id, _. split; [reflexivity|].
    split; [exact Hg|].
    intros g0 E. rewrite Hl in E. injection E as <-. exact Hu0.
  - unfold deleteGoal.
    destruct (findOne id u db) as [goal|] eqn:Hf; simpl; [|auto].
    apply findOne_Some in Hf as [Hl Hu0].
    right; right. exists id, goal. auto.
Qed.

(** Over the bodies of the embedding, which may name another [user] for
    the caller's goal but carry no [_id], whatever is created, updated,
    contributed to, given a status or deleted by users other than a goal's
    owner leaves the goal stored as it was. *)
Lemma writeAll_isolated :
  forall (js : Platform) (rs : list (Z * UserId * GoalWrite)) (db : GoalDB)
         (id : ObjectId) (g : Goal.t),
    db !! id = Some g ->
    Forall (fun r => caller r <> Goal.user g) rs ->
    writeAll js rs db !! id = Some g.
Proof.
  intros js. induction rs as [|[[now u] r] rs IH]; intros db id g Hl Hall; simpl.
  - exact Hl.
  - inversion Hall as [|? ? Hu Hrest]; subst. unfold caller in Hu. simpl in Hu.
    apply IH; [|exact Hrest].
    destruct (write_cases js now u r db)
      as [->|[(id' & g' & -> & _ & Hown)|(id' & g0 & -> & Hl0 & Hu0)]].
    + exact Hl.
    + destruct (decide (id' = id)) as [->|Hne].
      * exfalso. apply Hu. symmetry. apply Hown. exact Hl.
      * rewrite lookup_insert_ne by assumption. exact Hl.
    + destruct (decide (id' = id)) as [->|Hne].
      * exfalso. rewrite Hl in Hl0. injection Hl0 as <-. auto.
      * rewrite lookup_delete_ne by assumption. exact Hl.
Qed.

(** X7. A goal is closed to everyone but its owner. Every route that names
    a goal by its id looks it up under the caller before it does anything
    with the body: for a caller who is not the owner, reading the goal or
    its contributions, deleting it and setting its status are answered 404
    "Goal not found"; updating it and contributing to it are refused, with
    404 when the body passes the route's validators; creating a goal under
    its id fails. None of these requests changes the collection. *)
Theorem goals_isolated :
  forall (js : Platform) (now : Z) (u : UserId) (id : ObjectId) (db : GoalDB)
         (g : Goal.t),
    db !! id = Some g ->
    u <> Goal.user g ->
    getGoal u id db = Fail 404 "Goal not found" []
    /\ listContributions u id db = Fail 404 "Goal not found" []
    /\ deleteGoal u id db = (Fail 404 "Goal not found" [], db)
    /\ (forall st,
           setStatus now u id st db = (Fail 404 "Goal not found" [], db))
    /\ (forall b,
           snd (updateGoal now u id b db) = db
           /\ isOk (fst (updateGoal now u id b db)) = false
           /\ (updateBodyErrors b = [] ->
               fst (updateGoal now u id b db) = Fail 404 "Goal not found" []))
    /\ (forall b,
           snd (contribute js now u id b db) = db
           /\ isOk (fst (contribute js now u id b db)) = false
           /\ (contributeBodyErrors js b = [] ->
               fst (contribute js now u id b db) = Fail 404 "Goal not found" []))
    /\ (forall b,
           snd (createGoal now u id b db) = db
           /\ isOk (fst (createGoal now u id b db)) = false).
Proof.
  intros js now u id db g Hl Hu.
  assert (Hf : findOne id u db = None).
  { unfold findOne. rewrite Hl. rewrite decide_False by auto. reflexivity. }
  split; [unfold getGoal; rewrite Hf; reflexivity|].
  split; [unfold listContributions; rewrite Hf; reflexivity|].
  split; [unfold deleteGoal; rewrite Hf; reflexivity|].
  split; [intros st; unfold setStatus; rewrite Hf; reflexivity|].
  split; [|split].
  - intros b. unfold updateGoal. rewrite Hf.
    destruct (updateBodyErrors b); simpl; auto.
    repeat split. discriminate.
  - intros b. unfold contribute. rewrite Hf.
    destruct (contributeBodyErrors js b); simpl; auto.
    repeat split. discriminate.
  - intros b. unfold createGoal. rewrite Hl.
    destruct (createBodyErrors b); [|auto].
    destruct (CreateBody.targetDate b <=? now); [auto|].
    destruct (goalErrors now _ ++ statusErrors _); auto.
Qed.

Lemma goals_isolated_witness :
  tripCreated !! tripId = Some (newGoal 100 alice tripBody)
  /\ bob <> Goal.user (newGoal 100 alice tripBody)
  /\ updateGoal 200 bob tripId raiseCurrent tripCreated
     = (Fail 404 "Goal not found" [], tripCreated)
  /\ contribute decimal 200 bob tripId (ContributeBody.mk (JNumber 50) None)
       tripCreated
     = (Fail 404 "Goal not found" [], tripCreated).
Proof.
  assert (Hl : tripCreated !! tripId = Some (newGoal 100 alice tripBody))
    by (vm_compute; reflexivity).
  assert (Hb : bob <> Goal.user (newGoal 100 alice tripBody)) by discriminate.
  destruct (goals_isolated decimal 200 bob tripId tripCreated
              (newGoal 100 alice tripBody) Hl Hb)
    as (_ & _ & _ & _ & Hu & Hc & _).
  split; [exact Hl|]. split; [exact Hb|]. split.
  - destruct (Hu raiseCurrent) as (Hdb & _ & Hr).
    rewrite (surjective_pairing (updateGoal _ _ _ _ _)), Hdb, (Hr eq_refl).
    reflexivity.
  - destruct (Hc (ContributeBody.mk (JNumber 50) None)) as (Hdb & _ & Hr).
    rewrite (surjective_pairing (contribute _ _ _ _ _ _)), Hdb, (Hr eq_refl).
    reflexivity.
Defined.

(** X8. The collection only ever holds well-formed goals: if every stored
    goal has a non-empty title of at most 100 characters, a description of
    at most 500, [targetAmount >= 0.01], [currentAmount >= 0], a category of
    the schema's list and contributions of at least 0.01 each with notes of
    at most 200 characters, then the same holds after any sequence of create,
    update, contribute, status and delete requests. *)
Theorem goals_stay_wellFormed :
  forall (js : Platform) (rs : list (Z * UserId * GoalWrite)) (db : GoalDB),
    (forall id g, db !! id = Some g -> wellFormedGoal g) ->
    forall id g, writeAll js rs db !! id = Some g -> wellFormedGoal g.
Proof.
  intros js. induction rs as [|[[now u] r] rs IH]; intros db Hdb; simpl.
  - exact Hdb.
  - apply IH. intros id g.
    destruct (write_cases js now u r db)
      as [->|[(id' & g' & -> & Hg & _)|(id' & g0 & -> & _)]].
    + apply Hdb.
    + destruct (decide (id' = id)) as [->|Hne].
      * rewrite lookup_insert_eq. intros [= <-].
        apply goalErrors_nil in Hg as [Hw _]. exact Hw.
      * rewrite lookup_insert_ne by assumption. apply Hdb.
    + destruct (decide (id' = id)) as [->|Hne].
      * rewrite lookup_delete_eq. discriminate.
      * rewrite lookup_delete_ne by assumption. apply Hdb.
Qed.

(** ** Sorted output *)

(** [sortBy] sorts: when [before] decides an order [R] that is transitive
    (an element placed before another is related to it, and an element not
    placed before another is related from it), the result is ordered by [R]
    throughout. *)
Lemma insertSorted_StronglySorted {A} (before : A -> A -> bool) (R : A -> A -> Prop) :
  (forall x y z, R x y -> R y z -> R x z) ->
  (forall x y, before y x = true -> R y x) ->
  (forall x y, before y x = false -> R x y) ->
  forall x l, StronglySorted R l -> StronglySorted R (insertSorted before x l).
Proof.
  intros Htrans Hyes Hno x l. induction l as [|y l IH]; intros Hs; simpl.
  - constructor; [constructor|constructor].
  - apply StronglySorted_inv in Hs as [Hs Hy].
    destruct (before y x) eqn:E.
    + constructor; [apply IH; exact Hs|].
      apply List.Forall_forall. intros z Hz.
      apply (Permutation_in _ (Permutation_sym (insertSorted_Permutation before x l))) in Hz.
      destruct Hz as [<-|Hz]; [apply Hyes; exact E|].
      rewrite List.Forall_forall in Hy. apply Hy. exact Hz.
    + constructor; [constructor; assumption|].
      constructor; [apply Hno; exact E|].
      apply List.Forall_forall. intros z Hz.
      rewrite List.Forall_forall in Hy.
      apply (Htrans x y z); [apply Hno; exact E|apply Hy; exact Hz].
Qed.

Lemma sortBy_StronglySorted {A} (before : A -> A -> bool) (R : A -> A -> Prop) :
  (forall x y z, R x y -> R y z -> R x z) ->
  (forall x y, before y x = true -> R y x) ->
  (forall x y, before y x = false -> R x y) ->
  forall l, StronglySorted R (sortBy before l).
Proof.
  intros Htrans Hyes Hno l. induction l as [|x l IH]; simpl.
  - constructor.
  - apply insertSorted_StronglySorted; assumption.
Qed.

(** X9. ListContributions returns the goal's contributions, all of them and
    nothing else, ordered from the most recent to the oldest, with their
    number as [totalContributions]. *)
Theorem listContributions_newest_first :
  forall (u : UserId) (id : ObjectId) (db : GoalDB) (goal : Goal.t),
    findOne id u db = Some goal ->
    exists r,
      listContributions u id db = Ok 200 r
      /\ Permutation (Goal.contributions goal) (ContributionsReport.contributions r)
      /\ StronglySorted (fun a b => Contribution.date b <= Contribution.date a)
           (ContributionsReport.contributions r)
      /\ ContributionsReport.totalContributions r
         = Z.of_nat (length (Goal.contributions goal)).
Proof.
  intros u id db goal Hf.
  eexists. split; [apply listContributions_found; exact Hf|]. simpl.
  split; [apply sortBy_Permutation|].
  split; [|rewrite sortBy_length; reflexivity].
  apply sortBy_StronglySorted; unfold newerContribution.
  - intros x y z. lia.
  - intros x y H. apply Z.ltb_lt in H. lia.
  - intros x y H. apply Z.ltb_ge in H. lia.
Qed.

Lemma listContributions_newest_first_witness :
  findOne tripId alice {[ tripId := tripFunded ]} = Some tripFunded
  /\ exists r,
       listContributions alice tripId {[ tripId := tripFunded ]} = Ok 200 r
       /\ map Contribution.amount (ContributionsReport.contributions r)
          = [700%Q; 300%Q].
Proof.
  assert (Hf : findOne tripId alice {[ tripId := tripFunded ]} = Some tripFunded)
    by (vm_compute; reflexivity).
  split; [exact Hf|].
  destruct (listContributions_newest_first alice tripId {[ tripId := tripFunded ]}
              tripFunded Hf) as (r & Hr & _).
  exists r. split; [exact Hr|].
  assert (E : Ok 200 r = listContributions alice tripId {[ tripId := tripFunded ]})
    by (symmetry; exact Hr).
  vm_compute in E. injection E as ->. reflexivity.
Defined.

(** ** The model's virtuals *)

Lemma Qmax_0_r_nonneg (a : Q) : (0 <= Qmax a 0)%Q.
Proof.
  unfold Qmax. destruct (Qle_bool a 0) eqn:E; [apply Qle_refl|].
  apply Qlt_le_weak, Qnot_le_lt. intros H. apply Qle_bool_iff in H. congruence.
Qed.

Lemma Qmax_0_r_zero (a : Q) : (Qmax a 0 == 0)%Q <-> (a <= 0)%Q.
Proof.
  unfold Qmax. destruct (Qle_bool a 0) eqn:E.
  - apply Qle_bool_iff in E. split; [auto|reflexivity].
  - split.
    + intros H. rewrite H. apply Qle_refl.
    + intros H. apply Qle_bool_iff in H. congruence.
Qed.

Lemma ratio_ge_100 (a b : Q) :
  (0 < b)%Q -> (100 <= a / b * 100)%Q <-> (b <= a)%Q.
Proof.
  intros Hb.
  assert (Hnz : ~ (b == 0)%Q) by (intros E; rewrite E in Hb; discriminate).
  assert (Hpos : (0 < 100 / b)%Q).
  { apply Qlt_shift_div_l; [exact Hb|]. rewrite Qmult_0_l. reflexivity. }
  assert (E1 : (b * (100 / b) == 100)%Q) by (field; exact Hnz).
  assert (E2 : (a * (100 / b) == a / b * 100)%Q) by (field; exact Hnz).
  rewrite <- E1 at 1. rewrite <- E2. apply Qmult_le_r. exact Hpos.
Qed.

(** X10. For a goal with a positive target, the virtuals agree on when the
    goal is reached: [remainingAmount] is never negative and is 0 exactly
    when [currentAmount >= targetAmount], which is exactly when
    [progressPercentage] is 100; below the target, [remainingAmount] is what
    is missing and [progressPercentage] is under 100. *)
Theorem virtuals_agree_on_completion :
  forall g : Goal.t,
    (0 < Goal.targetAmount g)%Q ->
    (0 <= remainingAmount g)%Q
    /\ ((remainingAmount g == 0)%Q
        <-> (Goal.targetAmount g <= Goal.currentAmount g)%Q)
    /\ ((progressPercentage g == 100)%Q
        <-> (Goal.targetAmount g <= Goal.currentAmount g)%Q)
    /\ ((Goal.currentAmount g < Goal.targetAmount g)%Q ->
        (remainingAmount g == Goal.targetAmount g - Goal.currentAmount g)%Q
        /\ (progressPercentage g < 100)%Q).
Proof.
  intros g Ht. unfold remainingAmount.
  assert (Hz : (Qmax (Goal.targetAmount g - Goal.currentAmount g) 0 == 0)%Q
               <-> (Goal.targetAmount g <= Goal.currentAmount g)%Q).
  { rewrite Qmax_0_r_zero.
    rewrite <- (Qplus_le_l _ _ (Goal.currentAmount g)).
    assert (E : (Goal.targetAmount g - Goal.currentAmount g + Goal.currentAmount g
                 == Goal.targetAmount g)%Q) by ring.
    rewrite E, Qplus_0_l. reflexivity. }
  assert (Hp : (progressPercentage g == 100)%Q
               <-> (Goal.targetAmount g <= Goal.currentAmount g)%Q).
  { destruct (progressPercentage_capped g Ht) as [E _]. rewrite E.
    rewrite <- (ratio_ge_100 _ _ Ht). unfold Qmin.
    destruct (Qle_bool _ 100) eqn:L.
    - apply Qle_bool_iff in L. split.
      + intros H. rewrite H. apply Qle_refl.
      + intros H. apply Qle_antisym; assumption.
    - split; [intros _|reflexivity].
      apply Qlt_le_weak, Qnot_le_lt. intros H.
      apply Qle_bool_iff in H. congruence. }
  split; [apply Qmax_0_r_nonneg|]. split; [exact Hz|]. split; [exact Hp|].
  intros Hlt. split.
  - unfold Qmax. destruct (Qle_bool _ 0) eqn:E; [|reflexivity].
    exfalso. apply Qle_bool_iff in E.
    apply (Qlt_not_le _ _ Hlt). apply Hz. apply Qmax_0_r_zero. exact E.
  - destruct (progressPercentage_capped g Ht) as [_ Hle].
    apply Qnot_le_lt. intros H.
    apply (Qlt_not_le _ _ Hlt). apply Hp. apply Qle_antisym; assumption.
Qed.

Lemma virtuals_agree_on_completion_witness :
  (0 < Goal.targetAmount tripAfterFirst)%Q
  /\ (Goal.currentAmount tripAfterFirst < Goal.targetAmount tripAfterFirst)%Q
  /\ (remainingAmount tripAfterFirst == 700)%Q
  /\ (progressPercentage tripAfterFirst < 100)%Q.
Proof.
  assert (Ht : (0 < Goal.targetAmount tripAfterFirst)%Q) by reflexivity.
  assert (Hlt : (Goal.currentAmount tripAfterFirst
                 < Goal.targetAmount tripAfterFirst)%Q) by reflexivity.
  destruct (virtuals_agree_on_completion tripAfterFirst Ht) as (_ & _ & _ & H).
  destruct (H Hlt) as [Hr Hp].
  split; [exact Ht|]. split; [exact Hlt|]. split; [|exact Hp].
  rewrite Hr. reflexivity.
Defined.

(** X11. [daysRemaining] is the time left to the target date in days,
    rounded up: it is the least number of whole days that covers that time.
    It is positive exactly while the target date is ahead, zero or negative
    once it has passed; so a goal that a save accepts has at least one day
    remaining. *)
Theorem daysRemaining_rounds_up :
  forall (now : Z) (g : Goal.t),
    (daysRemaining now g - 1) * msPerDay < Goal.targetDate g - now
    /\ Goal.targetDate g - now <= daysRemaining now g * msPerDay
    /\ (0 < daysRemaining now g <-> now < Goal.targetDate g)
    /\ (goalErrors now g = [] -> 1 <= daysRemaining now g).
Proof.
  intros now g. unfold daysRemaining, daysBetween.
  assert (Hm : 0 < msPerDay) by reflexivity.
  destruct (Math_ceil_div_spec (Goal.targetDate g - now) msPerDay Hm) as [Hlo Hhi].
  set (d := Math_ceil (inject_Z (Goal.targetDate g - now) / inject_Z msPerDay)) in *.
  assert (Hpos : 0 < d <-> now < Goal.targetDate g) by (split; intros H; nia).
  split; [exact Hlo|]. split; [exact Hhi|]. split; [exact Hpos|].
  intros Hg. apply goalErrors_nil in Hg as [_ Hd].
  apply Hpos in Hd. lia.
Qed.

Lemma daysRemaining_rounds_up_witness :
  goalErrors halfDay tenDays = []
  /\ daysRemaining halfDay tenDays = 10
  /\ 1 <= daysRemaining halfDay tenDays.
Proof.
  assert (Hg : goalErrors halfDay tenDays = []) by reflexivity.
  split; [exact Hg|]. split; [reflexivity|].
  exact (proj2 (proj2 (proj2 (daysRemaining_rounds_up halfDay tenDays))) Hg).
Defined.

(** ** Listing goals *)

Lemma In_documents {A} (m : gmap positive A) (x : A) :
  In x (snd <$> map_to_list m) <-> exists id, m !! id = Some x.
Proof.
  rewrite <- list_elem_of_In, list_elem_of_fmap. split.
  - intros ([id y] & -> & H). apply elem_of_map_to_list in H. exists id. exact H.
  - intros [id H]. exists (id, x). split; [reflexivity|].
    apply elem_of_map_to_list. exact H.
Qed.

Lemma filter_Permutation {A} (f : A -> bool) (l l' : list A) :
  Permutation l l' -> Permutation (List.filter f l) (List.filter f l').
Proof.
  induction 1 as [|x l l' _ IH|x y l|l l' l'' _ IH1 _ IH2]; simpl.
  - reflexivity.
  - destruct (f x); [apply perm_skip|]; exact IH.
  - destruct (f x), (f y); try reflexivity. apply perm_swap.
  - etransitivity; eassumption.
Qed.

Lemma countStatus_Permutation (s : Status) (l l' : list Goal.t) :
  Permutation l l' -> countStatus s l = countStatus s l'.
Proof.
  intros H. unfold countStatus. f_equal.
  apply Permutation_length, filter_Permutation, H.
Qed.

Lemma filter_length_le {A} (f : A -> bool) (l : list A) :
  (length (List.filter f l) <= length l)%nat.
Proof. induction l as [|x l IH]; simpl; [lia|]. destruct (f x); simpl; lia. Qed.

Lemma filter_all {A} (f : A -> bool) (l : list A) :
  Forall (fun x => f x = true) l -> List.filter f l = l.
Proof.
  induction 1 as [|x l Hx _ IH]; simpl; [reflexivity|]. rewrite Hx, IH. reflexivity.
Qed.

Lemma filter_none {A} (f : A -> bool) (l : list A) :
  Forall (fun x => f x = false) l -> List.filter f l = [].
Proof.
  induction 1 as [|x l Hx _ IH]; simpl; [reflexivity|]. rewrite Hx, IH. reflexivity.
Qed.

(** Two statuses cannot both be counted for one goal. *)
Lemma countStatus_disjoint (l : list Goal.t) :
  countStatus Active l + countStatus Completed l <= Z.of_nat (length l).
Proof.
  unfold countStatus. induction l as [|g l IH]; simpl; [lia|].
  destruct (Goal.status g); simpl; lia.
Qed.

Lemma matchesGoalsQuery_true (u : UserId) (q : GoalsQuery.t) (g : Goal.t) :
  matchesGoalsQuery u q g = true
  <-> Goal.user g = u
      /\ (forall s, GoalsQuery.status q = Some s -> Goal.status g = s)
      /\ (forall c, GoalsQuery.category q = Some c -> c <> ""%string ->
            Goal.category g = c).
Proof.
  unfold matchesGoalsQuery. rewrite !andb_true_iff, bool_decide_eq_true.
  assert (Hs : optHolds (GoalsQuery.status q)
                 (fun s => bool_decide (Goal.status g = s)) = true
               <-> forall s, GoalsQuery.status q = Some s -> Goal.status g = s).
  { destruct (GoalsQuery.status q) as [s|]; simpl.
    - rewrite bool_decide_eq_true. split; [intros H s' [= <-]; exact H|auto].
    - split; [discriminate|reflexivity]. }
  assert (Hc : optHolds (truthy (GoalsQuery.category q))
                 (fun c => String.eqb (Goal.category g) c) = true
               <-> forall c, GoalsQuery.category q = Some c -> c <> ""%string ->
                     Goal.category g = c).
  { destruct (GoalsQuery.category q) as [c|]; simpl.
    - destruct (String.eqb c "") eqn:E; simpl.
      + apply String.eqb_eq in E. split; [|reflexivity].
        intros _ c' [= <-] Hne. contradiction.
      + apply String.eqb_neq in E. rewrite String.eqb_eq.
        split; [intros H c' [= <-] _; exact H|auto].
    - split; [discriminate|reflexivity]. }
  rewrite Hs, Hc. tauto.
Qed.

(** X12. The goals list holds exactly the caller's goals that have the
    status and the category asked for (an empty category asks for nothing),
    and its statistics are computed over that list, not over all the
    caller's goals: [totalGoals] is its length, and with a status filter
    [activeGoals] and [completedGoals] are [totalGoals] for that status and
    0 for the other; in every case they add up to at most [totalGoals]. *)
Theorem listGoals_filtered :
  forall (u : UserId) (q : GoalsQuery.t) (db : GoalDB),
    let goals := fst (listGoals u q db) in
    let stats := snd (listGoals u q db) in
    (forall g,
        In g goals
        <-> (exists id, db !! id = Some g)
            /\ Goal.user g = u
            /\ (forall s, GoalsQuery.status q = Some s -> Goal.status g = s)
            /\ (forall c, GoalsQuery.category q = Some c -> c <> ""%string ->
                  Goal.category g = c))
    /\ GoalStatistics.totalGoals stats = Z.of_nat (length goals)
    /\ GoalStatistics.activeGoals stats + GoalStatistics.completedGoals stats
       <= GoalStatistics.totalGoals stats
    /\ (forall s,
           GoalsQuery.status q = Some s ->
           GoalStatistics.activeGoals stats
           = (if bool_decide (s = Active) then GoalStatistics.totalGoals stats else 0)
           /\ GoalStatistics.completedGoals stats
              = (if bool_decide (s = Completed)
                 then GoalStatistics.totalGoals stats else 0)).
Proof.
  intros u q db goals stats.
  assert (Hin : forall g,
             In g goals
             <-> (exists id, db !! id = Some g) /\ matchesGoalsQuery u q g = true).
  { intros g. unfold goals, listGoals. simpl. split.
    - intros H. apply In_sortBy, filter_In in H as [H1 H2].
      apply In_documents in H1. auto.
    - intros [H1 H2].
      apply (Permutation_in _ (sortBy_Permutation _ _)).
      apply filter_In. split; [apply In_documents; exact H1|exact H2]. }
  split; [intros g; rewrite Hin, matchesGoalsQuery_true; reflexivity|].
  split; [reflexivity|].
  split; [apply countStatus_disjoint|].
  intros s Hs.
  assert (Hall : Forall (fun g => Goal.status g = s) goals).
  { apply List.Forall_forall. intros g Hg. apply Hin in Hg as [_ Hm].
    apply matchesGoalsQuery_true in Hm as (_ & Hst & _). auto. }
  unfold stats, listGoals. simpl. fold goals. unfold countStatus.
  split.
  - destruct (bool_decide (s = Active)) eqn:E.
    + apply bool_decide_eq_true in E. subst s. rewrite filter_all; [reflexivity|].
      eapply Forall_impl; [exact Hall|]. intros g Hg. simpl.
      apply bool_decide_eq_true. exact Hg.
    + apply bool_decide_eq_false in E. rewrite filter_none; [reflexivity|].
      eapply Forall_impl; [exact Hall|]. intros g Hg. simpl.
      apply bool_decide_eq_false. congruence.
  - destruct (bool_decide (s = Completed)) eqn:E.
    + apply bool_decide_eq_true in E. subst s. rewrite filter_all; [reflexivity|].
      eapply Forall_impl; [exact Hall|]. intros g Hg. simpl.
      apply bool_decide_eq_true. exact Hg.
    + apply bool_decide_eq_false in E. rewrite filter_none; [reflexivity|].
      eapply Forall_impl; [exact Hall|]. intros g Hg. simpl.
      apply bool_decide_eq_false. congruence.
Qed.

(** X13. Goals are listed by priority as the database orders the stored
    names, "Medium" before "Low" before "High", and within one priority by
    target date, the nearest first. The same holds of [getActiveGoals]. *)
Theorem goals_listed_by_priority_name :
  forall (u : UserId) (q : GoalsQuery.t) (db : GoalDB),
    StronglySorted listingOrder (fst (listGoals u q db))
    /\ StronglySorted listingOrder (getActiveGoals u db).
Proof.
  intros u q db.
  assert (Htrans : forall x y z : Goal.t,
             listingOrder x y -> listingOrder y z -> listingOrder x z).
  { unfold listingOrder. intros x y z [H1|[E1 H1]] [H2|[E2 H2]].
    - left. lia.
    - left. rewrite <- E2. exact H1.
    - left. rewrite E1. exact H2.
    - right. split; [congruence|lia]. }
  split; apply sortBy_StronglySorted; try exact Htrans.
  - unfold listedBefore, listingOrder. intros x y.
    destruct (Goal.priority x), (Goal.priority y); simpl; try discriminate;
      try (intros _; left; reflexivity).
    all: intros H; right; split; [reflexivity|lia].
  - unfold listedBefore, listingOrder. intros x y.
    destruct (Goal.priority x), (Goal.priority y); simpl; try discriminate;
      try (intros _; left; reflexivity).
    all: intros H; right; split; [reflexivity|lia].
  - unfold listingOrder. intros x y.
    destruct (Goal.priority x), (Goal.priority y); simpl; try discriminate;
      try (intros _; left; reflexivity).
    all: intros H; right; split; [reflexivity|lia].
  - unfold listingOrder. intros x y.
    destruct (Goal.priority x), (Goal.priority y); simpl; try discriminate;
      try (intros _; left; reflexivity).
    all: intros H; right; split; [reflexivity|lia].
Qed.

(** ** Goal totals across the reports *)

Lemma sumTargets_Permutation (l l' : list Goal.t) :
  Permutation l l' -> (sumTargets l == sumTargets l')%Q.
Proof. apply (sumBy_Permutation Goal.targetAmount). Qed.

Lemma sumCurrents_Permutation (l l' : list Goal.t) :
  Permutation l l' -> (sumCurrents l == sumCurrents l')%Q.
Proof. apply (sumBy_Permutation Goal.currentAmount). Qed.

Lemma statusGroups_totalTarget_cons (s : StatusGroup.t) (l : list StatusGroup.t) :
  (fold_left (fun sum g => sum + StatusGroup.totalTarget g) (s :: l) 0
   == StatusGroup.totalTarget s
      + fold_left (fun sum g => sum + StatusGroup.totalTarget g) l 0)%Q.
Proof. apply (sumBy_cons StatusGroup.totalTarget). Qed.

Lemma statusGroups_totalCurrent_cons (s : StatusGroup.t) (l : list StatusGroup.t) :
  (fold_left (fun sum g => sum + StatusGroup.totalCurrent g) (s :: l) 0
   == StatusGroup.totalCurrent s
      + fold_left (fun sum g => sum + StatusGroup.totalCurrent g) l 0)%Q.
Proof. apply (sumBy_cons StatusGroup.totalCurrent). Qed.

Lemma addToStatusGroups_totals (g : Goal.t) (gs : list StatusGroup.t) :
  (fold_left (fun sum s => sum + StatusGroup.totalTarget s) (addToStatusGroups g gs) 0
   == fold_left (fun sum s => sum + StatusGroup.totalTarget s) gs 0
      + Goal.targetAmount g)%Q
  /\ (fold_left (fun sum s => sum + StatusGroup.totalCurrent s) (addToStatusGroups g gs) 0
      == fold_left (fun sum s => sum + StatusGroup.totalCurrent s) gs 0
         + Goal.currentAmount g)%Q.
Proof.
  induction gs as [|s gs [IH1 IH2]].
  - simpl. split; ring.
  - simpl addToStatusGroups. destruct (bool_decide _).
    + rewrite !statusGroups_totalTarget_cons, !statusGroups_totalCurrent_cons.
      simpl. split; ring.
    + rewrite !statusGroups_totalTarget_cons, !statusGroups_totalCurrent_cons,
        IH1, IH2.
      split; ring.
Qed.

Lemma addToStatusGroups_count (st : Status) (g : Goal.t) (gs : list StatusGroup.t) :
  statusCount st (addToStatusGroups g gs)
  = statusCount st gs + (if bool_decide (Goal.status g = st) then 1 else 0).
Proof.
  unfold statusCount. induction gs as [|s gs IH]; simpl.
  - destruct (bool_decide (Goal.status g = st)); reflexivity.
  - destruct (bool_decide (StatusGroup._id s = Goal.status g)) eqn:E; simpl.
    + apply bool_decide_eq_true in E. rewrite E.
      destruct (bool_decide (Goal.status g = st)); simpl; [reflexivity|lia].
    + apply bool_decide_eq_false in E.
      destruct (bool_decide (StatusGroup._id s = st)) eqn:E2; [|exact IH].
      apply bool_decide_eq_true in E2.
      rewrite bool_decide_eq_false_2 by congruence. lia.
Qed.

Lemma groupByStatus_facts (l : list Goal.t) (acc : list StatusGroup.t) :
  let gs := fold_left (fun gs g => addToStatusGroups g gs) l acc in
  (fold_left (fun sum s => sum + StatusGroup.totalTarget s) gs 0
   == fold_left (fun sum s => sum + StatusGroup.totalTarget s) acc 0 + sumTargets l)%Q
  /\ (fold_left (fun sum s => sum + StatusGroup.totalCurrent s) gs 0
      == fold_left (fun sum s => sum + StatusGroup.totalCurrent s) acc 0
         + sumCurrents l)%Q
  /\ forall st, statusCount st gs = statusCount st acc + countStatus st l.
Proof.
  revert acc. induction l as [|g l IH]; intros acc; simpl.
  - unfold sumTargets, sumCurrents, countStatus. simpl.
    split; [ring|]. split; [ring|]. intros st. lia.
  - destruct (IH (addToStatusGroups g acc)) as (H1 & H2 & H3).
    destruct (addToStatusGroups_totals g acc) as [T1 T2].
    split; [|split].
    + rewrite H1, T1. unfold sumTargets.
      rewrite (sumBy_cons Goal.targetAmount). ring.
    + rewrite H2, T2. unfold sumCurrents.
      rewrite (sumBy_cons Goal.currentAmount). ring.
    + intros st. rewrite H3, addToStatusGroups_count. unfold countStatus. simpl.
      destruct (bool_decide (Goal.status g = st)); simpl length; lia.
Qed.

(** X14. The three places that report a user's goal totals agree. The
    overview's [goals] block, the [overview] of the goals-progress report
    and the statistics of the unfiltered goals list give the same number of
    Active and of Completed goals, the same sum of targets and the same sum
    of amounts saved, all taken over every goal of the user. *)
Theorem goal_totals_agree :
  forall (u : UserId) (db : GoalDB),
    let block := overviewGoals u db in
    let progress := goalsProgressOverview u db in
    let listed := snd (listGoals u (GoalsQuery.mk None None) db) in
    GoalsBlock.active block = GoalStatistics.activeGoals progress
    /\ GoalsBlock.completed block = GoalStatistics.completedGoals progress
    /\ (GoalsBlock.totalTarget block == GoalStatistics.totalTargetAmount progress)%Q
    /\ (GoalsBlock.totalSaved block == GoalStatistics.totalCurrentAmount progress)%Q
    /\ GoalStatistics.totalGoals listed = GoalStatistics.totalGoals progress
    /\ GoalStatistics.activeGoals listed = GoalStatistics.activeGoals progress
    /\ GoalStatistics.completedGoals listed = GoalStatistics.completedGoals progress
    /\ (GoalStatistics.totalTargetAmount listed
        == GoalStatistics.totalTargetAmount progress)%Q
    /\ (GoalStatistics.totalCurrentAmount listed
        == GoalStatistics.totalCurrentAmount progress)%Q.
Proof.
  intros u db block progress listed.
  destruct (groupByStatus_facts (goalsOf u db) []) as (H1 & H2 & H3).
  assert (Hp : Permutation (goalsOf u db)
                 (fst (listGoals u (GoalsQuery.mk None None) db))).
  { unfold listGoals, goalsOf. simpl.
    etransitivity; [|apply sortBy_Permutation].
    erewrite filter_ext; [reflexivity|].
    intros g. unfold matchesGoalsQuery. simpl.
    rewrite !andb_true_r. reflexivity. }
  unfold block, progress, listed, overviewGoals, goalsProgressOverview,
    groupByStatus, listGoals. simpl.
  split; [rewrite H3; reflexivity|]. split; [rewrite H3; reflexivity|].
  split; [rewrite H1; simpl; ring|]. split; [rewrite H2; simpl; ring|].
  split; [f_equal; symmetry; apply Permutation_length, Hp|].
  split; [symmetry; apply countStatus_Permutation, Hp|].
  split; [symmetry; apply countStatus_Permutation, Hp|].
  split; [symmetry; apply sumTargets_Permutation, Hp|].
  symmetry; apply sumCurrents_Permutation, Hp.
Qed.

(** ** Goal progress: counts and required contribution *)

Lemma filter_partition_length {A} (p a : A -> bool) (l : list A) :
  (length (List.filter (fun x => p x && a x) l)
   + length (List.filter (fun x => negb (p x) && a x) l)
   = length (List.filter a l))%nat.
Proof.
  induction l as [|x l IH]; simpl; [reflexivity|].
  destruct (p x), (a x); simpl; lia.
Qed.

Lemma filter_map_length {A B} (f : A -> B) (p : B -> bool) (l : list A) :
  length (List.filter p (map f l)) = length (List.filter (fun x => p (f x)) l).
Proof.
  induction l as [|x l IH]; simpl; [reflexivity|].
  destruct (p (f x)); simpl; rewrite IH; reflexivity.
Qed.

(** X15. In the goals-progress report every Active goal is counted once,
    as on track or as behind: [onTrackGoals + behindGoals] is the number of
    the user's Active goals, the [activeGoals] of the report's overview;
    goals of any other status are in neither count. *)
Theorem onTrack_and_behind_partition_active :
  forall (now : Z) (u : UserId) (db : GoalDB),
    GoalsProgress.onTrackGoals (goalsProgress now u db)
    + GoalsProgress.behindGoals (goalsProgress now u db)
    = GoalStatistics.activeGoals (goalsProgressOverview u db)
    /\ 0 <= GoalsProgress.onTrackGoals (goalsProgress now u db)
    /\ 0 <= GoalsProgress.behindGoals (goalsProgress now u db)
    /\ length (GoalsProgress.goals (goalsProgress now u db))
       = length (goalsOf u db).
Proof.
  intros now u db. unfold goalsProgress, goalsProgressOverview. simpl.
  split; [|split; [lia|split; [lia|apply length_map]]].
  unfold countStatus. rewrite <- Nat2Z.inj_add. f_equal.
  rewrite (filter_partition_length GoalProgress.isOnTrack
             (fun g => bool_decide (Goal.status (GoalProgress.goal g) = Active))).
  rewrite filter_map_length. reflexivity.
Qed.

Lemma Qmax_ge_r (a b : Q) : (b <= Qmax a b)%Q.
Proof.
  unfold Qmax. destruct (Qle_bool a b) eqn:E; [apply Qle_refl|].
  apply Qlt_le_weak, Qnot_le_lt. intros H. apply Qle_bool_iff in H. congruence.
Qed.

(** X16. The required monthly contribution divides what remains by the
    months remaining, 30 days each and never fewer than a tenth of a month:
    so it is defined and not negative whatever the dates, it is 0 exactly
    when nothing remains, it is at most ten times the remaining amount, and
    with three days or more to go it is the remaining amount times 30 over
    the days remaining. *)
Theorem requiredMonthlyContribution_bounded :
  forall (now : Z) (g : Goal.t),
    let r := goalProgress now g in
    (GoalProgress.remainingAmount r == remainingAmount g)%Q
    /\ GoalProgress.daysRemaining r = daysRemaining now g
    /\ (0 <= GoalProgress.requiredMonthlyContribution r)%Q
    /\ ((GoalProgress.requiredMonthlyContribution r == 0)%Q
        <-> (GoalProgress.remainingAmount r == 0)%Q)
    /\ (GoalProgress.requiredMonthlyContribution r
        <= 10 * GoalProgress.remainingAmount r)%Q
    /\ (3 <= GoalProgress.daysRemaining r ->
        (GoalProgress.requiredMonthlyContribution r
         == GoalProgress.remainingAmount r * 30
            / inject_Z (GoalProgress.daysRemaining r))%Q).
Proof.
  intros now g r. unfold r, goalProgress, remainingAmount, daysRemaining. simpl.
  set (rem := Qmax (Goal.targetAmount g - Goal.currentAmount g) 0).
  set (d := daysBetween now (Goal.targetDate g)).
  set (m := Qmax (inject_Z d / 30) (1 # 10)).
  assert (Hrem : (0 <= rem)%Q) by apply Qmax_0_r_nonneg.
  assert (Hm : (1 # 10 <= m)%Q) by apply Qmax_ge_r.
  assert (Hm0 : (0 < m)%Q) by (eapply Qlt_le_trans; [|exact Hm]; reflexivity).
  assert (Hnz : ~ (m == 0)%Q) by (intros E; rewrite E in Hm0; discriminate).
  split; [reflexivity|]. split; [reflexivity|].
  split; [apply Qle_shift_div_l; [exact Hm0|]; rewrite Qmult_0_l; exact Hrem|].
  split; [|split].
  - split; intros H.
    + assert (E : (rem == rem / m * m)%Q) by (field; exact Hnz).
      rewrite E, H. ring.
    + rewrite H. unfold Qdiv. ring.
  - apply Qle_shift_div_r; [exact Hm0|].
    apply (Qle_trans _ (10 * rem * (1 # 10))); [ring_simplify; apply Qle_refl|].
    apply Qmult_le_compat_nonneg.
    + split; [|apply Qle_refl].
      apply (Qle_trans _ (10 * 0)); [discriminate|].
      apply Qmult_le_l; [reflexivity|exact Hrem].
    + split; [discriminate|exact Hm].
  - intros Hd.
    assert (Hd3 : (inject_Z 3 <= inject_Z d)%Q) by (rewrite <- Zle_Qle; exact Hd).
    assert (Em : (m == inject_Z d / 30)%Q).
    { unfold m, Qmax. destruct (Qle_bool _ (1 # 10)) eqn:E; [|reflexivity].
      apply Qle_bool_iff in E. apply Qle_antisym; [|exact E].
      apply Qle_shift_div_l; [reflexivity|].
      eapply Qle_trans; [|exact Hd3]. discriminate. }
    rewrite Em. field. apply inject_Z_nonzero. lia.
Qed.

(** ** Listing expenses: summary and pages *)

Lemma summarize_totalAmount (l : list Expense.t) :
  Summary.totalAmount (summarize l) = sumExpenses l.
Proof. destruct l; reflexivity. Qed.

Lemma summarize_count (l : list Expense.t) :
  Summary.count (summarize l) = Z.of_nat (length l).
Proof. destruct l; reflexivity. Qed.

Lemma summarize_average (l : list Expense.t) :
  (Summary.averageAmount (summarize l) * inject_Z (Summary.count (summarize l))
   == Summary.totalAmount (summarize l))%Q.
Proof.
  destruct l as [|e l]; [reflexivity|].
  unfold summarize. cbn [Summary.averageAmount Summary.count Summary.totalAmount].
  field. apply inject_Z_nonzero. simpl length. lia.
Qed.

Lemma sortBy_newerExpense_sorted (l : list Expense.t) :
  StronglySorted newestFirst (sortBy newerExpense l).
Proof.
  apply sortBy_StronglySorted; unfold newestFirst, newerExpense.
  - intros x y z. lia.
  - intros x y H. lia.
  - intros x y H. lia.
Qed.

Lemma StronglySorted_take {A} (R : A -> A -> Prop) (n : nat) (l : list A) :
  StronglySorted R l -> StronglySorted R (take n l).
Proof.
  revert n. induction l as [|x l IH]; intros [|n] H; simpl; try constructor.
  - apply StronglySorted_inv in H as [H _]. apply IH. exact H.
  - apply StronglySorted_inv in H as [_ H].
    apply List.Forall_forall. intros y Hy. apply In_take in Hy.
    rewrite List.Forall_forall in H. auto.
Qed.

Lemma StronglySorted_drop {A} (R : A -> A -> Prop) (n : nat) (l : list A) :
  StronglySorted R l -> StronglySorted R (drop n l).
Proof.
  revert n. induction l as [|x l IH]; intros [|n] H; simpl; try assumption.
  apply StronglySorted_inv in H as [H _]. apply IH. exact H.
Qed.

Section ExpensePages.

Variable regexMatch : string -> string -> bool.

(** X17. The summary of an expense listing is taken over everything that
    matches the filter, not over the page shown: its count is [totalItems],
    its total is the sum of all matching amounts, its average times its
    count is its total, and neither changes with [page] or [limit]. When
    nothing matches, the summary is all zeros, the page is empty and there
    are no pages. *)
Theorem listExpenses_summary_over_filter :
  forall (u : UserId) (q : ListQuery.t) (db : ExpenseDB),
    listQueryErrors q = [] ->
    let matching := List.filter (matchesFilter regexMatch (buildFilter u q)) db in
    exists r,
      listExpenses regexMatch u q db = Ok 200 r
      /\ Summary.count (ExpenseList.summary r)
         = Pagination.totalItems (ExpenseList.pagination r)
      /\ Summary.totalAmount (ExpenseList.summary r) = sumExpenses matching
      /\ (Summary.averageAmount (ExpenseList.summary r)
          * inject_Z (Summary.count (ExpenseList.summary r))
          == Summary.totalAmount (ExpenseList.summary r))%Q
      /\ (forall page limit r',
             listExpenses regexMatch u
               (ListQuery.mk page limit (ListQuery.category q)
                  (ListQuery.startDate q) (ListQuery.endDate q)
                  (ListQuery.minAmount q) (ListQuery.maxAmount q)
                  (ListQuery.search q)) db = Ok 200 r' ->
             ExpenseList.summary r' = ExpenseList.summary r
             /\ Pagination.totalItems (ExpenseList.pagination r')
                = Pagination.totalItems (ExpenseList.pagination r))
      /\ (matching = [] ->
          ExpenseList.summary r = Summary.mk 0 0 0
          /\ ExpenseList.expenses r = []
          /\ Pagination.totalPages (ExpenseList.pagination r) = 0
          /\ Pagination.hasNext (ExpenseList.pagination r) = false).
Proof.
  intros u q db Hv matching.
  destruct (listQueryErrors_nil q Hv) as [Hp Hl].
  unfold listExpenses. rewrite Hv.
  eexists. split; [reflexivity|].
  cbn [ExpenseList.summary ExpenseList.pagination ExpenseList.expenses
       Pagination.totalItems Pagination.totalPages Pagination.hasNext].
  unfold countDocuments, find. fold matching.
  split; [apply summarize_count|].
  split; [apply summarize_totalAmount|].
  split; [apply summarize_average|].
  split.
  - intros page limit r' H. unfold listExpenses in H.
    destruct (listQueryErrors _) in H; [|discriminate].
    injection H as <-. split; reflexivity.
  - intros E. rewrite E.
    set (limit := orDefault 10 (ListQuery.limit q)) in *.
    change (Z.of_nat (length (@nil Expense.t))) with 0.
    assert (Hz : Math_ceil (inject_Z 0 / inject_Z limit)%Q = 0).
    { unfold Math_ceil.
      assert (E0 : (inject_Z 0 / inject_Z limit == inject_Z 0)%Q).
      { unfold Qdiv. change (inject_Z 0) with 0%Q. ring. }
      rewrite E0. apply Qceiling_Z. }
    split; [reflexivity|].
    split; [cbn [sortBy fold_right]; rewrite drop_nil, take_nil; reflexivity|].
    split; [exact Hz|]. rewrite Hz. apply Z.ltb_ge. lia.
Qed.

(** X18. The pages of an expense listing are consecutive windows of the
    matching expenses ordered from the newest (by date, then by creation
    time): page [p] holds the expenses from position [(p - 1) * limit] on,
    in that order. Every page before the last is full and has a next one;
    the last page holds between 1 and [limit] expenses and has no next one;
    a page past the last is empty. *)
Theorem listExpenses_pages :
  forall (u : UserId) (q : ListQuery.t) (db : ExpenseDB),
    listQueryErrors q = [] ->
    let page := orDefault 1 (ListQuery.page q) in
    let limit := orDefault 10 (ListQuery.limit q) in
    let sorted :=
      sortBy newerExpense
        (List.filter (matchesFilter regexMatch (buildFilter u q)) db) in
    exists r,
      listExpenses regexMatch u q db = Ok 200 r
      /\ StronglySorted newestFirst sorted
      /\ ExpenseList.expenses r
         = take (Z.to_nat limit) (drop (Z.to_nat ((page - 1) * limit)) sorted)
      /\ StronglySorted newestFirst (ExpenseList.expenses r)
      /\ let totalPages := Pagination.totalPages (ExpenseList.pagination r) in
         (page < totalPages ->
          Z.of_nat (length (ExpenseList.expenses r)) = limit
          /\ Pagination.hasNext (ExpenseList.pagination r) = true)
         /\ (page = totalPages ->
             1 <= Z.of_nat (length (ExpenseList.expenses r)) <= limit
             /\ Pagination.hasNext (ExpenseList.pagination r) = false)
         /\ (totalPages < page ->
             ExpenseList.expenses r = []
             /\ Pagination.hasNext (ExpenseList.pagination r) = false).
Proof.
  intros u q db Hv page limit sorted.
  destruct (listQueryErrors_nil q Hv) as [Hp Hl]. fold page in Hp. fold limit in Hl.
  unfold listExpenses. rewrite Hv.
  eexists. split; [reflexivity|]. simpl.
  fold page. fold limit. unfold find. fold sorted.
  assert (Hs : StronglySorted newestFirst sorted)
    by apply sortBy_newerExpense_sorted.
  split; [exact Hs|]. split; [reflexivity|].
  split; [apply StronglySorted_take, StronglySorted_drop, Hs|].
  unfold countDocuments, find.
  assert (Hlen : length sorted
                 = length (List.filter (matchesFilter regexMatch (buildFilter u q)) db))
    by apply sortBy_length.
  rewrite <- Hlen.
  destruct (Math_ceil_div_spec (Z.of_nat (length sorted)) limit) as [Hlo Hhi]; [lia|].
  set (tp := Math_ceil (inject_Z (Z.of_nat (length sorted)) / inject_Z limit)) in *.
  assert (Hlength : forall l : list Expense.t,
             Z.of_nat (length (take (Z.to_nat limit)
                                 (drop (Z.to_nat ((page - 1) * limit)) l)))
             = Z.min limit (Z.max 0 (Z.of_nat (length l) - (page - 1) * limit))).
  { intros l. rewrite length_take, length_drop. nia. }
  split; [|split].
  - intros H. split; [rewrite Hlength; nia|apply Z.ltb_lt; exact H].
  - intros H. split; [rewrite Hlength; nia|apply Z.ltb_ge; lia].
  - intros H. split; [|apply Z.ltb_ge; lia].
    apply length_zero_iff_nil. apply Nat2Z.inj. rewrite Hlength. nia.
Qed.

End ExpensePages.

(** ** The expense routes *)

Lemma findExpense_Some (id : ObjectId) (u : UserId) (s : gmap positive Expense.t)
    (e : Expense.t) :
  findExpense id u s = Some e <-> s !! id = Some e /\ Expense.user e = u.
Proof.
  unfold findExpense. destruct (s !! id) as [e0|]; [|split; [discriminate|intros [? _]; discriminate]].
  destruct (decide (Expense.user e0 = u)) as [Hu|Hu]; split.
  - intros [= <-]. auto.
  - intros [[= <-] _]. reflexivity.
  - discriminate.
  - intros [[= <-] H]. contradiction.
Qed.

(** The schema accepts an expense exactly when it is well formed. *)
Lemma expenseErrors_nil (e : Expense.t) :
  expenseErrors e = [] <-> wellFormedExpense e.
Proof.
  unfold expenseErrors, wellFormedExpense.
  rewrite !app_nil, !check_nil, Qgeb_true, Nat.leb_le, negb_true_iff,
    !bool_decide_eq_true, String.eqb_neq, <- !list_elem_of_In.
  assert (Hd : match Expense.description e with
               | Some d => (String.length d <=? 500)%nat
               | None => true
               end = true
               <-> forall d, Expense.description e = Some d ->
                     (String.length d <= 500)%nat).
  { destruct (Expense.description e) as [d|].
    - rewrite Nat.leb_le. split; [intros H d' [= <-]; exact H|auto].
    - split; [discriminate|reflexivity]. }
  rewrite Hd. tauto.
Qed.

(** What a write request does to the expense collection: nothing; or it
    stores, under an id that is free or holds an expense of the caller, a
    well-formed expense of the caller; or it deletes one of the caller's. *)
Lemma writeExpense_cases (now : Z) (u : UserId) (r : ExpenseWrite)
    (s : gmap positive Expense.t) :
  writeExpense now u r s = s
  \/ (exists id e,
         writeExpense now u r s = <[id := e]> s
         /\ wellFormedExpense e
         /\ forall e0, s !! id = Some e0 -> Expense.user e0 = u)
  \/ (exists id e0,
         writeExpense now u r s = delete id s
         /\ s !! id = Some e0 /\ Expense.user e0 = u).
Proof.
  destruct r as [id b|id b|id]; simpl.
  - unfold createExpense.
    destruct (expenseBodyErrors b); [|auto].
    destruct (expenseErrors (newExpense now u b)) eqn:Hg; [|auto].
    destruct (s !! id) eqn:Hl; [auto|].
    right; left. exists id, (newExpense now u b). simpl.
    split; [reflexivity|]. split; [apply expenseErrors_nil; exact Hg|].
    intros e0 E. rewrite Hl in E. discriminate.
  - unfold updateExpense.
    destruct (expenseUpdateErrors b); [|auto].
    destruct (findExpense id u s) as [e|] eqn:Hf; [|auto].
    apply findExpense_Some in Hf as [Hl Hu].
    destruct (expenseErrors (mergeExpense b e)) eqn:Hg; [|auto].
    right; left. exists id, (mergeExpense b e). simpl.
    split; [reflexivity|]. split; [apply expenseErrors_nil; exact Hg|].
    intros e0 E. rewrite Hl in E. injection E as <-. exact Hu.
  - unfold deleteExpense.
    destruct (findExpense id u s) as [e|] eqn:Hf; simpl; [|auto].
    apply findExpense_Some in Hf as [Hl Hu].
    right; right. exists id, e. auto.
Qed.

(** X19. An expense that the create route accepts can be read back by its
    creator under its id and is among the collection's documents; any other
    user asking for that id is answered 404. It carries the date of the
    body, or the instant of the request when the body has none, the payment
    method "Cash" when the body has none, and it is well formed. Expenses
    stored under other ids are untouched. *)
Theorem createExpense_then_get :
  forall (now : Z) (u : UserId) (id : ObjectId) (b : ExpenseBody.t)
         (s s' : gmap positive Expense.t) (e : Expense.t) (code : Z),
    createExpense now u id b s = (Ok code e, s') ->
    getExpense u id s' = Ok 200 e
    /\ In e (expenseDocuments s')
    /\ (forall u', u' <> u -> getExpense u' id s' = Fail 404 "Expense not found" [])
    /\ Expense.date e = orDefault now (ExpenseBody.date b)
    /\ Expense.paymentMethod e
       = orDefault "Cash"%string (ExpenseBody.paymentMethod b)
    /\ Expense.createdAt e = now
    /\ wellFormedExpense e
    /\ s !! id = None
    /\ (forall id', id' <> id -> s' !! id' = s !! id').
Proof.
  intros now u id b s s' e code. unfold createExpense.
  destruct (expenseBodyErrors b); [|discriminate].
  destruct (expenseErrors (newExpense now u b)) eqn:Hg; [|discriminate].
  destruct (s !! id) eqn:Hl; [discriminate|].
  intros [= _ <- <-].
  assert (Hs : (<[id := newExpense now u b]> s) !! id = Some (newExpense now u b))
    by apply lookup_insert_eq.
  split; [unfold getExpense, findExpense; rewrite Hs; simpl;
          rewrite decide_True by reflexivity; reflexivity|].
  split; [apply In_documents; exists id; exact Hs|].
  split.
  { intros u' Hne. unfold getExpense, findExpense. rewrite Hs. simpl.
    rewrite decide_False by auto. reflexivity. }
  split; [reflexivity|]. split; [reflexivity|]. split; [reflexivity|].
  split; [apply expenseErrors_nil; exact Hg|]. split; [reflexivity|].
  intros id' Hne. apply lookup_insert_ne. auto.
Qed.

(** X20. The expense collection only ever holds well-formed expenses: if
    every stored expense has a non-empty title of at most 100 characters, a
    description of at most 500, an amount of at least 0.01, a category and a
    payment method of the schema's lists, the same holds after any sequence
    of create, update and delete requests. *)
Theorem expenses_stay_wellFormed :
  forall (rs : list (Z * UserId * ExpenseWrite)) (s : gmap positive Expense.t),
    (forall id e, s !! id = Some e -> wellFormedExpense e) ->
    forall id e, writeAllExpenses rs s !! id = Some e -> wellFormedExpense e.
Proof.
  induction rs as [|[[now u] r] rs IH]; intros s Hs; simpl.
  - exact Hs.
  - apply IH. intros id e.
    destruct (writeExpense_cases now u r s)
      as [->|[(id' & e' & -> & Hw & _)|(id' & e0 & -> & _)]].
    + apply Hs.
    + destruct (decide (id' = id)) as [->|Hne].
      * rewrite lookup_insert_eq. intros [= <-]. exact Hw.
      * rewrite lookup_insert_ne by assumption. apply Hs.
    + destruct (decide (id' = id)) as [->|Hne].
      * rewrite lookup_delete_eq. discriminate.
      * rewrite lookup_delete_ne by assumption. apply Hs.
Qed.

(** Over the bodies of the embedding, which may name another [user] for
    the caller's expense but carry no [_id], whatever users other than its
    owner create, update or delete leaves an expense stored as it was. *)
Lemma writeAllExpenses_isolated :
  forall (rs : list (Z * UserId * ExpenseWrite)) (s : gmap positive Expense.t)
         (id : ObjectId) (e : Expense.t),
    s !! id = Some e ->
    Forall (fun r => snd (fst r) <> Expense.user e) rs ->
    writeAllExpenses rs s !! id = Some e.
Proof.
  induction rs as [|[[now u] r] rs IH]; intros s id e Hl Hall; simpl.
  - exact Hl.
  - inversion Hall as [|? ? Hu Hrest]; subst. simpl in Hu.
    apply IH; [|exact Hrest].
    destruct (writeExpense_cases now u r s)
      as [->|[(id' & e' & -> & _ & Hown)|(id' & e0 & -> & Hl0 & Hu0)]].
    + exact Hl.
    + destruct (decide (id' = id)) as [->|Hne].
      * exfalso. apply Hu. symmetry. apply Hown. exact Hl.
      * rewrite lookup_insert_ne by assumption. exact Hl.
    + destruct (decide (id' = id)) as [->|Hne].
      * exfalso. rewrite Hl in Hl0. injection Hl0 as <-. auto.
      * rewrite lookup_delete_ne by assumption. exact Hl.
Qed.

(** X21. An expense is closed to everyone but its owner. The routes that
    name an expense by its id look it up under the caller before they do
    anything with the body: for a caller who is not the owner, reading and
    deleting it are answered 404 "Expense not found", updating it is
    refused, with 404 when the body passes the route's validators, and
    creating an expense under its id fails. None of these requests changes
    the collection. *)
Theorem expenses_isolated :
  forall (now : Z) (u : UserId) (id : ObjectId) (s : gmap positive Expense.t)
         (e : Expense.t),
    s !! id = Some e ->
    u <> Expense.user e ->
    getExpense u id s = Fail 404 "Expense not found" []
    /\ deleteExpense u id s = (Fail 404 "Expense not found" [], s)
    /\ (forall b,
           snd (updateExpense u id b s) = s
           /\ isOk (fst (updateExpense u id b s)) = false
           /\ (expenseUpdateErrors b = [] ->
               fst (updateExpense u id b s) = Fail 404 "Expense not found" []))
    /\ (forall b,
           snd (createExpense now u id b s) = s
           /\ isOk (fst (createExpense now u id b s)) = false).
Proof.
  intros now u id s e Hl Hu.
  assert (Hf : findExpense id u s = None).
  { unfold findExpense. rewrite Hl. rewrite decide_False by auto. reflexivity. }
  split; [unfold getExpense; rewrite Hf; reflexivity|].
  split; [unfold deleteExpense; rewrite Hf; reflexivity|].
  split.
  - intros b. unfold updateExpense. rewrite Hf.
    destruct (expenseUpdateErrors b); simpl; auto.
    repeat split. discriminate.
  - intros b. unfold createExpense. rewrite Hl.
    destruct (expenseBodyErrors b); [|auto].
    destruct (expenseErrors _); auto.
Qed.

Lemma expenses_isolated_witness :
  ({[ lunchId := lunch ]} : gmap positive Expense.t) !! lunchId = Some lunch
  /\ bob <> Expense.user lunch
  /\ updateExpense bob lunchId
       (ExpenseUpdate.mk None (Some 1%Q) None None None None None)
       {[ lunchId := lunch ]}
     = (Fail 404 "Expense not found" [], {[ lunchId := lunch ]})
  /\ deleteExpense bob lunchId {[ lunchId := lunch ]}
     = (Fail 404 "Expense not found" [], {[ lunchId := lunch ]}).
Proof.
  assert (Hl : ({[ lunchId := lunch ]} : gmap positive Expense.t) !! lunchId
               = Some lunch) by (vm_compute; reflexivity).
  assert (Hb : bob <> Expense.user lunch) by discriminate.
  destruct (expenses_isolated 600 bob lunchId {[ lunchId := lunch ]} lunch Hl Hb)
    as (_ & Hd & Hu & _).
  split; [exact Hl|]. split; [exact Hb|]. split; [|exact Hd].
  destruct (Hu (ExpenseUpdate.mk None (Some 1%Q) None None None None None))
    as (Hdb & _ & Hr).
  rewrite (surjective_pairing (updateExpense _ _ _ _)), Hdb, (Hr eq_refl).
  reflexivity.
Defined.

(** ** Grouping by category *)

Lemma ofCategory_snoc (c : string) (l : list Expense.t) (e : Expense.t) :
  ofCategory c (l ++ [e])
  = ofCategory c l ++ (if String.eqb (Expense.category e) c then [e] else []).
Proof. unfold ofCategory. rewrite List.filter_app. reflexivity. Qed.

Lemma sumExpenses_snoc (l : list Expense.t) (e : Expense.t) :
  sumExpenses (l ++ [e]) = (sumExpenses l + Expense.amount e)%Q.
Proof. unfold sumExpenses. rewrite fold_left_app. reflexivity. Qed.

Lemma addToGroups_ids_In (e : Expense.t) (gs : list CategoryGroup.t) :
  In (Expense.category e) (map CategoryGroup._id gs) ->
  map CategoryGroup._id (addToGroups e gs) = map CategoryGroup._id gs.
Proof.
  induction gs as [|g gs IH]; simpl; [tauto|].
  destruct (String.eqb (CategoryGroup._id g) (Expense.category e)) eqn:E; simpl.
  - reflexivity.
  - intros [H|H].
    + apply String.eqb_neq in E. contradiction.
    + rewrite IH by exact H. reflexivity.
Qed.

Lemma addToGroups_ids_notIn (e : Expense.t) (gs : list CategoryGroup.t) :
  ~ In (Expense.category e) (map CategoryGroup._id gs) ->
  map CategoryGroup._id (addToGroups e gs)
  = map CategoryGroup._id gs ++ [Expense.category e].
Proof.
  induction gs as [|g gs IH]; simpl; [reflexivity|].
  intros H.
  destruct (String.eqb (CategoryGroup._id g) (Expense.category e)) eqn:E; simpl.
  - apply String.eqb_eq in E. tauto.
  - rewrite IH by tauto. reflexivity.
Qed.

Lemma groupCorrect_other (l : list Expense.t) (e : Expense.t) (g : CategoryGroup.t) :
  CategoryGroup._id g <> Expense.category e ->
  groupCorrect l g -> groupCorrect (l ++ [e]) g.
Proof.
  intros Hne (Ht & Hn & Hs & Hc). unfold groupCorrect.
  rewrite ofCategory_snoc.
  assert (E : String.eqb (Expense.category e) (CategoryGroup._id g) = false)
    by (apply String.eqb_neq; congruence).
  rewrite E, app_nil_r. auto.
Qed.

Lemma groupCorrect_accumulate (l : list Expense.t) (e : Expense.t) (g : CategoryGroup.t) :
  CategoryGroup._id g = Expense.category e ->
  groupCorrect l g -> groupCorrect (l ++ [e]) (accumulate e g).
Proof.
  intros Heq (Ht & Hn & Hs & Hc). unfold groupCorrect, accumulate. simpl.
  rewrite ofCategory_snoc.
  assert (E : String.eqb (Expense.category e) (CategoryGroup._id g) = true)
    by (apply String.eqb_eq; congruence).
  rewrite E, <- Ht.
  split; [reflexivity|]. split; [destruct (CategoryGroup.transactions g); discriminate|].
  split; [rewrite sumExpenses_snoc, Hs; reflexivity|].
  rewrite length_app, Hc. simpl. lia.
Qed.

Lemma addToGroups_new (e : Expense.t) (gs : list CategoryGroup.t) :
  ~ In (Expense.category e) (map CategoryGroup._id gs) ->
  addToGroups e gs = gs ++ [newGroup e].
Proof.
  induction gs as [|g gs IH]; simpl; [reflexivity|].
  intros H.
  destruct (String.eqb (CategoryGroup._id g) (Expense.category e)) eqn:E.
  - apply String.eqb_eq in E. tauto.
  - rewrite IH by tauto. reflexivity.
Qed.

Lemma addToGroups_old (e : Expense.t) (gs : list CategoryGroup.t) :
  NoDup (map CategoryGroup._id gs) ->
  In (Expense.category e) (map CategoryGroup._id gs) ->
  addToGroups e gs
  = map (fun g => if String.eqb (CategoryGroup._id g) (Expense.category e)
                  then accumulate e g else g) gs.
Proof.
  induction gs as [|g gs IH]; intros Hnd Hin; simpl; [destruct Hin|].
  inversion Hnd as [|? ? Hnotin Hnd']; subst.
  rewrite list_elem_of_In in Hnotin.
  destruct (String.eqb (CategoryGroup._id g) (Expense.category e)) eqn:E.
  - apply String.eqb_eq in E. f_equal.
    rewrite <- (map_id gs) at 1. apply map_ext_in. intros g' Hg'.
    destruct (String.eqb (CategoryGroup._id g') (Expense.category e)) eqn:E';
      [|reflexivity].
    apply String.eqb_eq in E'. exfalso. apply Hnotin.
    rewrite E, <- E'. apply in_map. exact Hg'.
  - apply String.eqb_neq in E. f_equal. apply IH; [exact Hnd'|].
    destruct Hin as [Hin|Hin]; [contradiction|exact Hin].
Qed.

Lemma addToGroups_correct (l : list Expense.t) (e : Expense.t)
    (gs : list CategoryGroup.t) :
  groupsCorrect l gs -> groupsCorrect (l ++ [e]) (addToGroups e gs).
Proof.
  intros (Hnd & Hall & Hcov).
  destruct (in_dec string_dec (Expense.category e) (map CategoryGroup._id gs))
    as [Hin|Hnin].
  - assert (Hids := addToGroups_ids_In e gs Hin).
    split; [rewrite Hids; exact Hnd|]. split.
    + rewrite (addToGroups_old e gs Hnd Hin). apply Forall_map.
      eapply Forall_impl; [exact Hall|]. intros g Hg. simpl.
      destruct (String.eqb (CategoryGroup._id g) (Expense.category e)) eqn:E.
      * apply String.eqb_eq in E. apply groupCorrect_accumulate; assumption.
      * apply String.eqb_neq in E. apply groupCorrect_other; assumption.
    + rewrite Hids. intros x Hx. apply in_app_or in Hx as [Hx|[<-|[]]]; auto.
  - assert (Hids := addToGroups_ids_notIn e gs Hnin).
    split.
    { rewrite Hids. apply NoDup_app. split; [exact Hnd|].
      split; [|apply NoDup_singleton].
      intros x Hx Hx'. apply list_elem_of_In in Hx, Hx'.
      destruct Hx' as [<-|[]]. contradiction. }
    split.
    + rewrite (addToGroups_new e gs Hnin). apply Forall_app. split.
      * rewrite List.Forall_forall in Hall. apply List.Forall_forall.
        intros g Hg. apply groupCorrect_other; [|apply Hall; exact Hg].
        intros E. apply Hnin. rewrite <- E. apply in_map. exact Hg.
      * constructor; [|constructor].
        unfold groupCorrect, newGroup. simpl.
        rewrite ofCategory_snoc, String.eqb_refl.
        assert (El : ofCategory (Expense.category e) l = []).
        { unfold ofCategory. apply filter_none.
          apply List.Forall_forall. intros x Hx.
          apply not_true_is_false. intros Hc. apply String.eqb_eq in Hc.
          apply Hnin. rewrite <- Hc. apply Hcov. exact Hx. }
        rewrite El. simpl. repeat split; try discriminate.
        unfold sumExpenses. simpl. ring.
    + rewrite Hids. intros x Hx. apply in_or_app.
      apply in_app_or in Hx as [Hx|[<-|[]]]; [left; auto|right; left; reflexivity].
Qed.

Lemma groupByCategory_fold_correct (l seen : list Expense.t)
    (gs : list CategoryGroup.t) :
  groupsCorrect seen gs ->
  groupsCorrect (seen ++ l) (fold_left (fun gs e => addToGroups e gs) l gs).
Proof.
  revert seen gs. induction l as [|e l IH]; intros seen gs H; simpl.
  - rewrite app_nil_r. exact H.
  - replace (seen ++ e :: l) with ((seen ++ [e]) ++ l)
      by (rewrite <- app_assoc; reflexivity).
    apply IH, addToGroups_correct, H.
Qed.

(** Grouping by category is right: one group per category present, each
    with that category's expenses in order, their sum and their number. *)
Lemma groupByCategory_correct (l : list Expense.t) :
  groupsCorrect l (groupByCategory l).
Proof.
  apply (groupByCategory_fold_correct l [] []).
  split; [constructor|]. split; [constructor|]. intros x [].
Qed.

Lemma groupsCorrect_sortBy before (l : list Expense.t) (gs : list CategoryGroup.t) :
  groupsCorrect l gs -> groupsCorrect l (sortBy before gs).
Proof.
  intros (Hnd & Hall & Hcov).
  assert (Hp := sortBy_Permutation before gs).
  assert (Hpm : Permutation (map CategoryGroup._id gs)
                  (map CategoryGroup._id (sortBy before gs)))
    by (apply Permutation_map; exact Hp).
  split; [rewrite <- Hpm; exact Hnd|]. split.
  - apply List.Forall_forall. intros g Hg. rewrite List.Forall_forall in Hall.
    apply Hall. apply (Permutation_in _ (Permutation_sym Hp)). exact Hg.
  - intros x Hx. apply (Permutation_in _ Hpm). auto.
Qed.

Lemma largerGroup_sorted (gs : list CategoryGroup.t) :
  StronglySorted (fun a b => (CategoryGroup.totalAmount b
                              <= CategoryGroup.totalAmount a)%Q)
    (sortBy largerGroup gs).
Proof.
  apply sortBy_StronglySorted; unfold largerGroup.
  - intros x y z H1 H2. eapply Qle_trans; eassumption.
  - intros x y H. apply Qgtb_true in H. apply Qlt_le_weak. exact H.
  - intros x y H. apply Qgtb_false in H. exact H.
Qed.

(** X22. The category summary has one entry for each category that occurs
    among the user's expenses in the date range, and no other; an entry's
    [totalAmount] is the sum of that category's expenses in the range, its
    [count] their number (at least 1) and its [averageAmount] their mean;
    the entries come in order of decreasing [totalAmount]. *)
Theorem categorySummary_correct :
  forall (u : UserId) (startDate endDate : option Z) (db : ExpenseDB),
    let matched := List.filter (inSummaryRange u startDate endDate) db in
    let summary := categorySummary u startDate endDate db in
    NoDup (map CategoryGroup._id summary)
    /\ (forall c, In c (map CategoryGroup._id summary)
                  <-> exists e, In e matched /\ Expense.category e = c)
    /\ Forall (fun g =>
                 (CategoryGroup.totalAmount g
                  == sumExpenses (ofCategory (CategoryGroup._id g) matched))%Q
                 /\ CategoryGroup.count g
                    = Z.of_nat (length (ofCategory (CategoryGroup._id g) matched))
                 /\ 1 <= CategoryGroup.count g
                 /\ (averageAmount g * inject_Z (CategoryGroup.count g)
                     == CategoryGroup.totalAmount g)%Q)
         summary
    /\ StronglySorted (fun a b => (CategoryGroup.totalAmount b
                                   <= CategoryGroup.totalAmount a)%Q) summary.
Proof.
  intros u startDate endDate db matched summary.
  destruct (groupsCorrect_sortBy largerGroup matched _ (groupByCategory_correct matched))
    as (Hnd & Hall & Hcov).
  fold (categorySummary u startDate endDate db) in Hnd, Hall, Hcov.
  fold summary in Hnd, Hall, Hcov.
  assert (Hcount : forall g, groupCorrect matched g -> 1 <= CategoryGroup.count g).
  { intros g (_ & Hn & _ & Hc). rewrite Hc.
    destruct (CategoryGroup.transactions g); [contradiction|simpl; lia]. }
  split; [exact Hnd|]. split; [|split].
  - intros c. split.
    + intros Hc. apply in_map_iff in Hc as (g & <- & Hg).
      rewrite List.Forall_forall in Hall.
      destruct (Hall g Hg) as (Ht & Hn & _).
      destruct (CategoryGroup.transactions g) as [|e tr] eqn:E; [contradiction|].
      assert (He : In e (ofCategory (CategoryGroup._id g) matched))
        by (rewrite <- Ht; left; reflexivity).
      apply filter_In in He as [He Hcat]. apply String.eqb_eq in Hcat.
      exists e. auto.
    + intros (e & He & <-). apply Hcov. exact He.
  - eapply Forall_impl; [exact Hall|]. intros g Hg. simpl.
    pose proof (Hcount g Hg) as H1.
    destruct Hg as (Ht & _ & Hs & Hc). rewrite <- Ht.
    split; [exact Hs|]. split; [exact Hc|]. split; [exact H1|].
    unfold averageAmount. field. apply inject_Z_nonzero. lia.
  - apply largerGroup_sorted.
Qed.

(** ** Changes between periods *)

Lemma ratio_le_100 (a b : Q) :
  (0 < b)%Q -> (a / b * 100 <= 100)%Q <-> (a <= b)%Q.
Proof.
  intros Hb.
  assert (Hnz : ~ (b == 0)%Q) by (intros E; rewrite E in Hb; discriminate).
  assert (Hpos : (0 < 100 / b)%Q).
  { apply Qlt_shift_div_l; [exact Hb|]. rewrite Qmult_0_l. reflexivity. }
  assert (E1 : (b * (100 / b) == 100)%Q) by (field; exact Hnz).
  assert (E2 : (a * (100 / b) == a / b * 100)%Q) by (field; exact Hnz).
  rewrite <- E1 at 2. rewrite <- E2. apply Qmult_le_r. exact Hpos.
Qed.

(** X23. The percentage change between two totals is 0 when the earlier
    total is not positive, so nothing is divided by zero; otherwise it is
    the change that takes the earlier total to the later one,
    [previous * (1 + change / 100) = current], positive for a rise, negative
    for a fall and -100 when the later total is 0. *)
Theorem percentChange_recovers_current :
  forall current previous : Q,
    (~ (0 < previous)%Q -> percentChange current previous = 0%Q)
    /\ ((0 < previous)%Q ->
        (previous * (1 + percentChange current previous / 100) == current)%Q
        /\ ((0 <= percentChange current previous)%Q <-> (previous <= current)%Q)
        /\ ((current == 0)%Q -> (percentChange current previous == -100)%Q)).
Proof.
  intros current previous. unfold percentChange. split.
  - intros H. destruct (Qgtb previous 0) eqn:E; [|reflexivity].
    apply Qgtb_true in E. contradiction.
  - intros H.
    assert (Hnz : ~ (previous == 0)%Q) by (intros E; rewrite E in H; discriminate).
    apply Qgtb_true in H as Hb. rewrite Hb.
    split; [field; exact Hnz|]. split.
    + assert (E : ((current - previous) / previous * 100
                   == current / previous * 100 - 100)%Q) by (field; exact Hnz).
      rewrite E, <- (ratio_ge_100 current previous H).
      rewrite <- (Qplus_le_l _ _ 100).
      assert (E' : (current / previous * 100 - 100 + 100
                    == current / previous * 100)%Q) by ring.
      rewrite E', Qplus_0_l. reflexivity.
    + intros E. rewrite E. field. exact Hnz.
Qed.

Lemma percentChange_recovers_current_witness :
  (0 < 80)%Q
  /\ (80 * (1 + percentChange 100 80 / 100) == 100)%Q
  /\ (percentChange 100 80 == 25)%Q.
Proof.
  assert (H : (0 < 80)%Q) by reflexivity.
  split; [exact H|].
  split; [exact (proj1 (proj2 (percentChange_recovers_current 100 80) H))|reflexivity].
Defined.

Lemma budget_figures_flag (userBudget : option Q) (spent : Q) :
  Budget.isOverBudget (overviewBudget userBudget spent)
  = Budget.isOverBudget (monthlyReportBudget userBudget spent).
Proof.
  unfold overviewBudget, monthlyReportBudget. simpl.
  set (budget := orDefault 0%Q userBudget).
  apply eq_iff_eq_true. rewrite andb_true_iff, !Qgtb_true.
  destruct (Qgtb budget 0) eqn:E.
  - apply Qgtb_true in E. split.
    + intros H. split; [exact E|]. apply Qnot_le_lt. intros Hle.
      apply (ratio_le_100 _ _ E) in Hle. exact (Qlt_not_le _ _ H Hle).
    + intros [_ H]. apply Qnot_le_lt. intros Hle.
      apply (ratio_le_100 _ _ E) in Hle. exact (Qlt_not_le _ _ H Hle).
  - apply Qgtb_false in E. split; [discriminate|].
    intros [H _]. exfalso. exact (Qlt_not_le _ _ H E).
Qed.

(** X24. The budget figures: [budgetRemaining] is never negative and is 0
    exactly when the spending has reached the budget; the overview and the
    monthly report, each with its own test, flag the same months as over
    budget, those with a positive budget and spending strictly above it,
    and such a month has nothing remaining; with no budget set, or a budget
    of 0, the share used is 0 and the month is never over budget. *)
Theorem budget_figures :
  forall (userBudget : option Q) (spent : Q),
    let budget := orDefault 0%Q userBudget in
    let o := overviewBudget userBudget spent in
    let m := monthlyReportBudget userBudget spent in
    Budget.isOverBudget o = Budget.isOverBudget m
    /\ (Budget.isOverBudget o = true <-> (0 < budget)%Q /\ (budget < spent)%Q)
    /\ (0 <= Budget.budgetRemaining o)%Q
    /\ ((Budget.budgetRemaining o == 0)%Q <-> (budget <= spent)%Q)
    /\ Budget.budgetRemaining m = Budget.budgetRemaining o
    /\ Budget.budgetUsed m = Budget.budgetUsed o
    /\ (~ (0 < budget)%Q ->
        Budget.budgetUsed o = 0%Q /\ Budget.isOverBudget o = false).
Proof.
  intros userBudget spent budget o m.
  unfold o, m, overviewBudget, monthlyReportBudget. simpl. fold budget.
  assert (Hover : Qgtb (if Qgtb budget 0 then spent / budget * 100 else 0) 100 = true
                  <-> (0 < budget)%Q /\ (budget < spent)%Q).
  { destruct (Qgtb budget 0) eqn:E.
    - apply Qgtb_true in E. rewrite Qgtb_true. split.
      + intros H. split; [exact E|]. apply Qnot_le_lt. intros Hle.
        apply (ratio_le_100 _ _ E) in Hle. exact (Qlt_not_le _ _ H Hle).
      + intros [_ H]. apply Qnot_le_lt. intros Hle.
        apply (ratio_le_100 _ _ E) in Hle. exact (Qlt_not_le _ _ H Hle).
    - apply Qgtb_false in E. split; [discriminate|].
      intros [H _]. exfalso. exact (Qlt_not_le _ _ H E). }
  assert (Hm : Qgtb budget 0 && Qgtb spent budget = true
               <-> (0 < budget)%Q /\ (budget < spent)%Q)
    by (rewrite andb_true_iff, !Qgtb_true; reflexivity).
  split; [apply eq_iff_eq_true; rewrite Hover, Hm; reflexivity|].
  split; [exact Hover|]. split; [apply Qmax_0_r_nonneg|]. split.
  { rewrite Qmax_0_r_zero. rewrite <- (Qplus_le_l _ _ spent).
    assert (E : (budget - spent + spent == budget)%Q) by ring.
    rewrite E, Qplus_0_l. reflexivity. }
  split; [reflexivity|]. split; [reflexivity|].
  intros H. destruct (Qgtb budget 0) eqn:E.
  - apply Qgtb_true in E. contradiction.
  - split; reflexivity.
Qed.

Lemma previousAmount_correct (l : list Expense.t) (gs : list CategoryGroup.t)
    (c : string) :
  groupsCorrect l gs ->
  (previousAmount gs c == sumExpenses (ofCategory c l))%Q.
Proof.
  intros (_ & Hall & Hcov). unfold previousAmount.
  destruct (List.find _ gs) as [g|] eqn:E.
  - apply find_some in E as [Hg Hid]. apply String.eqb_eq in Hid.
    rewrite List.Forall_forall in Hall.
    destruct (Hall g Hg) as (Ht & _ & Hs & _). rewrite Hs, Ht, Hid. reflexivity.
  - assert (El : ofCategory c l = []).
    { unfold ofCategory. apply filter_none. apply List.Forall_forall.
      intros x Hx. apply not_true_is_false. intros Hc.
      apply String.eqb_eq in Hc.
      apply Hcov, in_map_iff in Hx as (g & Hid & Hg).
      apply (find_none _ _ E) in Hg.
      rewrite Hid, Hc, String.eqb_refl in Hg. discriminate. }
    rewrite El. reflexivity.
Qed.

(** X25. The category analysis compares each category of the period with
    the same category in the period just before, of the same length: its
    [totalAmount] is the sum of the category's expenses dated from
    [startDate] to [endDate], its [previousPeriodAmount] the sum of those
    dated from [startDate - (endDate - startDate)] to [startDate] (0 when
    there are none), and its [changePercentage] the percentage change from
    the one to the other. Both ranges include their bounds, so an expense
    dated exactly [startDate] counts in both periods. *)
Theorem categoryAnalysis_compares_previous_period :
  forall (u : UserId) (startDate endDate : Z) (db : ExpenseDB),
    let current := List.filter (inPeriod u startDate endDate) db in
    let previous :=
      List.filter (inPeriod u (startDate - (endDate - startDate)) startDate) db in
    Forall (fun c =>
              let id := CategoryGroup._id (AnalysedCategory.group c) in
              (CategoryGroup.totalAmount (AnalysedCategory.group c)
               == sumExpenses (ofCategory id current))%Q
              /\ (AnalysedCategory.previousPeriodAmount c
                  == sumExpenses (ofCategory id previous))%Q
              /\ AnalysedCategory.changePercentage c
                 = percentChange
                     (CategoryGroup.totalAmount (AnalysedCategory.group c))
                     (AnalysedCategory.previousPeriodAmount c))
      (CategoryAnalysis.categories (categoryAnalysis u startDate endDate db))
    /\ (forall e,
           In e db -> Expense.user e = u -> Expense.date e = startDate ->
           startDate <= endDate ->
           In e current /\ In e previous).
Proof.
  intros u startDate endDate db current previous. split.
  - unfold categoryAnalysis.
    cbn [CategoryAnalysis.categories].
    replace (endDate - (endDate - startDate)) with startDate by lia.
    fold current. fold previous.
    apply Forall_map.
    destruct (groupsCorrect_sortBy largerGroup current _
                (groupByCategory_correct current)) as (_ & Hall & _).
    eapply Forall_impl; [exact Hall|]. intros g (Ht & _ & Hs & _).
    cbn [AnalysedCategory.group AnalysedCategory.previousPeriodAmount
         AnalysedCategory.changePercentage].
    split; [rewrite Hs, Ht; reflexivity|].
    split; [apply previousAmount_correct, groupByCategory_correct|].
    reflexivity.
  - intros e He Hu Hd Hle. unfold current, previous.
    split; apply filter_In; (split; [exact He|]); unfold inPeriod;
      rewrite bool_decide_eq_true_2 by exact Hu; simpl;
      apply andb_true_iff; split; apply Z.leb_le; lia.
Qed.

Lemma categoryAnalysis_compares_previous_period_witness :
  In (spend "Groceries" 30 1) twoCategories
  /\ Expense.user (spend "Groceries" 30 1) = alice
  /\ Expense.date (spend "Groceries" 30 1) = 1
  /\ 1 <= 3
  /\ In (spend "Groceries" 30 1) (List.filter (inPeriod alice 1 3) twoCategories)
  /\ In (spend "Groceries" 30 1)
       (List.filter (inPeriod alice (1 - (3 - 1)) 1) twoCategories).
Proof.
  assert (Hi : In (spend "Groceries" 30 1) twoCategories) by (left; reflexivity).
  assert (Hl : 1 <= 3) by lia.
  split; [exact Hi|]. split; [reflexivity|]. split; [reflexivity|].
  split; [exact Hl|].
  exact (proj2 (categoryAnalysis_compares_previous_period alice 1 3 twoCategories)
           (spend "Groceries" 30 1) Hi eq_refl eq_refl Hl).
Defined.

(** ** Buckets *)

Lemma sumBuckets_cons {K} (b : Bucket.t K) (l : list (Bucket.t K)) :
  (sumBuckets (b :: l) == Bucket.totalAmount b + sumBuckets l)%Q.
Proof. apply (sumBy_cons Bucket.totalAmount). Qed.

Lemma sumBuckets_Permutation {K} (l l' : list (Bucket.t K)) :
  Permutation l l' -> (sumBuckets l == sumBuckets l')%Q.
Proof. apply (sumBy_Permutation Bucket.totalAmount). Qed.

Lemma fold_left_Zplus_shift {A} (f : A -> Z) (l : list A) (a : Z) :
  fold_left (fun n x => n + f x) l a = a + fold_left (fun n x => n + f x) l 0.
Proof.
  revert a. induction l as [|x l IH]; intros a; simpl; [lia|].
  rewrite (IH (a + f x)), (IH (0 + f x)). lia.
Qed.

Lemma sumCounts_cons {K} (b : Bucket.t K) (l : list (Bucket.t K)) :
  sumCounts (b :: l) = Bucket.count b + sumCounts l.
Proof. unfold sumCounts. simpl. rewrite fold_left_Zplus_shift. lia. Qed.

Lemma sumCounts_Permutation {K} (l l' : list (Bucket.t K)) :
  Permutation l l' -> sumCounts l = sumCounts l'.
Proof.
  induction 1 as [|x l l' _ IH|x y l|l l' l'' _ IH1 _ IH2].
  - reflexivity.
  - rewrite !sumCounts_cons, IH. reflexivity.
  - rewrite !sumCounts_cons. lia.
  - congruence.
Qed.

Lemma addToBuckets_sums {K} (eqb : K -> K -> bool) (key : Expense.t -> K)
    (e : Expense.t) (bs : list (Bucket.t K)) :
  (sumBuckets (addToBuckets eqb key e bs) == sumBuckets bs + Expense.amount e)%Q
  /\ sumCounts (addToBuckets eqb key e bs) = sumCounts bs + 1
  /\ (length bs <= length (addToBuckets eqb key e bs) <= S (length bs))%nat
  /\ addToBuckets eqb key e bs <> [].
Proof.
  induction bs as [|b bs (IH1 & IH2 & IH3 & _)]; simpl.
  - split; [unfold sumBuckets; simpl; ring|]. split; [reflexivity|].
    split; [lia|discriminate].
  - destruct (eqb (Bucket._id b) (key e)).
    + rewrite !sumBuckets_cons, !sumCounts_cons. simpl.
      split; [ring|]. split; [lia|]. split; [lia|discriminate].
    + rewrite !sumBuckets_cons, !sumCounts_cons, IH1, IH2. simpl.
      split; [ring|]. split; [lia|]. split; [lia|discriminate].
Qed.

Lemma bucketBy_fold_sums {K} (eqb : K -> K -> bool) (key : Expense.t -> K)
    (l : list Expense.t) (acc : list (Bucket.t K)) :
  let bs := fold_left (fun bs e => addToBuckets eqb key e bs) l acc in
  (sumBuckets bs == sumBuckets acc + sumExpenses l)%Q
  /\ sumCounts bs = sumCounts acc + Z.of_nat (length l)
  /\ (length acc <= length bs <= length acc + length l)%nat
  /\ (l <> [] -> bs <> []).
Proof.
  revert acc. induction l as [|e l IH]; intros acc; simpl.
  - split; [unfold sumExpenses; simpl; ring|]. split; [lia|].
    split; [lia|]. intros H. contradiction.
  - destruct (IH (addToBuckets eqb key e acc)) as (H1 & H2 & H3 & H4).
    destruct (addToBuckets_sums eqb key e acc) as (A1 & A2 & A3 & A4).
    split; [rewrite H1, A1, sumExpenses_cons; ring|].
    split; [rewrite H2, A2; lia|]. split; [lia|].
    intros _ E. apply length_zero_iff_nil in E.
    destruct (addToBuckets eqb key e acc); [contradiction|simpl in *; lia].
Qed.

(** Bucketing keeps every expense in one bucket: the buckets' totals add up
    to the sum of the amounts and their counts to the number of expenses;
    there are no more buckets than expenses, and none only if there is no
    expense. *)
Lemma bucketBy_sums {K} (eqb : K -> K -> bool) (key : Expense.t -> K)
    (l : list Expense.t) :
  (sumBuckets (bucketBy eqb key l) == sumExpenses l)%Q
  /\ sumCounts (bucketBy eqb key l) = Z.of_nat (length l)
  /\ (length (bucketBy eqb key l) <= length l)%nat
  /\ (bucketBy eqb key l = [] <-> l = []).
Proof.
  destruct (bucketBy_fold_sums eqb key l []) as (H1 & H2 & H3 & H4).
  unfold bucketBy. split; [rewrite H1; unfold sumBuckets; simpl; ring|].
  split; [rewrite H2; reflexivity|]. split; [simpl in H3; lia|].
  split.
  - intros E. destruct l; [reflexivity|]. exfalso. apply H4; [discriminate|exact E].
  - intros ->. reflexivity.
Qed.

Lemma sortBy_nil_iff {A} (before : A -> A -> bool) (l : list A) :
  sortBy before l = [] <-> l = [].
Proof.
  rewrite <- !length_zero_iff_nil, sortBy_length. reflexivity.
Qed.

Lemma StronglySorted_app_inv {A} (R : A -> A -> Prop) (l1 l2 : list A) :
  StronglySorted R (l1 ++ l2) ->
  forall x y, In x l1 -> In y l2 -> R x y.
Proof.
  induction l1 as [|a l1 IH]; simpl; intros H x y Hx Hy; [destruct Hx|].
  apply StronglySorted_inv in H as [Hs Ha].
  destruct Hx as [<-|Hx].
  - rewrite List.Forall_forall in Ha. apply Ha. apply in_or_app. right. exact Hy.
  - apply (IH Hs); assumption.
Qed.

Section Reports.

Variables getFullYear getMonth getDate : Z -> Z.
Variable mkDate : Z -> Z -> Z -> Z.
Variables dbYear dbMonth dbDayOfMonth dbWeek : Z -> Z.

(** X26. Whatever bucket is asked for, the spending-trends report accounts
    for each of the user's expenses dated from the start of the period to
    the instant of the request exactly once: the buckets' counts add up to
    the number of those expenses and [summary.totalAmount] is the sum of
    their amounts; [averagePerPeriod] times the number of buckets is that
    total. With no such expense there is no bucket and both figures are 0.
    For the periods of 7, 30 and 90 days (30 when none is given) the start
    is that many times 24 hours before the request. *)
Theorem spendingTrends_totals :
  forall (now : Z) (u : UserId) (period : option Period)
         (groupBy : option GroupBy) (db : ExpenseDB),
    let start := trendsStart getFullYear getMonth getDate mkDate now
                   (orDefault Days30 period) in
    let matched := List.filter (inPeriod u start now) db in
    let t := spendingTrends getFullYear getMonth getDate mkDate
               dbYear dbMonth dbDayOfMonth dbWeek now u period groupBy db in
    (Trends.totalAmount t == sumExpenses matched)%Q
    /\ sumCounts (Trends.trends t) = Z.of_nat (length matched)
    /\ Trends.totalPeriods t = Z.of_nat (length (Trends.trends t))
    /\ Trends.totalPeriods t <= Z.of_nat (length matched)
    /\ (Trends.averagePerPeriod t * inject_Z (Trends.totalPeriods t)
        == Trends.totalAmount t)%Q
    /\ (matched = [] ->
        Trends.trends t = [] /\ Trends.totalAmount t = 0%Q
        /\ Trends.averagePerPeriod t = 0%Q)
    /\ (period <> Some Year1 ->
        start = now - (match orDefault Days30 period with
                       | Days7 => 7 | Days90 => 90 | _ => 30 end) * msPerDay).
Proof.
  intros now u period groupBy db start matched t.
  unfold t, spendingTrends. fold start. fold matched.
  cbn [Trends.totalAmount Trends.trends Trends.totalPeriods Trends.averagePerPeriod].
  set (key := trendKey dbYear dbMonth dbDayOfMonth dbWeek (orDefault ByDay groupBy)).
  set (eqb := fun a b : TrendKey.t => bool_decide (a = b)).
  destruct (bucketBy_sums eqb key matched) as (H1 & H2 & H3 & H4).
  set (before := fun a b : Bucket.t TrendKey.t =>
                   earlierKey (Bucket._id a) (Bucket._id b)).
  assert (Hp := sortBy_Permutation before (bucketBy eqb key matched)).
  set (trends := sortBy before (bucketBy eqb key matched)) in *.
  assert (Hlen : length trends = length (bucketBy eqb key matched))
    by apply sortBy_length.
  split; [rewrite <- (sumBuckets_Permutation _ _ Hp); exact H1|].
  split; [rewrite <- (sumCounts_Permutation _ _ Hp); exact H2|].
  split; [reflexivity|]. split; [lia|]. split; [|split].
  - destruct (0 <? Z.of_nat (length trends)) eqn:E.
    + apply Z.ltb_lt in E. field. apply inject_Z_nonzero. lia.
    + apply Z.ltb_ge in E.
      assert (E0 : trends = []) by (apply length_zero_iff_nil; lia).
      rewrite E0. reflexivity.
  - intros E. apply H4 in E.
    assert (E0 : trends = []) by (apply sortBy_nil_iff; exact E).
    rewrite E0. auto.
  - intros Hy. unfold start, trendsStart, msPerDay.
    destruct period as [[| | |]|]; simpl; try lia. contradiction.
Qed.

Lemma monthlyQueryErrors_nil (q : MonthlyQuery.t) :
  monthlyQueryErrors q = []
  <-> (forall y, MonthlyQuery.year q = Some y -> 2020 <= y <= 2030)
      /\ (forall m, MonthlyQuery.month q = Some m -> 1 <= m <= 12).
Proof.
  unfold monthlyQueryErrors. rewrite app_nil.
  destruct (MonthlyQuery.year q) as [y|], (MonthlyQuery.month q) as [m|]; simpl;
    rewrite ?check_nil; split.
  all: try (intros [H1 H2]; split; intros ? [= <-]; lia).
  all: try (intros [H1 H2]; split; try reflexivity;
            try (specialize (H1 _ eq_refl)); try (specialize (H2 _ eq_refl)); lia).
Qed.

(** X27. A monthly report asked for with a year from 2020 to 2030 and a
    month from 1 to 12, or without them, is produced, and its three
    breakdowns, by day, by category and by payment method, each account for
    every expense of the month exactly once: in each, the totals add up to
    [summary.totalExpenses] and the counts to [summary.transactionCount].
    A year or a month outside those bounds is answered 400. *)
Theorem monthlyReport_breakdowns_add_up :
  forall (now : Z) (u : UserId) (userBudget : option Q) (q : MonthlyQuery.t)
         (db : ExpenseDB),
    ((forall y, MonthlyQuery.year q = Some y -> 2020 <= y <= 2030)
     /\ (forall m, MonthlyQuery.month q = Some m -> 1 <= m <= 12) ->
     exists r,
       monthlyReport getFullYear getMonth mkDate dbDayOfMonth now u userBudget q db
       = Ok 200 r
       /\ MonthlyReport.year r = orDefault (getFullYear now) (MonthlyQuery.year q)
       /\ MonthlyReport.month r = orDefault (getMonth now + 1) (MonthlyQuery.month q)
       /\ let total := Summary.totalAmount (MonthlyReport.summary r) in
          let count := Summary.count (MonthlyReport.summary r) in
          total = sumExpenses
                    (List.filter (inPeriod u (MonthlyReport.startDate r)
                                    (MonthlyReport.endDate r)) db)
          /\ (sumBuckets (MonthlyReport.dailyBreakdown r) == total)%Q
          /\ (sumBuckets (MonthlyReport.categoryBreakdown r) == total)%Q
          /\ (sumBuckets (MonthlyReport.paymentMethodBreakdown r) == total)%Q
          /\ sumCounts (MonthlyReport.dailyBreakdown r) = count
          /\ sumCounts (MonthlyReport.categoryBreakdown r) = count
          /\ sumCounts (MonthlyReport.paymentMethodBreakdown r) = count)
    /\ (~ ((forall y, MonthlyQuery.year q = Some y -> 2020 <= y <= 2030)
           /\ (forall m, MonthlyQuery.month q = Some m -> 1 <= m <= 12)) ->
        exists errs,
          monthlyReport getFullYear getMonth mkDate dbDayOfMonth now u userBudget q db
          = Fail 400 "Validation failed" errs).
Proof.
  intros now u userBudget q db. split.
  - intros Hq. apply monthlyQueryErrors_nil in Hq.
    unfold monthlyReport. rewrite Hq.
    eexists. split; [reflexivity|].
    cbn [MonthlyReport.year MonthlyReport.month MonthlyReport.startDate
         MonthlyReport.endDate MonthlyReport.summary MonthlyReport.dailyBreakdown
         MonthlyReport.categoryBreakdown MonthlyReport.paymentMethodBreakdown].
    split; [reflexivity|]. split; [reflexivity|].
    set (matched := List.filter _ db).
    rewrite summarize_totalAmount, summarize_count.
    split; [reflexivity|].
    repeat split;
      first [ rewrite <- (sumBuckets_Permutation _ _ (sortBy_Permutation _ _));
              apply bucketBy_sums
            | rewrite <- (sumCounts_Permutation _ _ (sortBy_Permutation _ _));
              apply bucketBy_sums ].
  - intros Hq. unfold monthlyReport.
    destruct (monthlyQueryErrors q) as [|e errs] eqn:E.
    + exfalso. apply Hq. apply monthlyQueryErrors_nil. exact E.
    + eexists. reflexivity.
Qed.

(** X28. The monthly report's [topExpenses] are the month's largest: there
    are at most ten, ordered from the largest amount down, they are expenses
    of the month, and every expense of the month left out of them has an
    amount no larger than each of theirs. *)
Theorem monthlyReport_topExpenses :
  forall (now : Z) (u : UserId) (userBudget : option Q) (q : MonthlyQuery.t)
         (db : ExpenseDB) (r : MonthlyReport.t),
    monthlyReport getFullYear getMonth mkDate dbDayOfMonth now u userBudget q db
    = Ok 200 r ->
    let month := List.filter (inPeriod u (MonthlyReport.startDate r)
                                (MonthlyReport.endDate r)) db in
    let top := MonthlyReport.topExpenses r in
    length top = Nat.min 10 (length month)
    /\ StronglySorted (fun a b => (Expense.amount b <= Expense.amount a)%Q) top
    /\ exists rest,
         Permutation month (top ++ rest)
         /\ forall x y, In x top -> In y rest ->
                        (Expense.amount y <= Expense.amount x)%Q.
Proof.
  intros now u userBudget q db r. unfold monthlyReport.
  destruct (monthlyQueryErrors q); [|discriminate].
  intros [= <-].
  cbn [MonthlyReport.startDate MonthlyReport.endDate MonthlyReport.topExpenses].
  set (month := List.filter _ db).
  set (before := fun a b : Expense.t => Qgtb (Expense.amount a) (Expense.amount b)).
  assert (Hs : StronglySorted (fun a b => (Expense.amount b <= Expense.amount a)%Q)
                 (sortBy before month)).
  { apply sortBy_StronglySorted; unfold before.
    - intros x y z H1 H2. eapply Qle_trans; eassumption.
    - intros x y H. apply Qgtb_true in H. apply Qlt_le_weak. exact H.
    - intros x y H. apply Qgtb_false in H. exact H. }
  split; [rewrite length_take, sortBy_length; reflexivity|].
  split; [apply StronglySorted_take; exact Hs|].
  exists (drop 10 (sortBy before month)). split.
  - rewrite take_drop. apply sortBy_Permutation.
  - apply StronglySorted_app_inv. rewrite take_drop. exact Hs.
Qed.

(** X29. Asked for without a year and a month, the monthly report covers
    the very period the overview calls the current month: the two give the
    same total, number of expenses and average, the same budget remaining
    and the same over-budget flag. *)
Theorem monthlyReport_default_is_current_month :
  forall (now : Z) (u : UserId) (userBudget : option Q) (db : ExpenseDB)
         (goals : GoalDB),
    let o := overview getFullYear getMonth mkDate now u userBudget db goals in
    exists r,
      monthlyReport getFullYear getMonth mkDate dbDayOfMonth now u userBudget
        (MonthlyQuery.mk None None) db = Ok 200 r
      /\ MonthlyReport.startDate r = mkDate (getFullYear now) (getMonth now) 1
      /\ MonthlyReport.endDate r = mkDate (getFullYear now) (getMonth now + 1) 0
      /\ Summary.totalAmount (MonthlyReport.summary r)
         = MonthTotals.totalExpenses (Overview.currentMonth o)
      /\ Summary.count (MonthlyReport.summary r)
         = MonthTotals.transactionCount (Overview.currentMonth o)
      /\ Summary.averageAmount (MonthlyReport.summary r)
         = MonthTotals.averageTransaction (Overview.currentMonth o)
      /\ Budget.budgetRemaining (MonthlyReport.budget r)
         = Budget.budgetRemaining (Overview.budget o)
      /\ Budget.isOverBudget (MonthlyReport.budget r)
         = Budget.isOverBudget (Overview.budget o).
Proof.
  intros now u userBudget db goals o.
  unfold monthlyReport. cbn [monthlyQueryErrors MonthlyQuery.year MonthlyQuery.month
                             optCheck app orDefault].
  replace (getMonth now + 1 - 1) with (getMonth now) by lia.
  eexists. split; [reflexivity|].
  cbn [MonthlyReport.startDate MonthlyReport.endDate MonthlyReport.summary
       MonthlyReport.budget].
  unfold o, overview.
  cbn [Overview.currentMonth Overview.budget MonthTotals.totalExpenses
       MonthTotals.transactionCount MonthTotals.averageTransaction].
  repeat (split; [reflexivity|]).
  symmetry. apply (budget_figures_flag userBudget).
Qed.

End Reports.

(** ** Authentication *)

Lemma substring_whole (s : string) : String.substring 0 (String.length s) s = s.
Proof. induction s as [|c s IH]; simpl; [reflexivity|]. rewrite IH. reflexivity. Qed.

Lemma bearerToken_of_header (t : string) : bearerToken ("Bearer " +:+ t) = t.
Proof.
  unfold bearerToken.
  change ("Bearer " +:+ t)
    with (String "B" (String "e" (String "a" (String "r" (String "e"
            (String "r" (String " " t))))))).
  cbn [startsWith Ascii.eqb Bool.eqb andb String.length Nat.sub substring].
  rewrite Nat.sub_0_r. apply substring_whole.
Qed.

Section AuthFacts.

Variable User : Type.
Variable verify : string -> Verified.
Variable findById : UserId -> option User.

(** X30. The middleware and the client agree on the header: for the token
    the client holds, the header it sends makes the middleware verify
    exactly that token, and a token sent bare, without the "Bearer " prefix,
    is verified as it is. The request goes on to the route only with a user
    that the verified token names and the user store holds; with no header,
    or an empty one, it is answered 401, and the client sends no header
    when it holds no token. *)
Theorem auth_verifies_the_client_token :
  (forall t, t <> ""%string ->
      auth User verify findById (authorizationHeader (Some t))
      = verdict User verify findById t)
  /\ (forall t, t <> ""%string -> startsWith "Bearer " t = false ->
         auth User verify findById (Some t) = verdict User verify findById t)
  /\ (forall header user,
         auth User verify findById header = Next user ->
         exists token userId,
           header = Some token
           /\ verify (bearerToken token) = Decoded userId
           /\ findById userId = Some user)
  /\ auth User verify findById None = Denied 401 "No token, authorization denied"
  /\ auth User verify findById (Some ""%string)
     = Denied 401 "No token, authorization denied"
  /\ authorizationHeader None = None
  /\ authorizationHeader (Some ""%string) = None.
Proof.
  split; [|split; [|split]].
  - intros t Ht. unfold authorizationHeader.
    rewrite (truthy_Some (Some t) t eq_refl Ht).
    unfold auth.
    assert (Hne : ("Bearer " +:+ t)%string <> ""%string) by discriminate.
    rewrite (truthy_Some _ _ eq_refl Hne), bearerToken_of_header. reflexivity.
  - intros t Ht Hp. unfold auth.
    rewrite (truthy_Some (Some t) t eq_refl Ht).
    unfold bearerToken. rewrite Hp. reflexivity.
  - intros header user. unfold auth.
    destruct header as [token|]; simpl; [|discriminate].
    destruct (String.eqb token ""); [discriminate|].
    destruct (verify (bearerToken token)) as [userId| | |] eqn:Hv; try discriminate.
    destruct (findById userId) as [user'|] eqn:Hf; [|discriminate].
    intros [= <-]. exists token, userId. auto.
  - repeat split; reflexivity.
Qed.

End AuthFacts.

(** ** Instances *)

Lemma goals_stay_wellFormed_witness :
  (forall id g, (∅ : gmap positive Goal.t) !! id = Some g -> wellFormedGoal g)
  /\ writeAll decimal aliceWrites ∅ !! tripId = Some tripAfterFirst
  /\ wellFormedGoal tripAfterFirst.
Proof.
  assert (He : forall id g, (∅ : gmap positive Goal.t) !! id = Some g -> wellFormedGoal g).
  { intros id g H. rewrite lookup_empty in H. discriminate. }
  assert (Hw : writeAll decimal aliceWrites ∅ !! tripId = Some tripAfterFirst)
    by (vm_compute; reflexivity).
  split; [exact He|]. split; [exact Hw|].
  exact (goals_stay_wellFormed decimal aliceWrites ∅ He tripId tripAfterFirst Hw).
Defined.

Lemma listGoals_filtered_witness :
  GoalsQuery.status (GoalsQuery.mk (Some Completed) None) = Some Completed
  /\ GoalStatistics.activeGoals
       (snd (listGoals alice (GoalsQuery.mk (Some Completed) None)
               {[ tripId := tripFunded ]})) = 0
  /\ GoalStatistics.completedGoals
       (snd (listGoals alice (GoalsQuery.mk (Some Completed) None)
               {[ tripId := tripFunded ]})) = 1.
Proof.
  split; [reflexivity|].
  destruct (proj2 (proj2 (proj2 (listGoals_filtered alice
                                   (GoalsQuery.mk (Some Completed) None)
                                   {[ tripId := tripFunded ]})))
              Completed eq_refl) as [Ha Hc].
  split; [rewrite Ha; reflexivity|rewrite Hc; vm_compute; reflexivity].
Defined.

Lemma requiredMonthlyContribution_bounded_witness :
  3 <= GoalProgress.daysRemaining (goalProgress halfDay tenDays)
  /\ (GoalProgress.requiredMonthlyContribution (goalProgress halfDay tenDays)
      == 2100)%Q.
Proof.
  assert (H : 3 <= GoalProgress.daysRemaining (goalProgress halfDay tenDays))
    by (vm_compute; discriminate).
  split; [exact H|].
  rewrite (proj2 (proj2 (proj2 (proj2 (proj2
             (requiredMonthlyContribution_bounded halfDay tenDays))))) H).
  reflexivity.
Defined.

Lemma listExpenses_summary_over_filter_witness :
  listQueryErrors secondPage = []
  /\ exists r,
       listExpenses contains alice secondPage elevenCategories = Ok 200 r
       /\ Summary.count (ExpenseList.summary r) = 11
       /\ length (ExpenseList.expenses r) = 3%nat.
Proof.
  assert (Hv : listQueryErrors secondPage = []) by reflexivity.
  split; [exact Hv|].
  destruct (listExpenses_summary_over_filter contains alice secondPage
              elevenCategories Hv) as (r & Hr & _).
  exists r. split; [exact Hr|].
  assert (E : Ok 200 r = listExpenses contains alice secondPage elevenCategories)
    by (symmetry; exact Hr).
  vm_compute in E. injection E as ->. split; reflexivity.
Defined.

Lemma listExpenses_pages_witness :
  listQueryErrors firstPage = []
  /\ exists r,
       listExpenses contains alice firstPage elevenCategories = Ok 200 r
       /\ Pagination.totalPages (ExpenseList.pagination r) = 3
       /\ Z.of_nat (length (ExpenseList.expenses r)) = 5
       /\ Pagination.hasNext (ExpenseList.pagination r) = true.
Proof.
  assert (Hv : listQueryErrors firstPage = []) by reflexivity.
  split; [exact Hv|].
  destruct (listExpenses_pages contains alice firstPage elevenCategories Hv)
    as (r & Hr & _ & _ & _ & Hfull & _).
  exists r. split; [exact Hr|].
  assert (E : Ok 200 r = listExpenses contains alice firstPage elevenCategories)
    by (symmetry; exact Hr).
  assert (Ht : Pagination.totalPages (ExpenseList.pagination r) = 3).
  { vm_compute in E. injection E as ->. reflexivity. }
  split; [exact Ht|]. apply Hfull. rewrite Ht. reflexivity.
Defined.

Lemma createExpense_then_get_witness :
  createExpense 500 alice lunchId lunchBody ∅ = (Ok 201 lunch, {[ lunchId := lunch ]})
  /\ getExpense alice lunchId {[ lunchId := lunch ]} = Ok 200 lunch
  /\ Expense.date lunch = 500.
Proof.
  assert (Hc : createExpense 500 alice lunchId lunchBody ∅
               = (Ok 201 lunch, {[ lunchId := lunch ]}))
    by (vm_compute; reflexivity).
  destruct (createExpense_then_get 500 alice lunchId lunchBody ∅
              {[ lunchId := lunch ]} lunch 201 Hc) as (Hg & _ & _ & Hd & _).
  split; [exact Hc|]. split; [exact Hg|exact Hd].
Defined.

Lemma expenses_stay_wellFormed_witness :
  (forall id e, (∅ : gmap positive Expense.t) !! id = Some e -> wellFormedExpense e)
  /\ writeAllExpenses [(500, alice, CreateExpense lunchId lunchBody)] ∅ !! lunchId
     = Some lunch
  /\ wellFormedExpense lunch.
Proof.
  assert (He : forall id e, (∅ : gmap positive Expense.t) !! id = Some e
                            -> wellFormedExpense e).
  { intros id e H. rewrite lookup_empty in H. discriminate. }
  assert (Hw : writeAllExpenses [(500, alice, CreateExpense lunchId lunchBody)] ∅
                 !! lunchId = Some lunch) by (vm_compute; reflexivity).
  split; [exact He|]. split; [exact Hw|].
  exact (expenses_stay_wellFormed _ ∅ He lunchId lunch Hw).
Defined.

Lemma budget_figures_witness :
  ~ (0 < orDefault 0 None)%Q
  /\ Budget.budgetUsed (overviewBudget None 250) = 0%Q
  /\ Budget.isOverBudget (overviewBudget None 250) = false.
Proof.
  assert (H : ~ (0 < orDefault 0 None)%Q) by discriminate.
  split; [exact H|].
  exact (proj2 (proj2 (proj2 (proj2 (proj2 (proj2 (budget_figures None 250)))))) H).
Defined.

Lemma spendingTrends_totals_witness :
  Some Days7 <> Some Year1
  /\ trendsStart toyFullYear toyGetMonth toyGetDate toyDate (10 * msPerDay)
       (orDefault Days30 (Some Days7))
     = 10 * msPerDay - 7 * msPerDay.
Proof.
  assert (H : Some Days7 <> Some Year1) by discriminate.
  split; [exact H|].
  exact (proj2 (proj2 (proj2 (proj2 (proj2 (proj2
           (spendingTrends_totals toyFullYear toyGetMonth toyGetDate toyDate
              toyFullYear toyGetMonth toyGetDate (fun _ => 0)
              (10 * msPerDay) alice (Some Days7) None [])))))) H).
Defined.

Lemma monthlyReport_breakdowns_add_up_witness :
  ((forall y, MonthlyQuery.year may2024 = Some y -> 2020 <= y <= 2030)
   /\ (forall m, MonthlyQuery.month may2024 = Some m -> 1 <= m <= 12))
  /\ exists r,
       monthlyReport toyFullYear toyGetMonth toyDate toyGetDate 0 alice None
         may2024 mayExpenses = Ok 200 r
       /\ (sumBuckets (MonthlyReport.categoryBreakdown r)
           == Summary.totalAmount (MonthlyReport.summary r))%Q.
Proof.
  assert (H : (forall y, MonthlyQuery.year may2024 = Some y -> 2020 <= y <= 2030)
              /\ (forall m, MonthlyQuery.month may2024 = Some m -> 1 <= m <= 12)).
  { split; intros ? [= <-]; lia. }
  split; [exact H|].
  destruct (proj1 (monthlyReport_breakdowns_add_up toyFullYear toyGetMonth toyDate
                     toyGetDate 0 alice None may2024 mayExpenses) H)
    as (r & Hr & _ & _ & _ & _ & Hc & _).
  exists r. auto.
Defined.

Lemma monthlyReport_topExpenses_witness :
  exists r,
    monthlyReport toyFullYear toyGetMonth toyDate toyGetDate 0 alice None
      may2024 mayExpenses = Ok 200 r
    /\ map Expense.amount (MonthlyReport.topExpenses r) = [50%Q; 30%Q; 20%Q]
    /\ length (MonthlyReport.topExpenses r)
       = Nat.min 10 (length (List.filter
                               (inPeriod alice (MonthlyReport.startDate r)
                                  (MonthlyReport.endDate r)) mayExpenses)).
Proof.
  assert (H : exists r,
             monthlyReport toyFullYear toyGetMonth toyDate toyGetDate 0 alice None
               may2024 mayExpenses = Ok 200 r
             /\ map Expense.amount (MonthlyReport.topExpenses r) = [50%Q; 30%Q; 20%Q])
    by (eexists; split; vm_compute; reflexivity).
  destruct H as (r & Hr & Ht). exists r. split; [exact Hr|]. split; [exact Ht|].
  exact (proj1 (monthlyReport_topExpenses toyFullYear toyGetMonth toyDate toyGetDate
                  0 alice None may2024 mayExpenses r Hr)).
Defined.

Lemma auth_verifies_the_client_token_witness :
  "good-token"%string <> ""%string
  /\ auth string toyVerify toyFindById (authorizationHeader (Some "good-token"%string))
     = Next "Alice"%string.
Proof.
  assert (H : "good-token"%string <> ""%string) by discriminate.
  split; [exact H|].
  rewrite (proj1 (auth_verifies_the_client_token string toyVerify toyFindById)
             "good-token"%string H).
  reflexivity.
Defined.
